(** * MariaDB -> ScyllaDB migration setup: a shallow embedding of
      [setup_migration.py] and the properties of its schema-translation
      and replication-setup engine.

    Conventions of the embedding.
    - Python [str] values are [string]s (byte strings).  Type strings and
      identifiers coming out of the MariaDB catalog are ASCII; [lower]
      folds the ASCII letters only.
    - An f-string is the concatenation ([+:+]) of its pieces.
    - [print] appends a [Print] event to the run's trace; every
      [cursor.execute] / [session.execute] appends an [Exec] event that
      records the statement and whether the engine accepted it.
    - An engine is a state type together with [execute]; the Python code is
      written once, over an arbitrary engine, in a state-and-exception
      monad. *)

From Stdlib Require Import String Ascii List ZArith Lia DecimalString Sorted Permutation.
From stdpp Require Import base strings list gmap.

Open Scope string_scope.
Open Scope list_scope.

(** ** Python string primitives *)

Module Py.

(** [str.lower] on ASCII text. *)
Definition lower_ascii (c : ascii) : ascii :=
  let n := nat_of_ascii c in
  if (65 <=? n)%nat && (n <=? 90)%nat then ascii_of_nat (n + 32) else c.

Fixpoint lower (s : string) : string :=
  match s with
  | EmptyString => EmptyString
  | String c r => String (lower_ascii c) (lower r)
  end.

(** [s.split(sep)[0]]: the text before the first occurrence of the
    one-character separator (the whole of [s] when there is none). *)
Fixpoint split_head (sep : ascii) (s : string) : string :=
  match s with
  | EmptyString => EmptyString
  | String c r => if Ascii.eqb c sep then EmptyString else String c (split_head sep r)
  end.

(** [s.startswith(p)]. *)
Definition startswith (s p : string) : bool := String.prefix p s.

(** [p in s]: substring test. *)
Fixpoint contains (p s : string) : bool :=
  String.prefix p s ||
  match s with
  | EmptyString => false
  | String _ r => contains p r
  end.

(** [sep.join(l)]. *)
Fixpoint join (sep : string) (l : list string) : string :=
  match l with
  | [] => EmptyString
  | [x] => x
  | x :: r => x +:+ sep +:+ join sep r
  end.

(** [s * n]. *)
Fixpoint mul (s : string) (n : nat) : string :=
  match n with
  | O => EmptyString
  | S k => s +:+ mul s k
  end.

(** [str(n)] for a non-negative integer. *)
Definition str_of_N (n : N) : string := NilZero.string_of_uint (N.to_uint n).

(** [sorted(l, key=len, reverse=True)]: a stable sort, longest first;
    elements of equal length keep their original relative order. *)
Fixpoint insert_by_len (x : string) (l : list string) : list string :=
  match l with
  | [] => [x]
  | y :: r =>
      if (String.length x <? String.length y)%nat
      then y :: insert_by_len x r
      else x :: y :: r
  end.

Definition sorted_by_len_desc (l : list string) : list string :=
  fold_right insert_by_len [] l.

(** A [dict] with string keys, in insertion order. *)
Definition dict (V : Type) := list (string * V).

Definition keys {V} (d : dict V) : list string := map fst d.

Fixpoint getitem {V} (d : dict V) (k : string) : option V :=
  match d with
  | [] => None
  | (k', v) :: r => if String.eqb k' k then Some v else getitem r k
  end.

End Py.

(** ** Exceptions and outcomes *)

Inductive exn :=
| DbError (msg : string)       (* raised by [execute]; an [Exception] *)
| KeyError (key : string)      (* [d[key]] on a missing key; an [Exception] *)
| SystemExit (code : Z).       (* [sys.exit]; not an [Exception] *)

Inductive outcome (A : Type) :=
| Return (a : A)
| Raise (e : exn).
Arguments Return {A} a.
Arguments Raise {A} e.

(** [str(e)] as the handlers print it. *)
Definition exn_str (e : exn) : string :=
  match e with
  | DbError msg => msg
  | KeyError k => "'" +:+ k +:+ "'"
  | SystemExit c => NilZero.string_of_int (Z.to_int c)
  end.

(** ** The type mapper (setup_migration.py, [mariadb_type_to_cql_type]) *)

Definition type_mapping : Py.dict string :=
  [ ("tinyint", "tinyint");
    ("smallint", "smallint");
    ("int", "int");
    ("bigint", "bigint");
    ("float", "float");
    ("double", "double");
    ("decimal", "decimal");
    ("varchar", "text");
    ("char", "text");
    ("text", "text");
    ("tinytext", "text");
    ("mediumtext", "text");
    ("longtext", "text");
    ("varbinary", "blob");
    ("binary", "blob");
    ("blob", "blob");
    ("tinyblob", "blob");
    ("mediumblob", "blob");
    ("longblob", "blob");
    ("date", "date");
    ("datetime", "timestamp");
    ("timestamp", "timestamp");
    ("time", "time") ].

(** The keys in the order the loop tests them. *)
Definition mapping_keys_in_test_order : list string :=
  Py.sorted_by_len_desc (Py.keys type_mapping).

(** The [for key in sorted(...)] loop: [None] when it falls through,
    [Some (Return v)] on [return type_mapping[key]]. *)
Fixpoint match_loop (base_type : string) (ks : list string) : option (outcome string) :=
  match ks with
  | [] => None
  | key :: rest =>
      if Py.startswith base_type key then
        match Py.getitem type_mapping key with
        | Some v => Some (Return v)
        | None => Some (Raise (KeyError key))
        end
      else match_loop base_type rest
  end.

Definition unknown_type_warning (mariadb_type : string) : string :=
  "    ⚠ Warning: Unknown type '" +:+ mariadb_type +:+ "', using 'text'".

(** The result together with the lines the call prints. *)
Definition mariadb_type_to_cql_type (mariadb_type : string) : outcome string * list string :=
  let mariadb_type_lower := Py.lower mariadb_type in
  let base_type := Py.split_head "(" mariadb_type_lower in
  match match_loop base_type mapping_keys_in_test_order with
  | Some r => (r, [])
  | None =>
      if Py.contains "binary(16)" mariadb_type_lower || Py.contains "char(36)" mariadb_type_lower
      then (Return "uuid", [])
      else (Return "text", [unknown_type_warning mariadb_type])
  end.

(** ** Data model *)

(** A column as [get_table_schema] returns it: the dict with keys
    ['name'], ['type'], ['nullable'] and ['is_primary']. *)
Record column := Column {
  name : string;
  type : string;
  nullable : bool;
  is_primary : bool
}.

(** One row of [information_schema.columns] as the schema query selects it:
    [(column_name, column_type, is_nullable, column_key)]. *)
Definition catalog_row : Type := string * string * string * string.

(** One row of [SHOW FULL COLUMNS] read through a dictionary cursor; only
    the entries ['Field'] and ['Type'] are used. *)
Record full_column := FullColumn {
  Field : string;
  Type_ : string
}.

(** The command-line arguments the engine reads. *)
Record arguments := Arguments_ {
  mariadb_database : string;
  mariadb_scylla_database : string;
  mariadb_verbose : bool;
  scylla_port : Z;
  scylla_ks : string;
  scylla_fdw_host : string
}.

(** ** Statements sent to the two engines *)

Inductive stmt :=
(* through the MariaDB connection *)
| CreateDatabase (scylla_database : string)
| SelectTables (database : string)
| SelectColumns (database table : string)
| CreateMirrorTable (scylla_database table : string) (column_defs : list string) (comment : string)
| DropTrigger (source_database trigger_name : string)
| Delimiter (d : string)
| CreateInsertTrigger (source_database scylla_database table
                       debug_start col_list new_col_list debug_end : string)
| CreateUpdateTrigger (source_database scylla_database table
                       debug_start update_col_list where_clause debug_end : string)
| CreateDeleteTrigger (source_database scylla_database table
                       debug_start where_clause debug_end : string)
| ShowFullColumns (database table : string)
| SelectPrimaryKey (database table : string)
| SelectCount (source_database table : string)
| InsertSelect (scylla_database source_database table : string)
(* through the ScyllaDB session *)
| CreateKeyspace (keyspace : string)
| CreateScyllaTable (keyspace table : string) (col_defs : list string) (pk_def : string).

Definition nl : string := String (ascii_of_nat 10) EmptyString.

(** The text of each statement, as the f-strings build it. *)
Definition stmt_text (s : stmt) : string :=
  match s with
  | CreateDatabase scylla_database =>
      "CREATE DATABASE IF NOT EXISTS " +:+ scylla_database
  | SelectTables database =>
      nl +:+ "            SELECT table_name" +:+
      nl +:+ "            FROM information_schema.tables" +:+
      nl +:+ "            WHERE table_schema = '" +:+ database +:+ "'" +:+
      nl +:+ "            AND table_type = 'BASE TABLE'" +:+
      nl +:+ "            ORDER BY table_name" +:+
      nl +:+ "        "
  | SelectColumns database table =>
      nl +:+ "            SELECT column_name, column_type, is_nullable, column_key" +:+
      nl +:+ "            FROM information_schema.columns" +:+
      nl +:+ "            WHERE table_schema = '" +:+ database +:+ "'" +:+
      nl +:+ "            AND table_name = '" +:+ table +:+ "'" +:+
      nl +:+ "            ORDER BY ordinal_position" +:+
      nl +:+ "        "
  | CreateMirrorTable scylla_database table column_defs comment =>
      nl +:+ "            CREATE TABLE IF NOT EXISTS `" +:+ scylla_database +:+ "`.`" +:+ table +:+ "` (" +:+
      nl +:+ "                " +:+ Py.join ", " column_defs +:+
      nl +:+ "            ) ENGINE=SCYLLA" +:+
      nl +:+ "            COMMENT='" +:+ comment +:+ "'" +:+
      nl +:+ "        "
  | DropTrigger source_database trigger_name =>
      "DROP TRIGGER IF EXISTS `" +:+ source_database +:+ "`.`" +:+ trigger_name +:+ "`"
  | Delimiter d => "DELIMITER " +:+ d
  | CreateInsertTrigger source_database scylla_database table debug_start col_list new_col_list debug_end =>
      nl +:+ "CREATE TRIGGER `" +:+ source_database +:+ "`.`" +:+ table +:+ "_insert_trigger`" +:+
      nl +:+ "AFTER INSERT ON `" +:+ source_database +:+ "`.`" +:+ table +:+ "`" +:+
      nl +:+ "FOR EACH ROW" +:+
      nl +:+ "BEGIN" +:+
      nl +:+ "    " +:+ debug_start +:+
      nl +:+ "    INSERT INTO `" +:+ scylla_database +:+ "`.`" +:+ table +:+ "` (" +:+ col_list +:+ ")" +:+
      nl +:+ "    VALUES (" +:+ new_col_list +:+ ");" +:+
      nl +:+ "    " +:+ debug_end +:+
      nl +:+ "END$$" +:+
      nl +:+ "        "
  | CreateUpdateTrigger source_database scylla_database table debug_start update_col_list where_clause debug_end =>
      nl +:+ "CREATE TRIGGER `" +:+ source_database +:+ "`.`" +:+ table +:+ "_update_trigger`" +:+
      nl +:+ "AFTER UPDATE ON `" +:+ source_database +:+ "`.`" +:+ table +:+ "`" +:+
      nl +:+ "FOR EACH ROW" +:+
      nl +:+ "BEGIN" +:+
      nl +:+ "    " +:+ debug_start +:+
      nl +:+ "    UPDATE `" +:+ scylla_database +:+ "`.`" +:+ table +:+ "`" +:+
      nl +:+ "    SET " +:+ update_col_list +:+
      nl +:+ "    WHERE " +:+ where_clause +:+ ";" +:+
      nl +:+ "    " +:+ debug_end +:+
      nl +:+ "END$$" +:+
      nl +:+ "        "
  | CreateDeleteTrigger source_database scylla_database table debug_start where_clause debug_end =>
      nl +:+ "CREATE TRIGGER `" +:+ source_database +:+ "`.`" +:+ table +:+ "_delete_trigger`" +:+
      nl +:+ "AFTER DELETE ON `" +:+ source_database +:+ "`.`" +:+ table +:+ "`" +:+
      nl +:+ "FOR EACH ROW" +:+
      nl +:+ "BEGIN" +:+
      nl +:+ "    " +:+ debug_start +:+
      nl +:+ "    DELETE FROM `" +:+ scylla_database +:+ "`.`" +:+ table +:+ "` WHERE " +:+ where_clause +:+ ";" +:+
      nl +:+ "    " +:+ debug_end +:+
      nl +:+ "END$$" +:+
      nl +:+ "        "
  | ShowFullColumns database table =>
      "SHOW FULL COLUMNS FROM `" +:+ database +:+ "`.`" +:+ table +:+ "`"
  | SelectPrimaryKey database table =>
      nl +:+ "            SELECT column_name" +:+
      nl +:+ "            FROM information_schema.key_column_usage" +:+
      nl +:+ "            WHERE table_schema = '" +:+ database +:+ "'" +:+
      nl +:+ "            AND table_name = '" +:+ table +:+ "'" +:+
      nl +:+ "            AND constraint_name = 'PRIMARY'" +:+
      nl +:+ "            ORDER BY ordinal_position" +:+
      nl +:+ "        "
  | SelectCount source_database table =>
      "SELECT COUNT(*) FROM `" +:+ source_database +:+ "`.`" +:+ table +:+ "`"
  | InsertSelect scylla_database source_database table =>
      nl +:+ "            INSERT INTO `" +:+ scylla_database +:+ "`.`" +:+ table +:+ "`" +:+
      nl +:+ "            SELECT * FROM `" +:+ source_database +:+ "`.`" +:+ table +:+ "`" +:+
      nl +:+ "        "
  | CreateKeyspace keyspace =>
      nl +:+ "            CREATE KEYSPACE IF NOT EXISTS " +:+ keyspace +:+
      nl +:+ "            WITH replication = {'class': 'SimpleStrategy', 'replication_factor': 1}" +:+
      nl +:+ "        "
  | CreateScyllaTable keyspace table col_defs pk_def =>
      nl +:+ "            CREATE TABLE IF NOT EXISTS " +:+ keyspace +:+ "." +:+ table +:+ " (" +:+
      nl +:+ "                " +:+ Py.join ", " col_defs +:+ "," +:+
      nl +:+ "                " +:+ pk_def +:+
      nl +:+ "            )" +:+
      nl +:+ "        "
  end.

(** What [execute] followed by the fetch hands back to the caller. *)
Definition reply (s : stmt) : Type :=
  match s with
  | SelectTables _ => list string
  | SelectColumns _ _ => list catalog_row
  | ShowFullColumns _ _ => list full_column
  | SelectPrimaryKey _ _ => list string
  | SelectCount _ _ => N
  | _ => unit
  end.

(** ** Traces *)

Inductive event :=
| Print (line : string)                       (* [print(line)] *)
| PrintExc (e : exn)                          (* [traceback.print_exc()] *)
| Exec (s : stmt) (error : option string).    (* [execute]; [Some msg] when it raised *)

(** ** The monad the program runs in

    A computation takes the engine state and gives back an outcome, the new
    engine state and the events it produced, in order. *)

Declare Scope py_scope.
Delimit Scope py_scope with py.

Section Program.

Context {world : Type}.

(** [execute s w]: [inl msg] when the engine raises, [inr r] with the
    fetched result otherwise. *)
Variable execute : forall s : stmt, world -> (string + reply s) * world.

Definition M (A : Type) : Type := world -> outcome A * world * list event.

Definition ret {A} (a : A) : M A := fun w => (Return a, w, []).

Definition raise {A} (e : exn) : M A := fun w => (Raise e, w, []).

Definition bind {A B} (m : M A) (k : A -> M B) : M B :=
  fun w =>
    match m w with
    | (Return a, w1, t1) =>
        match k a w1 with
        | (r, w2, t2) => (r, w2, t1 ++ t2)
        end
    | (Raise e, w1, t1) => (Raise e, w1, t1)
    end.

Notation "'let*' x ':=' m 'in' k" := (bind m (fun x => k))
  (at level 10, x name, m at level 100, k at level 200) : py_scope.
Notation "m '>>' k" := (bind m (fun _ => k))
  (at level 100, k at level 200, right associativity) : py_scope.
Local Open Scope py_scope.

Definition print (line : string) : M unit := fun w => (Return tt, w, [Print line]).

Definition print_exc (e : exn) : M unit := fun w => (Return tt, w, [PrintExc e]).

Definition exec (s : stmt) : M (reply s) :=
  fun w =>
    match execute s w with
    | (inr r, w1) => (Return r, w1, [Exec s None])
    | (inl msg, w1) => (Raise (DbError msg), w1, [Exec s (Some msg)])
    end.

(** [exec] for its effect only. *)
Definition exec_ (s : stmt) : M unit := exec s >> ret tt.

Definition is_Exception (e : exn) : bool :=
  match e with
  | SystemExit _ => false
  | _ => true
  end.

(** [try: body / except Exception as e: handler e]. *)
Definition try_except {A} (body : M A) (handler : exn -> M A) : M A :=
  fun w =>
    match body w with
    | (Raise e, w1, t1) =>
        if is_Exception e then
          match handler e w1 with
          | (r, w2, t2) => (r, w2, t1 ++ t2)
          end
        else (Raise e, w1, t1)
    | r => r
    end.

(** [try: body / except: pass]. *)
Definition try_except_pass (body : M unit) : M unit :=
  fun w =>
    match body w with
    | (Raise _, w1, t1) => (Return tt, w1, t1)
    | r => r
    end.

(** [try: body / finally: fin]. *)
Definition try_finally {A} (body : M A) (fin : M unit) : M A :=
  fun w =>
    match body w with
    | (r, w1, t1) =>
        match fin w1 with
        | (Return _, w2, t2) => (r, w2, t1 ++ t2)
        | (Raise e, w2, t2) => (Raise e, w2, t1 ++ t2)
        end
    end.

Fixpoint for_each {A} (l : list A) (body : A -> M unit) : M unit :=
  match l with
  | [] => ret tt
  | x :: r => body x >> for_each r body
  end.

(** [cursor.close()]: releases the handle; nothing the properties below
    observe. *)
Definition cursor_close : M unit := ret tt.

(** Running the type mapper inside the program: its lines are printed
    as it goes. *)
Definition call_mariadb_type_to_cql_type (mariadb_type : string) : M string :=
  fun w =>
    match mariadb_type_to_cql_type mariadb_type with
    | (r, lines) => (r, w, map Print lines)
    end.

(** *** [create_scylla_database] *)
Definition create_scylla_database (scylla_database : string) : M unit :=
  try_finally
    (try_except
       (print ("  Creating database '" +:+ scylla_database +:+ "'...") >>
        exec_ (CreateDatabase scylla_database) >>
        print ("  ✓ Database '" +:+ scylla_database +:+ "' ready"))
       (fun e =>
          print ("  ✗ Error creating database: " +:+ exn_str e) >>
          raise e))
    cursor_close.

(** *** [get_source_tables] *)
Definition get_source_tables (database : string) : M (list string) :=
  try_finally
    (let* rows := exec (SelectTables database) in
     ret rows)
    cursor_close.

(** *** [get_table_schema] *)
Definition column_of_row (row : catalog_row) : column :=
  match row with
  | (col_name, col_type, nullable, key) =>
      {| name := col_name;
         type := col_type;
         nullable := String.eqb nullable "YES";
         is_primary := String.eqb key "PRI" |}
  end.

Definition get_table_schema (database table : string) : M (list column) :=
  try_finally
    (let* rows := exec (SelectColumns database table) in
     ret (map column_of_row rows))
    cursor_close.


(** *** [create_mariadb_scylla_table] *)

Definition col_def (col : column) : string :=
  let col_def := "`" +:+ name col +:+ "` " +:+ type col in
  if negb (nullable col) then col_def +:+ " NOT NULL" else col_def.

(** One turn of the [for col in columns] loop on the two accumulators
    [(column_defs, primary_keys)]. *)
Definition mirror_loop_body (acc : list string * list string) (col : column)
  : list string * list string :=
  let '(column_defs, primary_keys) := acc in
  let column_defs := column_defs ++ [col_def col] in
  if is_primary col
  then (column_defs, primary_keys ++ ["`" +:+ name col +:+ "`"])
  else (column_defs, primary_keys).

Definition mirror_loop (columns : list column) : list string * list string :=
  fold_left mirror_loop_body columns ([], []).

Definition primary_key_constraint (primary_keys : list string) : string :=
  "PRIMARY KEY (" +:+ Py.join ", " primary_keys +:+ ")".

(** [column_defs] as it stands when the statement is built. *)
Definition mirror_column_defs (columns : list column) : list string :=
  let '(column_defs, primary_keys) := mirror_loop columns in
  match primary_keys with
  | [] => column_defs
  | _ :: _ => column_defs ++ [primary_key_constraint primary_keys]
  end.

Definition mirror_comment (scylla_keyspace scylla_host table : string) (args : arguments) : string :=
  let comment :=
    "scylla_hosts=" +:+ scylla_host +:+ ";scylla_keyspace=" +:+ scylla_keyspace +:+
    ";scylla_table=" +:+ table in
  if mariadb_verbose args then comment +:+ ";scylla_verbose=true" else comment.

Definition mirror_create_stmt (columns : list column)
    (scylla_database scylla_keyspace scylla_host table : string) (args : arguments) : stmt :=
  CreateMirrorTable scylla_database table (mirror_column_defs columns)
    (mirror_comment scylla_keyspace scylla_host table args).

Definition create_mariadb_scylla_table
    (source_database scylla_database scylla_keyspace scylla_host : string)
    (scylla_port : Z) (table : string) (args : arguments) : M bool :=
  try_finally
    (try_except
       (let* columns := get_table_schema source_database table in
        match columns with
        | [] =>
            print ("  ✗ No columns found for " +:+ source_database +:+ "." +:+ table) >>
            ret false
        | _ :: _ =>
            print ("  Creating ScyllaDB-backed table " +:+ scylla_database +:+ "." +:+ table +:+ "...") >>
            exec_ (mirror_create_stmt columns scylla_database scylla_keyspace scylla_host table args) >>
            print ("  ✓ Table " +:+ scylla_database +:+ "." +:+ table +:+ " created") >>
            ret true
        end)
       (fun e =>
          print ("  ✗ Error creating table " +:+ scylla_database +:+ "." +:+ table +:+ ": " +:+ exn_str e) >>
          ret false))
    cursor_close.

(** *** [create_replication_triggers] *)

Definition backquoted (c : string) : string := "`" +:+ c +:+ "`".
Definition new_value (c : string) : string := "NEW.`" +:+ c +:+ "`".
Definition old_key_test (pk : string) : string := "`" +:+ pk +:+ "` = OLD.`" +:+ pk +:+ "`".
Definition new_assignment (c : string) : string := "`" +:+ c +:+ "` = NEW.`" +:+ c +:+ "`".

Definition col_names (columns : list column) : list string := map name columns.

Definition col_list (columns : list column) : string :=
  Py.join ", " (map backquoted (col_names columns)).

Definition new_col_list (columns : list column) : string :=
  Py.join ", " (map new_value (col_names columns)).

Definition primary_keys (columns : list column) : list string :=
  map name (List.filter is_primary columns).

Definition where_clause (columns : list column) : string :=
  Py.join " AND " (map old_key_test (primary_keys columns)).

Definition update_col_list (columns : list column) : string :=
  Py.join ", " (map new_assignment (col_names columns)).

Definition trigger_name (table trigger_type : string) : string :=
  table +:+ "_" +:+ trigger_type +:+ "_trigger".

(** The [SIGNAL] line placed around the body in verbose mode, the empty
    string otherwise. *)
Definition debug_line (args : arguments) (table trigger_type position : string) : string :=
  if mariadb_verbose args
  then "SIGNAL SQLSTATE '01000' SET MESSAGE_TEXT = 'DEBUG: " +:+ table +:+ "_" +:+
       trigger_type +:+ "_trigger " +:+ position +:+ "';"
  else EmptyString.

Definition insert_trigger (columns : list column)
    (source_database scylla_database table : string) (args : arguments) : stmt :=
  CreateInsertTrigger source_database scylla_database table
    (debug_line args table "insert" "START")
    (col_list columns) (new_col_list columns)
    (debug_line args table "insert" "END").

Definition update_trigger (columns : list column)
    (source_database scylla_database table : string) (args : arguments) : stmt :=
  CreateUpdateTrigger source_database scylla_database table
    (debug_line args table "update" "START")
    (update_col_list columns) (where_clause columns)
    (debug_line args table "update" "END").

Definition delete_trigger (columns : list column)
    (source_database scylla_database table : string) (args : arguments) : stmt :=
  CreateDeleteTrigger source_database scylla_database table
    (debug_line args table "delete" "START")
    (where_clause columns)
    (debug_line args table "delete" "END").

Definition drop_existing_triggers (source_database table : string) : M unit :=
  for_each ["insert"; "update"; "delete"]
    (fun trigger_type =>
       let trigger_name := trigger_name table trigger_type in
       try_except_pass (exec_ (DropTrigger source_database trigger_name))).

Definition create_replication_triggers
    (source_database scylla_database table : string) (args : arguments) : M bool :=
  try_finally
    (try_except
       (let* columns := get_table_schema source_database table in
        match columns with
        | [] =>
            print ("  ✗ No columns found for " +:+ source_database +:+ "." +:+ table) >>
            ret false
        | _ :: _ =>
            match primary_keys columns with
            | [] =>
                print ("  ✗ No primary key found for " +:+ source_database +:+ "." +:+ table +:+
                       ", cannot create triggers") >>
                ret false
            | _ :: _ =>
                drop_existing_triggers source_database table >>
                print ("  Creating replication triggers for " +:+ source_database +:+ "." +:+ table +:+ "...") >>
                exec_ (Delimiter "$$") >>
                exec_ (insert_trigger columns source_database scylla_database table args) >>
                exec_ (Delimiter ";") >>
                print "    ✓ INSERT trigger created" >>
                exec_ (Delimiter "$$") >>
                exec_ (update_trigger columns source_database scylla_database table args) >>
                exec_ (Delimiter ";") >>
                print "    ✓ UPDATE trigger created" >>
                exec_ (Delimiter "$$") >>
                exec_ (delete_trigger columns source_database scylla_database table args) >>
                exec_ (Delimiter ";") >>
                print "    ✓ DELETE trigger created" >>
                ret true
            end
        end)
       (fun e =>
          print ("  ✗ Error creating triggers for " +:+ source_database +:+ "." +:+ table +:+ ": " +:+
                 exn_str e) >>
          print_exc e >>
          ret false))
    cursor_close.


(** *** [create_keyspace] *)
Definition create_keyspace (keyspace : string) : M unit :=
  try_except
    (exec_ (CreateKeyspace keyspace) >>
     print ("    ✓ Keyspace '" +:+ keyspace +:+ "' ready"))
    (fun e =>
       print ("    ✗ Error creating keyspace: " +:+ exn_str e) >>
       raise e).

(** *** [create_scylla_table] *)

(** The [for col in columns] loop, [col_defs] being what it has
    appended so far. *)
Fixpoint scylla_col_defs_loop (columns : list full_column) (col_defs : list string)
  : M (list string) :=
  match columns with
  | [] => ret col_defs
  | col :: rest =>
      let col_name := Field col in
      let col_type := Type_ col in
      let* cql_type := call_mariadb_type_to_cql_type col_type in
      scylla_col_defs_loop rest (col_defs ++ [col_name +:+ " " +:+ cql_type])
  end.

Definition create_scylla_table (table_name : string) (columns : list full_column)
    (pk_columns : list string) (keyspace : string) : M unit :=
  try_except
    (print ("    Creating ScyllaDB table '" +:+ keyspace +:+ "." +:+ table_name +:+ "'...") >>
     let* col_defs := scylla_col_defs_loop columns [] in
     let pk_def := "PRIMARY KEY (" +:+ Py.join ", " pk_columns +:+ ")" in
     exec_ (CreateScyllaTable keyspace table_name col_defs pk_def) >>
     print "    ✓ ScyllaDB table created")
    (fun e =>
       print ("    ✗ Error creating ScyllaDB table: " +:+ exn_str e) >>
       raise e).

(** *** [setup_table_migration] *)
Definition setup_table_migration (table_name : string) (args : arguments) : M unit :=
  try_finally
    (print ("  Getting table structure for '" +:+ table_name +:+ "'...") >>
     let* columns := exec (ShowFullColumns (mariadb_database args) table_name) in
     let* pk_columns := exec (SelectPrimaryKey (mariadb_database args) table_name) in
     match pk_columns with
     | [] =>
         print ("  ✗ Error: Table '" +:+ table_name +:+ "' has no primary key") >>
         print "    ScyllaDB requires a primary key. Skipping this table."
     | _ :: _ =>
         create_keyspace (scylla_ks args) >>
         create_scylla_table table_name columns pk_columns (scylla_ks args) >>
         (let* _ := create_mariadb_scylla_table (mariadb_database args)
                      (mariadb_scylla_database args) (scylla_ks args) (scylla_fdw_host args)
                      (scylla_port args) table_name args in
          let* _ := create_replication_triggers (mariadb_database args)
                      (mariadb_scylla_database args) table_name args in
          ret tt)
     end)
    cursor_close.

(** *** [migrate_table_data] *)
Definition migrate_table_data (source_database scylla_database table_name : string) : M unit :=
  try_finally
    (try_except
       (print (nl +:+ "  Migrating existing data for table '" +:+ table_name +:+ "'...") >>
        let* row_count := exec (SelectCount source_database table_name) in
        if (row_count =? 0)%N then
          print "    ⚠ No data in source table (table is empty)"
        else
          print ("    Copying " +:+ Py.str_of_N row_count +:+ " row(s) from " +:+ source_database +:+
                 "." +:+ table_name +:+ " to " +:+ scylla_database +:+ "." +:+ table_name +:+ "...") >>
          exec_ (InsertSelect scylla_database source_database table_name) >>
          print ("    ✓ Migrated " +:+ Py.str_of_N row_count +:+ " row(s) to ScyllaDB"))
       (fun e =>
          print ("    ✗ Error migrating table data: " +:+ exn_str e) >>
          print_exc e))
    cursor_close.

(** *** [configure_storage_engine] *)
Definition configure_storage_engine (args : arguments) : M unit :=
  print "  ℹ Using per-table connection configuration (embedded in COMMENT)".

(** *** [main]

    The run once [parse_arguments] has produced [args] and the two
    connections are open ([connect_to_mariadb] and [connect_to_scylla] end
    the process when they fail, and print one line each when they
    succeed: those two lines are not in the trace). *)
Definition main (args : arguments) : M unit :=
  print (Py.mul "=" 70) >>
  print "MariaDB to ScyllaDB Migration Setup" >>
  print (Py.mul "=" 70) >>
  print (nl +:+ "[1/4] Connecting to databases...") >>
  print (nl +:+ "[2/5] Configuring MariaDB ScyllaDB storage engine...") >>
  configure_storage_engine args >>
  print (nl +:+ "[3/5] Creating ScyllaDB database in MariaDB...") >>
  create_scylla_database (mariadb_scylla_database args) >>
  print (nl +:+ "[4/5] Setting up table migration...") >>
  let* tables := get_source_tables (mariadb_database args) in
  match tables with
  | [] =>
      print ("⚠ No tables found in database '" +:+ mariadb_database args +:+ "'") >>
      raise (SystemExit 0)
  | _ :: _ =>
      print ("Found " +:+ Py.str_of_N (N.of_nat (length tables)) +:+ " table(s) to migrate:") >>
      for_each tables (fun table => print ("  - " +:+ table)) >>
      for_each tables (fun table =>
        print (nl +:+ "Processing table: " +:+ table) >>
        setup_table_migration table args) >>
      print (nl +:+ "[5/5] Migrating existing data...") >>
      for_each tables (fun table =>
        migrate_table_data (mariadb_database args) (mariadb_scylla_database args) table) >>
      print (nl +:+ Py.mul "=" 70) >>
      print "✓ Migration setup completed successfully!" >>
      print (Py.mul "=" 70) >>
      print (nl +:+ "Next steps:") >>
      print ("  1. Insert/Update/Delete data in '" +:+ mariadb_database args +:+ "' tables") >>
      print ("  2. Triggers will automatically replicate to '" +:+ mariadb_scylla_database args +:+
             "' (ScyllaDB)") >>
      print ("  3. Query source: SELECT * FROM " +:+ mariadb_database args +:+ ".<table_name>;") >>
      print ("  4. Query ScyllaDB: SELECT * FROM " +:+ mariadb_scylla_database args +:+ ".<table_name>;") >>
      print ("  5. Verify in ScyllaDB: docker exec -it scylladb-migration-target cqlsh -e " +:+
             String (ascii_of_nat 34) EmptyString +:+ "SELECT * FROM " +:+ scylla_ks args +:+
             ".<table_name>;" +:+ String (ascii_of_nat 34) EmptyString)
  end.

End Program.

Arguments M world A : clear implicits.

(** ** A model of the two engines

    The source database answers the introspection queries from a fixed
    description; the object catalog records which databases, tables,
    triggers and keyspaces exist.  [CREATE ... IF NOT EXISTS] adds the
    object when it is absent and does nothing otherwise; [DROP TRIGGER IF
    EXISTS] removes it when present; [CREATE TRIGGER] raises when a trigger
    of that name exists.  [rejects] lists statements the engine refuses
    whatever the catalog holds (a server that does not know the client
    command [DELIMITER], an unreachable cluster, ...). *)

Module CatalogEngine.

Record source_db := SourceDb {
  tables_of : string -> list string;
  columns_of : string -> string -> list catalog_row;
  full_columns_of : string -> string -> list full_column;
  primary_key_of : string -> string -> list string;
  row_count_of : string -> string -> N
}.

Record catalog := Catalog {
  databases : gset string;
  mirror_tables : gset (string * string);
  triggers : gset (string * string);
  keyspaces : gset string;
  scylla_tables : gset (string * string)
}.

Definition empty_catalog : catalog := Catalog ∅ ∅ ∅ ∅ ∅.

Definition add_database (d : string) (c : catalog) : catalog :=
  Catalog ({[d]} ∪ databases c) (mirror_tables c) (triggers c) (keyspaces c) (scylla_tables c).

Definition add_mirror_table (t : string * string) (c : catalog) : catalog :=
  Catalog (databases c) ({[t]} ∪ mirror_tables c) (triggers c) (keyspaces c) (scylla_tables c).

Definition add_trigger (t : string * string) (c : catalog) : catalog :=
  Catalog (databases c) (mirror_tables c) ({[t]} ∪ triggers c) (keyspaces c) (scylla_tables c).

Definition drop_trigger (t : string * string) (c : catalog) : catalog :=
  Catalog (databases c) (mirror_tables c) (triggers c ∖ {[t]}) (keyspaces c) (scylla_tables c).

Definition add_keyspace (k : string) (c : catalog) : catalog :=
  Catalog (databases c) (mirror_tables c) (triggers c) ({[k]} ∪ keyspaces c) (scylla_tables c).

Definition add_scylla_table (t : string * string) (c : catalog) : catalog :=
  Catalog (databases c) (mirror_tables c) (triggers c) (keyspaces c) ({[t]} ∪ scylla_tables c).

(** [CREATE TRIGGER] without a preceding drop is not repeatable. *)
Definition create_trigger (t : string * string) (c : catalog) : (string + unit) * catalog :=
  if decide (t ∈ triggers c)
  then (inl "Trigger already exists", c)
  else (inr tt, add_trigger t c).

Definition execute (src : source_db) (rejects : stmt -> option string)
    (s : stmt) (c : catalog) : (string + reply s) * catalog :=
  match rejects s with
  | Some msg => (inl msg, c)
  | None =>
      match s as s0 return (string + reply s0) * catalog with
      | CreateDatabase d => (inr tt, add_database d c)
      | SelectTables d => (inr (tables_of src d), c)
      | SelectColumns d t => (inr (columns_of src d t), c)
      | CreateMirrorTable d t _ _ => (inr tt, add_mirror_table (d, t) c)
      | DropTrigger d n => (inr tt, drop_trigger (d, n) c)
      | Delimiter _ => (inr tt, c)
      | CreateInsertTrigger d _ t _ _ _ _ => create_trigger (d, t +:+ "_insert_trigger") c
      | CreateUpdateTrigger d _ t _ _ _ _ => create_trigger (d, t +:+ "_update_trigger") c
      | CreateDeleteTrigger d _ t _ _ _ => create_trigger (d, t +:+ "_delete_trigger") c
      | ShowFullColumns d t => (inr (full_columns_of src d t), c)
      | SelectPrimaryKey d t => (inr (primary_key_of src d t), c)
      | SelectCount d t => (inr (row_count_of src d t), c)
      | InsertSelect _ _ _ => (inr tt, c)
      | CreateKeyspace k => (inr tt, add_keyspace k c)
      | CreateScyllaTable k t _ _ => (inr tt, add_scylla_table (k, t) c)
      end
  end.

Definition accepts_all : stmt -> option string := fun _ => None.

(** A server that takes [DELIMITER] for what it is to it: a syntax error. *)
Definition rejects_delimiter (delimiter_ok : bool) : stmt -> option string :=
  fun s =>
    match s with
    | Delimiter _ => if delimiter_ok then None else Some "You have an error in your SQL syntax"
    | _ => None
    end.

Definition drop_all (sd table : string) (c : catalog) : catalog :=
  drop_trigger (sd, table +:+ "_delete_trigger")
    (drop_trigger (sd, table +:+ "_update_trigger")
       (drop_trigger (sd, table +:+ "_insert_trigger") c)).

Definition add_all (sd table : string) (c : catalog) : catalog :=
  add_trigger (sd, table +:+ "_delete_trigger")
    (add_trigger (sd, table +:+ "_update_trigger")
       (add_trigger (sd, table +:+ "_insert_trigger") c)).

(** What trigger installation leaves in the catalog. *)
Definition install_effect (src : source_db) (delimiter_ok : bool)
    (sd table : string) (c : catalog) : catalog :=
  match map column_of_row (columns_of src sd table) with
  | [] => c
  | (_ :: _) as columns =>
      match primary_keys columns with
      | [] => c
      | _ :: _ =>
          if delimiter_ok then add_all sd table (drop_all sd table c)
          else drop_all sd table c
      end
  end.

(** What mirror-table creation leaves in the catalog. *)
Definition mirror_effect (src : source_db) (sd sc table : string) (c : catalog) : catalog :=
  match columns_of src sd table with
  | [] => c
  | _ :: _ => add_mirror_table (sc, table) c
  end.

(** What one table's setup leaves in the catalog. *)
Definition setup_effect (src : source_db) (delimiter_ok : bool)
    (table : string) (args : arguments) (c : catalog) : catalog :=
  match primary_key_of src (mariadb_database args) table with
  | [] => c
  | _ :: _ =>
      install_effect src delimiter_ok (mariadb_database args) table
        (mirror_effect src (mariadb_database args) (mariadb_scylla_database args) table
           (add_scylla_table (scylla_ks args, table)
              (add_keyspace (scylla_ks args) c)))
  end.

(** An engine that refuses the statements selected by [p]. *)
Definition rejecting (p : stmt -> bool) (msg : string) : stmt -> option string :=
  fun s => if p s then Some msg else None.

Definition is_create_keyspace (s : stmt) : bool :=
  match s with CreateKeyspace _ => true | _ => false end.

Definition is_create_mirror_table (s : stmt) : bool :=
  match s with CreateMirrorTable _ _ _ _ => true | _ => false end.

Definition is_create_scylla_table (s : stmt) : bool :=
  match s with CreateScyllaTable _ _ _ _ => true | _ => false end.

End CatalogEngine.

(** ** Reading traces *)

Definition executed (t : list event) : list stmt :=
  flat_map (fun e => match e with Exec s _ => [s] | _ => [] end) t.

Definition failed (t : list event) : list stmt :=
  flat_map (fun e => match e with Exec s (Some _) => [s] | _ => [] end) t.

Definition printed (t : list event) : list string :=
  flat_map (fun e => match e with Print l => [l] | _ => [] end) t.


(** ** A sample source database *)

Module Sample.
Import CatalogEngine.

Definition args : arguments :=
  {| mariadb_database := "testdb";
     mariadb_scylla_database := "scylla_db";
     mariadb_verbose := false;
     scylla_port := 9042;
     scylla_ks := "migration";
     scylla_fdw_host := "scylladb-migration-target" |}.

(** [animals(animal_id int primary key, name varchar(50), weight_kg
    decimal(5,2))] and a table [notes(body text)] without a key. *)
Definition src : source_db :=
  {| tables_of := fun _ => ["animals"; "notes"];
     columns_of := fun _ t =>
       if String.eqb t "animals"
       then [("animal_id", "int(11)", "NO", "PRI");
             ("name", "varchar(50)", "YES", EmptyString);
             ("weight_kg", "decimal(5,2)", "YES", EmptyString)]
       else [("body", "text", "YES", EmptyString)];
     full_columns_of := fun _ t =>
       if String.eqb t "animals"
       then [FullColumn "animal_id" "int(11)";
             FullColumn "name" "varchar(50)";
             FullColumn "weight_kg" "decimal(5,2)"]
       else [FullColumn "body" "text"];
     primary_key_of := fun _ t => if String.eqb t "animals" then ["animal_id"] else [];
     row_count_of := fun _ t => if String.eqb t "animals" then 3%N else 0%N |}.

(** [order_items(order_id int, sku varchar(20), line_no int, qty int)] with
    the composite primary key [(order_id, line_no)]. *)
Definition shop : source_db :=
  {| tables_of := fun _ => ["order_items"];
     columns_of := fun _ _ =>
       [("order_id", "int(11)", "NO", "PRI");
        ("sku", "varchar(20)", "YES", EmptyString);
        ("line_no", "int(11)", "NO", "PRI");
        ("qty", "int(11)", "YES", EmptyString)];
     full_columns_of := fun _ _ =>
       [FullColumn "order_id" "int(11)";
        FullColumn "sku" "varchar(20)";
        FullColumn "line_no" "int(11)";
        FullColumn "qty" "int(11)"];
     primary_key_of := fun _ _ => ["order_id"; "line_no"];
     row_count_of := fun _ _ => 2%N |}.

End Sample.

(** ** Auxiliary notions used in the statements *)

(** Longest first. *)
Definition longer_first (a b : string) : Prop :=
  (String.length b <= String.length a)%nat.

(** The inputs claim C7 calls unclassifiable: the base keyword starts with
    no key of the mapping and the text has neither UUID shape. *)
Definition unclassified (mariadb_type : string) : Prop :=
  (forall key, In key (Py.keys type_mapping) ->
     Py.startswith (Py.split_head "(" (Py.lower mariadb_type)) key = false) /\
  Py.contains "binary(16)" (Py.lower mariadb_type) = false /\
  Py.contains "char(36)" (Py.lower mariadb_type) = false.

(** [c in p], for one character. *)
Fixpoint occurs (c : ascii) (p : string) : bool :=
  match p with
  | EmptyString => false
  | String x r => Ascii.eqb x c || occurs c r
  end.

(** Statements whose failure ends the run: they are executed outside every
    handler, or inside one that re-raises. *)
Definition aborts_run (s : stmt) : bool :=
  match s with
  | CreateDatabase _ | SelectTables _ | ShowFullColumns _ _ | SelectPrimaryKey _ _
  | CreateKeyspace _ | CreateScyllaTable _ _ _ _ => true
  | _ => false
  end.

(** [t] ends with the events [suffix]. *)
Definition ends_with (suffix t : list event) : Prop := exists pre, t = pre ++ suffix.

(** The trigger a [CREATE TRIGGER] statement creates. *)
Definition created_trigger (s : stmt) : option (string * string) :=
  match s with
  | CreateInsertTrigger d _ t _ _ _ _ => Some (d, t +:+ "_insert_trigger")
  | CreateUpdateTrigger d _ t _ _ _ _ => Some (d, t +:+ "_update_trigger")
  | CreateDeleteTrigger d _ t _ _ _ => Some (d, t +:+ "_delete_trigger")
  | _ => None
  end.

(** In the statement list [l], run after the statements [earlier], every
    [CREATE TRIGGER] comes after a [DROP TRIGGER IF EXISTS] of the same
    trigger. *)
Fixpoint dropped_before (earlier l : list stmt) : Prop :=
  match l with
  | [] => True
  | s :: rest =>
      match created_trigger s with
      | Some (d, n) => In (DropTrigger d n) earlier
      | None => True
      end /\ dropped_before (earlier ++ [s]) rest
  end.

(** The type names the mapper can answer with. *)
Definition cql_types : list string :=
  ["tinyint"; "smallint"; "int"; "bigint"; "float"; "double"; "decimal";
   "text"; "blob"; "date"; "timestamp"; "time"; "uuid"].

(** The type the mapper returns, as a plain string. *)
Definition cql_type (mariadb_type : string) : string :=
  match fst (mariadb_type_to_cql_type mariadb_type) with
  | Return v => v
  | Raise _ => EmptyString
  end.

(** One entry of [col_defs] in [create_scylla_table]. *)
Definition scylla_col_def (col : full_column) : string :=
  Field col +:+ " " +:+ cql_type (Type_ col).

(** Statements of the MariaDB-side steps of one table's setup. *)
Definition on_mariadb_side (s : stmt) : bool :=
  match s with
  | SelectColumns _ _ | CreateMirrorTable _ _ _ _ | DropTrigger _ _ | Delimiter _
  | CreateInsertTrigger _ _ _ _ _ _ _ | CreateUpdateTrigger _ _ _ _ _ _ _
  | CreateDeleteTrigger _ _ _ _ _ _ => true
  | _ => false
  end.

(** The events of one table's setup up to and including the creation of
    the target table. *)
Definition scylla_side_events (table_name : string) (args : arguments)
    (columns : list full_column) (pk_columns : list string) : list event :=
  [Print ("  Getting table structure for '" +:+ table_name +:+ "'...");
   Exec (ShowFullColumns (mariadb_database args) table_name) None;
   Exec (SelectPrimaryKey (mariadb_database args) table_name) None;
   Exec (CreateKeyspace (scylla_ks args)) None;
   Print ("    ✓ Keyspace '" +:+ scylla_ks args +:+ "' ready");
   Print ("    Creating ScyllaDB table '" +:+ scylla_ks args +:+ "." +:+ table_name +:+ "'...")]
  ++ map Print (flat_map (fun col => snd (mariadb_type_to_cql_type (Type_ col))) columns)
  ++ [Exec (CreateScyllaTable (scylla_ks args) table_name (map scylla_col_def columns)
              ("PRIMARY KEY (" +:+ Py.join ", " pk_columns +:+ ")")) None;
      Print "    ✓ ScyllaDB table created"].

(** The statements of trigger installation, in the order the function
    executes them. *)
Definition installation_statements (columns : list column)
    (source_database scylla_database table : string) (args : arguments) : list stmt :=
  [SelectColumns source_database table;
   DropTrigger source_database (trigger_name table "insert");
   DropTrigger source_database (trigger_name table "update");
   DropTrigger source_database (trigger_name table "delete");
   Delimiter "$$";
   insert_trigger columns source_database scylla_database table args;
   Delimiter ";";
   Delimiter "$$";
   update_trigger columns source_database scylla_database table args;
   Delimiter ";";
   Delimiter "$$";
   delete_trigger columns source_database scylla_database table args;
   Delimiter ";"].

(** The tables whose setup was started: those named by the executed
    [SHOW FULL COLUMNS] statements, in order. *)
Definition setups_started (t : list event) : list string :=
  flat_map (fun e => match e with Exec (ShowFullColumns _ table) _ => [table] | _ => [] end) t.

(** The tables whose bulk copy was started: those named by the executed
    [SELECT COUNT( * )] statements, in order. *)
Definition copies_started (t : list event) : list string :=
  flat_map (fun e => match e with Exec (SelectCount _ table) _ => [table] | _ => [] end) t.

(** The failed statements of the aborting kind, in order. *)
Definition aborting_failures (t : list event) : list stmt :=
  List.filter aborts_run (failed t).

(** [t] ends with the failure of [s], a statement of the setup of [table]
    that is not contained, followed by the line that reports it where the
    code prints one. *)
Definition ended_by_setup_failure (table : string) (args : arguments)
    (s : stmt) (msg : string) (t : list event) : Prop :=
  (s = ShowFullColumns (mariadb_database args) table /\
   ends_with [Exec s (Some msg)] t) \/
  (s = SelectPrimaryKey (mariadb_database args) table /\
   ends_with [Exec s (Some msg)] t) \/
  (s = CreateKeyspace (scylla_ks args) /\
   ends_with [Exec s (Some msg); Print ("    ✗ Error creating keyspace: " +:+ msg)] t) \/
  (exists col_defs pk_def,
     s = CreateScyllaTable (scylla_ks args) table col_defs pk_def /\
     ends_with [Exec s (Some msg); Print ("    ✗ Error creating ScyllaDB table: " +:+ msg)] t).

(** ** Proof automation *)

(** Unfolds the monad and splits on the engine's answer to each statement
    in turn. *)
Ltac unfold_monad :=
  unfold try_finally, try_except, try_except_pass, cursor_close, exec_, exec,
    bind, ret, raise, print, print_exc in *.

Ltac split_execute :=
  match goal with
  | H : ?execute ?s ?w = _ |- context [?execute ?s ?w] => rewrite H
  | |- context [match ?execute ?s ?w with _ => _ end] =>
      let r := fresh "r" in
      let w1 := fresh "w" in
      let E := fresh "E" in
      destruct (execute s w) as [r w1] eqn:E;
      let msg := fresh "msg" in
      destruct r as [msg | r]
  end; cbn -[String.append Py.str_of_N].

Ltac find_event :=
  lazymatch goal with
  | |- In _ (_ :: _) => first [ left; reflexivity | right; find_event ]
  | |- In _ (_ ++ _) => apply in_or_app; first [ left; find_event | right; find_event ]
  | |- In _ _ => eassumption
  | |- _ \/ _ => first [ left; reflexivity | right; find_event ]
  end.

(** * Properties *)

(** ** The type mapper *)

Section TypeMapper.

Lemma insert_by_len_perm x l : Permutation (Py.insert_by_len x l) (x :: l).
Proof.
  induction l as [|y r IH]; simpl; [reflexivity|].
  destruct (String.length x <? String.length y)%nat; [|reflexivity].
  rewrite IH. apply perm_swap.
Qed.

Lemma sorted_by_len_desc_perm l : Permutation (Py.sorted_by_len_desc l) l.
Proof.
  induction l as [|x r IH]; simpl; [reflexivity|].
  rewrite insert_by_len_perm. now constructor.
Qed.

Lemma insert_by_len_sorted x l :
  StronglySorted longer_first l -> StronglySorted longer_first (Py.insert_by_len x l).
Proof.
  induction 1 as [|y r Hs IH Hall]; simpl.
  - repeat constructor.
  - destruct (Nat.ltb_spec (String.length x) (String.length y)) as [Hlt|Hge].
    + constructor; [exact IH|].
      eapply Permutation_Forall; [symmetry; apply insert_by_len_perm|].
      constructor; [unfold longer_first; lia | exact Hall].
    + constructor; [now constructor|].
      constructor; [exact Hge|].
      eapply Forall_impl; [exact Hall|].
      intros z Hz. unfold longer_first in *. lia.
Qed.

Lemma sorted_by_len_desc_sorted l : StronglySorted longer_first (Py.sorted_by_len_desc l).
Proof.
  induction l as [|x r IH]; simpl; [constructor | now apply insert_by_len_sorted].
Qed.

Lemma match_loop_none base ks :
  (forall key, In key ks -> Py.startswith base key = false) ->
  match_loop base ks = None.
Proof.
  induction ks as [|k r IH]; intros H; cbn [match_loop]; [reflexivity|].
  rewrite (H k) by now left.
  apply IH. intros key Hk. apply H. now right.
Qed.

(** [type_mapping[key]] never misses inside the loop. *)
Lemma match_loop_returns base ks :
  (forall key, In key ks -> is_Some (Py.getitem type_mapping key)) ->
  match_loop base ks = None \/ exists v, match_loop base ks = Some (Return v).
Proof.
  induction ks as [|k r IH]; intros H; cbn [match_loop]; [now left|].
  destruct (Py.startswith base k).
  - destruct (H k) as [v Hv]; [now left|]. rewrite Hv. right. now exists v.
  - apply IH. intros key Hk. apply H. now right.
Qed.

Lemma test_order_keys_present key :
  In key mapping_keys_in_test_order -> is_Some (Py.getitem type_mapping key).
Proof.
  intros H. vm_compute in H.
  repeat (destruct H as [<-|H]; [eexists; reflexivity|]). destruct H.
Qed.

Lemma mapper_cases s :
  (exists v, mariadb_type_to_cql_type s = (Return v, [])) \/
  mariadb_type_to_cql_type s = (Return "text", [unknown_type_warning s]).
Proof.
  unfold mariadb_type_to_cql_type.
  destruct (match_loop_returns (Py.split_head "(" (Py.lower s)) mapping_keys_in_test_order
              test_order_keys_present) as [-> | [v ->]].
  - destruct (_ || _); [left; now exists "uuid" | now right].
  - left. now exists v.
Qed.

End TypeMapper.

(** C2 (as the code behaves).  The loop over the mapping keys returns before
    the UUID test is reached: ["binary(16)"] has base keyword ["binary"] and
    maps to ["blob"], ["char(36)"] has base keyword ["char"] and maps to
    ["text"], exactly as ["char(10)"] does.  The UUID branch is only taken by
    a type such as ["nchar(36)"], whose base keyword starts with no key. *)
Theorem C2_uuid_shapes_are_shadowed_by_the_key_loop :
  mariadb_type_to_cql_type "binary(16)" = (Return "blob", []) /\
  mariadb_type_to_cql_type "char(36)" = (Return "text", []) /\
  mariadb_type_to_cql_type "char(10)" = (Return "text", []) /\
  mariadb_type_to_cql_type "BINARY(16)" = (Return "blob", []) /\
  mariadb_type_to_cql_type "nchar(36)" = (Return "uuid", []).
Proof. repeat split; reflexivity. Qed.


(** C7.  The type mapper returns for every type string (no [type_mapping[key]]
    lookup misses), prints at most one line, and for an unclassified input
    returns the default ["text"] and prints exactly one warning, which quotes
    the type string as it was given. *)
Theorem C7_type_mapper_is_total (mariadb_type : string) :
  (exists v, fst (mariadb_type_to_cql_type mariadb_type) = Return v) /\
  (length (snd (mariadb_type_to_cql_type mariadb_type)) <= 1)%nat /\
  (unclassified mariadb_type ->
     mariadb_type_to_cql_type mariadb_type =
       (Return "text",
        ["    ⚠ Warning: Unknown type '" +:+ mariadb_type +:+ "', using 'text'"])).
Proof.
  split; [|split].
  - destruct (mapper_cases mariadb_type) as [[v ->] | ->]; eauto.
  - destruct (mapper_cases mariadb_type) as [[v ->] | ->]; simpl; lia.
  - intros (Hkeys & Hbin & Hchar).
    unfold mariadb_type_to_cql_type.
    rewrite match_loop_none, Hbin, Hchar; [reflexivity|].
    intros key Hk. apply Hkeys.
    eapply Permutation_in; [apply sorted_by_len_desc_perm | exact Hk].
Qed.

Lemma C7_type_mapper_is_total_witness :
  unclassified "geometry" /\
  mariadb_type_to_cql_type "geometry" =
    (Return "text", ["    ⚠ Warning: Unknown type 'geometry', using 'text'"]).
Proof.
  assert (H : unclassified "geometry").
  { split; [|split; reflexivity].
    intros key Hk. vm_compute in Hk.
    repeat (destruct Hk as [<-|Hk]; [reflexivity|]). destruct Hk. }
  split; [exact H|].
  exact (proj2 (proj2 (C7_type_mapper_is_total "geometry")) H).
Defined.

(** ** Facts on strings *)

Section StringFacts.

#[local] Arguments String.append !s1 s2.

Lemma append_assoc (a b c : string) : (a +:+ b) +:+ c = a +:+ (b +:+ c).
Proof. induction a as [|x a IH]; simpl; [reflexivity | now rewrite IH]. Qed.

Lemma append_empty_r (a : string) : a +:+ EmptyString = a.
Proof. induction a as [|x a IH]; simpl; [reflexivity | now rewrite IH]. Qed.

Lemma prefix_empty (b : string) : String.prefix EmptyString b = true.
Proof. now destruct b. Qed.

Lemma prefix_refl_app (p b : string) : String.prefix p (p +:+ b) = true.
Proof.
  induction p as [|x p IH]; simpl; [apply prefix_empty|].
  destruct (ascii_dec x x); [exact IH | congruence].
Qed.

Lemma prefix_app (p a b : string) :
  String.prefix p a = true -> String.prefix p (a +:+ b) = true.
Proof.
  revert a; induction p as [|x p IH]; intros a H; [apply prefix_empty|].
  destruct a as [|y a]; simpl in *; [discriminate|].
  destruct (ascii_dec x y); [now apply IH | discriminate].
Qed.

Lemma contains_prefix (p s : string) : String.prefix p s = true -> Py.contains p s = true.
Proof. intros H. destruct s; simpl in *; rewrite H; reflexivity. Qed.

Lemma contains_app_r (p a b : string) :
  Py.contains p b = true -> Py.contains p (a +:+ b) = true.
Proof.
  intros H. induction a as [|x a IH]; simpl; [exact H|].
  rewrite IH. apply orb_true_r.
Qed.

Lemma contains_app_l (p a b : string) :
  Py.contains p a = true -> Py.contains p (a +:+ b) = true.
Proof.
  induction a as [|x a IH]; intros H.
  - simpl in H. rewrite orb_false_r in H.
    destruct p; [|discriminate]. destruct b; reflexivity.
  - cbn [Py.contains] in H. apply orb_true_iff in H as [H|H].
    + apply contains_prefix. now apply prefix_app.
    + change (String x a +:+ b) with (String x (a +:+ b)).
      cbn [Py.contains]. rewrite (IH H). apply orb_true_r.
Qed.

Lemma contains_middle (p a b : string) : Py.contains p (a +:+ p +:+ b) = true.
Proof. apply contains_app_r, contains_prefix, prefix_refl_app. Qed.

(** A character that is not in the pattern stops every match. *)
Lemma prefix_barrier (p a b : string) (q : ascii) :
  occurs q p = false ->
  String.prefix p (a +:+ String q b) = String.prefix p a.
Proof.
  revert a; induction p as [|x p IH]; intros a H; [now destruct a|].
  simpl in H. apply orb_false_iff in H as [Hx Hp].
  destruct a as [|y a]; simpl.
  - destruct (ascii_dec x q) as [->|]; [|reflexivity].
    now rewrite Ascii.eqb_refl in Hx.
  - destruct (ascii_dec x y); [now apply IH | reflexivity].
Qed.

Lemma contains_barrier (p a b : string) (q : ascii) :
  occurs q p = false ->
  Py.contains p (a +:+ String q b) = Py.contains p a || Py.contains p b.
Proof.
  intros H. induction a as [|x a IH].
  - pose proof (prefix_barrier p EmptyString b q H) as Hp.
    simpl in *. rewrite Hp. now rewrite orb_false_r.
  - pose proof (prefix_barrier p (String x a) b q H) as Hp.
    simpl in *. rewrite IH, Hp. now rewrite orb_assoc.
Qed.

Lemma append_length (a b : string) :
  String.length (a +:+ b) = (String.length a + String.length b)%nat.
Proof. induction a as [|x a IH]; simpl; [reflexivity | now rewrite IH]. Qed.

(** Two concatenations with heads of the same length agree piecewise. *)
Lemma append_inj_length (a b x y : string) :
  String.length a = String.length b -> a +:+ x = b +:+ y -> a = b /\ x = y.
Proof.
  revert b; induction a as [|c a IH]; intros [|d b] Hl H; simpl in *; try discriminate.
  - now split.
  - injection H as -> H. destruct (IH b) as [-> ->]; [lia | exact H | now split].
Qed.

Lemma join_cons (sep x : string) (l : list string) :
  l <> [] -> Py.join sep (x :: l) = x +:+ sep +:+ Py.join sep l.
Proof. destruct l; [congruence | reflexivity]. Qed.

Lemma join_snoc (sep x : string) (l : list string) :
  l <> [] -> Py.join sep (l ++ [x]) = Py.join sep l +:+ sep +:+ x.
Proof.
  induction l as [|y l IH]; intros H; [congruence|].
  destruct l as [|z l]; [reflexivity|].
  change ((y :: z :: l) ++ [x]) with (y :: ((z :: l) ++ [x])).
  rewrite join_cons by (now destruct l).
  rewrite IH by congruence.
  rewrite (join_cons sep y (z :: l)) by congruence.
  now rewrite !append_assoc.
Qed.

(** Every element of a joined list can be read in the result. *)
Lemma join_contains (sep x : string) (l : list string) :
  In x l -> Py.contains x (Py.join sep l) = true.
Proof.
  induction l as [|y l IH]; intros H; [destruct H|].
  destruct l as [|z l].
  - destruct H as [->|[]]. simpl.
    rewrite <- (append_empty_r x) at 2. apply contains_prefix, prefix_refl_app.
  - rewrite join_cons by congruence.
    destruct H as [->|H].
    + apply contains_prefix, prefix_refl_app.
    + apply contains_app_r, contains_app_r, IH, H.
Qed.

(** So can whatever can be read in one of the elements. *)
Lemma join_contains_of (p sep x : string) (l : list string) :
  In x l -> Py.contains p x = true -> Py.contains p (Py.join sep l) = true.
Proof.
  intros H Hp. induction l as [|y l IH]; [destruct H|].
  destruct l as [|z l].
  - destruct H as [->|[]]. exact Hp.
  - rewrite join_cons by congruence.
    destruct H as [->|H].
    + now apply contains_app_l.
    + apply contains_app_r, contains_app_r, IH, H.
Qed.

End StringFacts.

(** ** The generated statements *)

Section Builders.

Lemma mirror_loop_spec (columns : list column) (column_defs pks : list string) :
  fold_left mirror_loop_body columns (column_defs, pks) =
    (column_defs ++ map col_def columns,
     pks ++ map backquoted (primary_keys columns)).
Proof.
  revert column_defs pks; induction columns as [|col r IH]; intros column_defs pks.
  - cbn. now rewrite !app_nil_r.
  - cbn [fold_left]. unfold mirror_loop_body at 2. unfold primary_keys.
    cbn [List.filter map]. destruct (is_primary col); rewrite IH; unfold primary_keys;
      cbn [map]; now rewrite <- !app_assoc.
Qed.

Lemma mirror_column_defs_spec (columns : list column) :
  mirror_column_defs columns =
    match primary_keys columns with
    | [] => map col_def columns
    | _ :: _ =>
        map col_def columns ++
        [primary_key_constraint (map backquoted (primary_keys columns))]
    end.
Proof.
  unfold mirror_column_defs, mirror_loop. rewrite mirror_loop_spec. cbn [app].
  now destruct (primary_keys columns).
Qed.

Lemma primary_keys_in (columns : list column) (c : string) :
  In c (primary_keys columns) <->
  exists col, In col columns /\ is_primary col = true /\ name col = c.
Proof.
  unfold primary_keys. rewrite in_map_iff. split.
  - intros (col & <- & H). apply filter_In in H as [H1 H2]. eauto.
  - intros (col & H1 & H2 & <-). exists col. split; [reflexivity|].
    apply filter_In. now split.
Qed.

Lemma primary_keys_sublist (columns : list column) :
  sublist (primary_keys columns) (col_names columns).
Proof.
  unfold primary_keys, col_names.
  induction columns as [|col r IH]; cbn [List.filter map]; [constructor|].
  destruct (is_primary col); cbn [map]; now constructor.
Qed.

Lemma old_test_is_not_new_assignment (pk c : string) : old_key_test pk <> new_assignment c.
Proof.
  unfold old_key_test, new_assignment. intros H.
  injection H as H.
  assert (Hl : String.length pk = String.length c).
  { apply (f_equal String.length) in H. rewrite !append_length in H.
    cbn in H. lia. }
  destruct (append_inj_length _ _ _ _ Hl H) as [_ H']. discriminate H'.
Qed.

(** A pattern without a backquote that occurs in no key name and in none
    of the fixed pieces does not occur in the WHERE clause. *)
Lemma where_clause_free_of (p : string) (pks : list string) :
  occurs "`" p = false ->
  Py.contains p EmptyString = false ->
  Py.contains p " = OLD." = false ->
  Py.contains p " AND " = false ->
  (forall pk, In pk pks -> Py.contains p pk = false) ->
  Py.contains p (Py.join " AND " (map old_key_test pks)) = false.
Proof.
  intros Hq He Ho Ha.
  assert (Hone : forall pk, Py.contains p pk = false ->
                   Py.contains p (old_key_test pk) = false).
  { intros pk Hpk. unfold old_key_test.
    change ("`" +:+ pk +:+ "` = OLD.`" +:+ pk +:+ "`")
      with (EmptyString +:+ String "`" (pk +:+ String "`" (" = OLD." +:+ String "`" (pk +:+ String "`" EmptyString)))).
    rewrite !(contains_barrier _ _ _ _ Hq), He, Hpk, Ho. reflexivity. }
  induction pks as [|pk r IH]; intros H; [exact He|].
  destruct r as [|pk2 r].
  - apply Hone, H. now left.
  - cbn [map]. rewrite join_cons by discriminate.
    assert (Hr : Py.contains p (Py.join " AND " (map old_key_test (pk2 :: r))) = false).
    { apply IH. intros x Hx. apply H. now right. }
    assert (Hhd : exists rest,
               Py.join " AND " (map old_key_test (pk2 :: r)) = String "`" rest).
    { destruct r; eexists; reflexivity. }
    destruct Hhd as [rest Hrest]. cbn [map] in Hr, Hrest. rewrite Hrest in *.
    change (String "`" rest) with (EmptyString +:+ String "`" rest) in Hr.
    rewrite (contains_barrier _ _ _ _ Hq), He in Hr. cbn [orb] in Hr.
    unfold old_key_test. rewrite !append_assoc.
    change ("`" +:+ pk +:+ "` = OLD.`" +:+ pk +:+ "`" +:+ " AND " +:+ String "`" rest)
      with (EmptyString +:+
            String "`" (pk +:+ String "`" (" = OLD." +:+
            String "`" (pk +:+ String "`" (" AND " +:+ String "`" rest))))).
    rewrite !(contains_barrier _ _ _ _ Hq), He, (H pk) by (now left).
    rewrite Ho, Ha, Hr. reflexivity.
Qed.

(** What a key name spells can be read in the WHERE clause. *)
Lemma where_clause_spells (p pk : string) (pks : list string) :
  In pk pks -> Py.contains p pk = true ->
  Py.contains p (Py.join " AND " (map old_key_test pks)) = true.
Proof.
  intros H Hp. apply (join_contains_of p " AND " (old_key_test pk)).
  - now apply in_map.
  - unfold old_key_test. now apply contains_app_r, contains_app_l.
Qed.

End Builders.

(** ** Running the program on an arbitrary engine *)

Section BulkCopy.

Context {world : Type}.
Variable execute : forall s : stmt, world -> (string + reply s) * world.

Lemma migrate_table_data_empty source_database scylla_database table_name w w1 :
  execute (SelectCount source_database table_name) w = (inr 0%N, w1) ->
  migrate_table_data execute source_database scylla_database table_name w =
    (Return tt, w1,
     [Print (nl +:+ "  Migrating existing data for table '" +:+ table_name +:+ "'...");
      Exec (SelectCount source_database table_name) None;
      Print "    ⚠ No data in source table (table is empty)"]).
Proof.
  intros H. unfold migrate_table_data. unfold_monad.
  cbn -[String.append]. rewrite H. reflexivity.
Qed.

Lemma migrate_table_data_rows source_database scylla_database table_name w w1 n :
  execute (SelectCount source_database table_name) w = (inr n, w1) ->
  n <> 0%N ->
  migrate_table_data execute source_database scylla_database table_name w =
    (Return tt,
     snd (execute (InsertSelect scylla_database source_database table_name) w1),
     [Print (nl +:+ "  Migrating existing data for table '" +:+ table_name +:+ "'...");
      Exec (SelectCount source_database table_name) None;
      Print ("    Copying " +:+ Py.str_of_N n +:+ " row(s) from " +:+ source_database +:+
             "." +:+ table_name +:+ " to " +:+ scylla_database +:+ "." +:+ table_name +:+ "...")]
     ++
     match fst (execute (InsertSelect scylla_database source_database table_name) w1) with
     | inr _ =>
         [Exec (InsertSelect scylla_database source_database table_name) None;
          Print ("    ✓ Migrated " +:+ Py.str_of_N n +:+ " row(s) to ScyllaDB")]
     | inl msg =>
         [Exec (InsertSelect scylla_database source_database table_name) (Some msg);
          Print ("    ✗ Error migrating table data: " +:+ msg);
          PrintExc (DbError msg)]
     end).
Proof.
  intros H Hn. unfold migrate_table_data. unfold_monad.
  cbn -[String.append Py.str_of_N]. rewrite H.
  destruct (N.eqb_spec n 0) as [->|_]; [congruence|].
  cbn -[String.append Py.str_of_N].
  destruct (execute (InsertSelect scylla_database source_database table_name) w1)
    as [[msg|[]] w2]; reflexivity.
Qed.

Lemma migrate_table_data_returns source_database scylla_database table_name w :
  exists w1 t,
    migrate_table_data execute source_database scylla_database table_name w =
      (Return tt, w1, t) /\
    In (Print (nl +:+ "  Migrating existing data for table '" +:+ table_name +:+ "'...")) t /\
    In (SelectCount source_database table_name) (executed t).
Proof.
  unfold migrate_table_data. unfold_monad. cbn -[String.append Py.str_of_N].
  split_execute.
  - do 2 eexists. split; [reflexivity|]. split; [now left | now left].
  - destruct (r =? 0)%N; cbn -[String.append Py.str_of_N].
    + do 2 eexists. split; [reflexivity|]. split; [now left | now left].
    + split_execute; do 2 eexists; (split; [reflexivity|]); split; now left.
Qed.

End BulkCopy.



Section TraceFacts.

Lemma executed_app t1 t2 : executed (t1 ++ t2) = executed t1 ++ executed t2.
Proof. apply flat_map_app. Qed.

Lemma failed_app t1 t2 : failed (t1 ++ t2) = failed t1 ++ failed t2.
Proof. apply flat_map_app. Qed.

Lemma printed_app t1 t2 : printed (t1 ++ t2) = printed t1 ++ printed t2.
Proof. apply flat_map_app. Qed.

Lemma executed_prints lines : executed (map Print lines) = [].
Proof. induction lines; [reflexivity | exact IHlines]. Qed.

Lemma failed_prints lines : failed (map Print lines) = [].
Proof. induction lines; [reflexivity | exact IHlines]. Qed.

Lemma failed_executed t s : In s (failed t) -> In s (executed t).
Proof.
  induction t as [|e t IH]; [easy|].
  destruct e as [l|e|s' [msg|]]; cbn; intros H; auto.
  destruct H as [->|H]; [now left | right; auto].
Qed.

Lemma failed_in t s msg : In (Exec s (Some msg)) t -> In s (failed t).
Proof.
  induction t as [|e t IH]; [easy|]. intros [->|H].
  - now left.
  - change (e :: t) with ([e] ++ t). rewrite failed_app. apply in_or_app. right. auto.
Qed.

Lemma executed_in t s err : In (Exec s err) t -> In s (executed t).
Proof.
  induction t as [|e t IH]; [easy|]. intros [->|H].
  - now left.
  - change (e :: t) with ([e] ++ t). rewrite executed_app. apply in_or_app. right. auto.
Qed.

Lemma executed_inv t s : In s (executed t) -> exists err, In (Exec s err) t.
Proof.
  induction t as [|e t IH]; [easy|].
  change (e :: t) with ([e] ++ t). rewrite executed_app. intros H.
  apply in_app_or in H as [H|H].
  - destruct e as [l|e|s' err]; cbn in H; try easy.
    destruct H as [->|[]]. exists err. now left.
  - destruct (IH H) as [err Herr]. exists err. now right.
Qed.

Lemma failed_inv t s : In s (failed t) -> exists msg, In (Exec s (Some msg)) t.
Proof.
  induction t as [|e t IH]; [easy|].
  change (e :: t) with ([e] ++ t). rewrite failed_app. intros H.
  apply in_app_or in H as [H|H].
  - destruct e as [l|e|s' [msg|]]; cbn in H; try easy.
    destruct H as [->|[]]. exists msg. now left.
  - destruct (IH H) as [msg Hmsg]. exists msg. now right.
Qed.

End TraceFacts.

Lemma ends_with_here (t : list event) : ends_with t t.
Proof. now exists []. Qed.

Lemma ends_with_later suffix e t : ends_with suffix t -> ends_with suffix (e :: t).
Proof. intros [pre ->]. now exists (e :: pre). Qed.

Ltac solve_ends_with :=
  repeat first [ apply ends_with_here | apply ends_with_later ].

Lemma in_firstn {A} (x : A) (n : nat) (l : list A) : In x (firstn n l) -> In x l.
Proof.
  revert n; induction l as [|y l IH]; intros [|n]; cbn; try tauto.
  intros [H|H]; [now left | right; now apply (IH n)].
Qed.

Lemma ends_with_app suffix pre t : ends_with suffix t -> ends_with suffix (pre ++ t).
Proof. intros [p ->]. exists (pre ++ p). now rewrite app_assoc. Qed.

Lemma ended_by_setup_failure_app table args s msg pre t :
  ended_by_setup_failure table args s msg t ->
  ended_by_setup_failure table args s msg (pre ++ t).
Proof.
  unfold ended_by_setup_failure.
  intros [[-> H]|[[-> H]|[[-> H]|(d & p & -> & H)]]].
  - left. split; [reflexivity | now apply ends_with_app].
  - right; left. split; [reflexivity | now apply ends_with_app].
  - right; right; left. split; [reflexivity | now apply ends_with_app].
  - right; right; right. exists d, p. split; [reflexivity | now apply ends_with_app].
Qed.

Lemma aborting_failures_in t s :
  In s (aborting_failures t) <-> In s (failed t) /\ aborts_run s = true.
Proof. unfold aborting_failures. apply filter_In. Qed.

Lemma setups_started_prints lines : setups_started (map Print lines) = [].
Proof. induction lines; [reflexivity | assumption]. Qed.

Lemma copies_started_prints lines : copies_started (map Print lines) = [].
Proof. induction lines; [reflexivity | assumption]. Qed.

Lemma aborting_failures_prints lines : aborting_failures (map Print lines) = [].
Proof. unfold aborting_failures. now rewrite failed_prints. Qed.

Lemma setups_started_prints_of {A} (f : A -> string) l :
  setups_started (map (fun x => Print (f x)) l) = [].
Proof. induction l; [reflexivity | assumption]. Qed.

Lemma copies_started_prints_of {A} (f : A -> string) l :
  copies_started (map (fun x => Print (f x)) l) = [].
Proof. induction l; [reflexivity | assumption]. Qed.

Lemma aborting_failures_prints_of {A} (f : A -> string) l :
  aborting_failures (map (fun x => Print (f x)) l) = [].
Proof. induction l; [reflexivity | assumption]. Qed.

Lemma setups_started_app t1 t2 :
  setups_started (t1 ++ t2) = setups_started t1 ++ setups_started t2.
Proof. apply flat_map_app. Qed.

Lemma copies_started_app t1 t2 :
  copies_started (t1 ++ t2) = copies_started t1 ++ copies_started t2.
Proof. apply flat_map_app. Qed.

Lemma aborting_failures_app t1 t2 :
  aborting_failures (t1 ++ t2) = aborting_failures t1 ++ aborting_failures t2.
Proof. unfold aborting_failures. now rewrite failed_app, List.filter_app. Qed.

Lemma setups_started_cons e t : setups_started (e :: t) = setups_started [e] ++ setups_started t.
Proof. apply (setups_started_app [e] t). Qed.

Lemma copies_started_cons e t : copies_started (e :: t) = copies_started [e] ++ copies_started t.
Proof. apply (copies_started_app [e] t). Qed.

Lemma aborting_failures_cons e t :
  aborting_failures (e :: t) = aborting_failures [e] ++ aborting_failures t.
Proof. apply (aborting_failures_app [e] t). Qed.

(** Reading a trace piece by piece. *)
Ltac read_trace :=
  repeat first
    [ rewrite setups_started_app | rewrite copies_started_app | rewrite aborting_failures_app
    | match goal with
      | |- context [setups_started (?e :: ?t)] =>
          lazymatch t with [] => fail | _ => rewrite (setups_started_cons e t) end
      | |- context [copies_started (?e :: ?t)] =>
          lazymatch t with [] => fail | _ => rewrite (copies_started_cons e t) end
      | |- context [aborting_failures (?e :: ?t)] =>
          lazymatch t with [] => fail | _ => rewrite (aborting_failures_cons e t) end
      end ];
  rewrite ?setups_started_prints, ?copies_started_prints, ?aborting_failures_prints,
    ?setups_started_prints_of, ?copies_started_prints_of, ?aborting_failures_prints_of;
  repeat match goal with
         | |- context [setups_started [?e]] =>
             let v := eval cbv [setups_started flat_map app] in (setups_started [e]) in
             change (setups_started [e]) with v
         | |- context [copies_started [?e]] =>
             let v := eval cbv [copies_started flat_map app] in (copies_started [e]) in
             change (copies_started [e]) with v
         | |- context [aborting_failures [?e]] =>
             let v := eval cbv [aborting_failures failed flat_map app List.filter aborts_run]
                      in (aborting_failures [e]) in
             change (aborting_failures [e]) with v
         end;
  change (setups_started []) with (@nil string);
  change (copies_started []) with (@nil string);
  change (aborting_failures []) with (@nil stmt);
  cbn [app].

Section Steps.

Context {world : Type}.
Variable execute : forall s : stmt, world -> (string + reply s) * world.

#[local] Arguments primary_keys : simpl never.

Lemma bind_run {A B} (m : M world A) (k : A -> M world B) (w : world) :
  bind m k w =
    match m w with
    | (Return a, w1, t1) => match k a w1 with (r, w2, t2) => (r, w2, t1 ++ t2) end
    | (Raise e, w1, t1) => (Raise e, w1, t1)
    end.
Proof. reflexivity. Qed.

(** Mirror-table creation never raises; whatever fails in it is printed
    right after the failing statement, and the call answers [False]. *)
Lemma create_mariadb_scylla_table_returns
    source_database scylla_database scylla_keyspace scylla_host scylla_port table args w :
  exists b w1 t,
    create_mariadb_scylla_table execute source_database scylla_database scylla_keyspace
      scylla_host scylla_port table args w = (Return b, w1, t) /\
    (forall s, In s (failed t) ->
       aborts_run s = false /\ b = false /\
       exists msg,
         ends_with [Exec s (Some msg);
                    Print ("  ✗ Error creating table " +:+ scylla_database +:+ "." +:+ table +:+
                           ": " +:+ msg)] t).
Proof.
  unfold create_mariadb_scylla_table, get_table_schema. unfold_monad.
  cbn -[String.append]. split_execute.
  - do 3 eexists. split; [reflexivity|].
    intros s [<-|[]]. repeat split. eexists. solve_ends_with.
  - destruct (map column_of_row r) as [|col cols] eqn:Hc; cbn -[String.append].
    + do 3 eexists. split; [reflexivity|]. intros s [].
    + split_execute; do 3 eexists; (split; [reflexivity|]); intros s Hs.
      * destruct Hs as [<-|[]]. repeat split. eexists. solve_ends_with.
      * destruct Hs.
Qed.

(** Trigger installation never raises.  A failing [DROP TRIGGER IF EXISTS]
    is passed over in silence; any other failure is printed right after
    the failing statement, and the call answers [False]. *)
Lemma create_replication_triggers_returns source_database scylla_database table args w :
  exists b w1 t,
    create_replication_triggers execute source_database scylla_database table args w =
      (Return b, w1, t) /\
    (forall s, In s (failed t) ->
       aborts_run s = false /\
       ((exists n, s = DropTrigger source_database n) \/
        (b = false /\
         exists msg,
           ends_with [Exec s (Some msg);
                      Print ("  ✗ Error creating triggers for " +:+ source_database +:+ "." +:+
                             table +:+ ": " +:+ msg);
                      PrintExc (DbError msg)] t))).
Proof.
  unfold create_replication_triggers, drop_existing_triggers, get_table_schema.
  cbn [for_each]. unfold_monad. cbn -[String.append primary_keys]. split_execute.
  - do 3 eexists. split; [reflexivity|].
    intros s [<-|[]]. split; [reflexivity|]. right. split; [reflexivity|].
    eexists. solve_ends_with.
  - destruct (map column_of_row r) as [|col cols] eqn:Hc; cbn -[String.append].
    { do 3 eexists. split; [reflexivity|]. intros s []. }
    destruct (primary_keys (col :: cols)) as [|pk pks] eqn:Hpk; cbn -[String.append].
    { do 3 eexists. split; [reflexivity|]. intros s []. }
    repeat split_execute;
      (do 3 eexists; split; [reflexivity|]; intros s Hs; cbn in Hs;
       repeat (destruct Hs as [<-|Hs];
               [split; [reflexivity|];
                first [ left; eexists; reflexivity
                      | right; split; [reflexivity|]; eexists; solve_ends_with ] |]);
       destruct Hs).
Qed.

(** The bulk copy never raises; a failure of either statement is printed
    right after it, with the traceback. *)
Lemma migrate_table_data_contained source_database scylla_database table_name w :
  exists w1 t,
    migrate_table_data execute source_database scylla_database table_name w =
      (Return tt, w1, t) /\
    In (Print (nl +:+ "  Migrating existing data for table '" +:+ table_name +:+ "'...")) t /\
    In (SelectCount source_database table_name) (executed t) /\
    (forall s, In s (failed t) ->
       aborts_run s = false /\
       exists msg,
         ends_with [Exec s (Some msg);
                    Print ("    ✗ Error migrating table data: " +:+ msg);
                    PrintExc (DbError msg)] t).
Proof.
  unfold migrate_table_data. unfold_monad. cbn -[String.append Py.str_of_N].
  split_execute.
  - do 2 eexists. split; [reflexivity|]. split; [now left|]. split; [now left|].
    intros s [<-|[]]. split; [reflexivity|]. eexists. solve_ends_with.
  - destruct (r =? 0)%N; cbn -[String.append Py.str_of_N].
    + do 2 eexists. split; [reflexivity|]. split; [now left|]. split; [now left|].
      intros s [].
    + split_execute; do 2 eexists; (split; [reflexivity|]);
        (split; [now left|]); (split; [now left|]); intros s Hs.
      * destruct Hs as [<-|[]]. split; [reflexivity|]. eexists. solve_ends_with.
      * destruct Hs.
Qed.

(** The column loop of [create_scylla_table] only prints. *)
Lemma scylla_col_defs_loop_returns columns col_defs w :
  exists defs lines,
    scylla_col_defs_loop (world := world) columns col_defs w =
      (Return defs, w, map Print lines).
Proof.
  revert col_defs; induction columns as [|col rest IH]; intros col_defs.
  - exists col_defs, []. reflexivity.
  - cbn [scylla_col_defs_loop]. rewrite bind_run.
    unfold call_mariadb_type_to_cql_type at 1.
    destruct (mapper_cases (Type_ col)) as [[v ->] | ->].
    + destruct (IH (col_defs ++ [Field col +:+ " " +:+ v])) as (defs & lines & ->).
      exists defs, lines. reflexivity.
    + destruct (IH (col_defs ++ [Field col +:+ " " +:+ "text"])) as (defs & lines & ->).
      exists defs, (unknown_type_warning (Type_ col) :: lines). reflexivity.
Qed.

(** Keyspace creation: a failure is printed and raised again. *)
Lemma create_keyspace_run keyspace w :
  create_keyspace execute keyspace w =
    match execute (CreateKeyspace keyspace) w with
    | (inr _, w1) =>
        (Return tt, w1,
         [Exec (CreateKeyspace keyspace) None;
          Print ("    ✓ Keyspace '" +:+ keyspace +:+ "' ready")])
    | (inl msg, w1) =>
        (Raise (DbError msg), w1,
         [Exec (CreateKeyspace keyspace) (Some msg);
          Print ("    ✗ Error creating keyspace: " +:+ msg)])
    end.
Proof.
  unfold create_keyspace. unfold_monad.
  destruct (execute (CreateKeyspace keyspace) w) as [[msg|[]] w1]; reflexivity.
Qed.

(** Target-table creation: a failure is printed and raised again. *)
Lemma create_scylla_table_run table_name columns pk_columns keyspace w :
  exists defs lines,
    let s := CreateScyllaTable keyspace table_name defs
               ("PRIMARY KEY (" +:+ Py.join ", " pk_columns +:+ ")") in
    create_scylla_table execute table_name columns pk_columns keyspace w =
      match execute s w with
      | (inr _, w1) =>
          (Return tt, w1,
           Print ("    Creating ScyllaDB table '" +:+ keyspace +:+ "." +:+ table_name +:+ "'...")
           :: map Print lines ++
           [Exec s None; Print "    ✓ ScyllaDB table created"])
      | (inl msg, w1) =>
          (Raise (DbError msg), w1,
           Print ("    Creating ScyllaDB table '" +:+ keyspace +:+ "." +:+ table_name +:+ "'...")
           :: map Print lines ++
           [Exec s (Some msg); Print ("    ✗ Error creating ScyllaDB table: " +:+ msg)])
      end.
Proof.
  destruct (scylla_col_defs_loop_returns columns [] w) as (defs & lines & Hloop).
  exists defs, lines. cbn zeta.
  unfold create_scylla_table, try_except.
  rewrite bind_run. unfold print at 1. rewrite bind_run, Hloop.
  unfold exec_, exec, bind, ret, raise, print. cbn -[String.append].
  destruct (execute _ w) as [[msg|[]] w1]; cbn -[String.append];
    now rewrite <- ?app_assoc.
Qed.

(** The orchestrator's gate: a table without primary key is skipped. *)
Lemma setup_table_migration_skip table_name args w columns w1 w2 :
  execute (ShowFullColumns (mariadb_database args) table_name) w = (inr columns, w1) ->
  execute (SelectPrimaryKey (mariadb_database args) table_name) w1 = (inr [], w2) ->
  setup_table_migration execute table_name args w =
    (Return tt, w2,
     [Print ("  Getting table structure for '" +:+ table_name +:+ "'...");
      Exec (ShowFullColumns (mariadb_database args) table_name) None;
      Exec (SelectPrimaryKey (mariadb_database args) table_name) None;
      Print ("  ✗ Error: Table '" +:+ table_name +:+ "' has no primary key");
      Print "    ScyllaDB requires a primary key. Skipping this table."]).
Proof.
  intros H1 H2. unfold setup_table_migration. unfold_monad.
  cbn -[String.append]. rewrite H1. cbn -[String.append]. rewrite H2. reflexivity.
Qed.

Lemma bind_print {B} (line : string) (k : unit -> M world B) (w : world) :
  bind (print line) k w =
    match k tt w with (r, w2, t2) => (r, w2, Print line :: t2) end.
Proof. reflexivity. Qed.

Lemma for_each_print {A} (l : list A) (f : A -> string) (w : world) :
  for_each l (fun x => print (f x)) w = (Return tt, w, map (fun x => Print (f x)) l).
Proof.
  induction l as [|x l IH]; [reflexivity|].
  cbn [for_each map]. rewrite bind_print, IH. reflexivity.
Qed.

Lemma create_scylla_database_ok scylla_database w w1 :
  execute (CreateDatabase scylla_database) w = (inr tt, w1) ->
  create_scylla_database execute scylla_database w =
    (Return tt, w1,
     [Print ("  Creating database '" +:+ scylla_database +:+ "'...");
      Exec (CreateDatabase scylla_database) None;
      Print ("  ✓ Database '" +:+ scylla_database +:+ "' ready")]).
Proof.
  intros H. unfold create_scylla_database. unfold_monad.
  cbn -[String.append]. rewrite H. reflexivity.
Qed.

Lemma get_source_tables_ok database w w1 tables :
  execute (SelectTables database) w = (inr tables, w1) ->
  get_source_tables execute database w =
    (Return tables, w1, [Exec (SelectTables database) None]).
Proof.
  intros H. unfold get_source_tables. unfold_monad.
  cbn -[String.append]. rewrite H. reflexivity.
Qed.

End Steps.

(** ** How a run goes through the tables *)

Section RunCases.

Context {world : Type}.
Variable execute : forall s : stmt, world -> (string + reply s) * world.

#[local] Arguments primary_keys : simpl never.

(** The MariaDB-side steps start no setup and no copy, and none of their
    failures is of the aborting kind. *)
Lemma create_mariadb_scylla_table_side
    source_database scylla_database scylla_keyspace scylla_host scylla_port table args w :
  exists b w1 t,
    create_mariadb_scylla_table execute source_database scylla_database scylla_keyspace
      scylla_host scylla_port table args w = (Return b, w1, t) /\
    setups_started t = [] /\ copies_started t = [] /\ aborting_failures t = [].
Proof.
  unfold create_mariadb_scylla_table, get_table_schema. unfold_monad.
  cbn -[String.append]. split_execute.
  - do 3 eexists. split; [reflexivity|]. repeat split.
  - destruct (map column_of_row r) as [|col cols] eqn:Hc; cbn -[String.append].
    + do 3 eexists. split; [reflexivity|]. repeat split.
    + split_execute; do 3 eexists; (split; [reflexivity|]); repeat split.
Qed.

Lemma create_replication_triggers_side source_database scylla_database table args w :
  exists b w1 t,
    create_replication_triggers execute source_database scylla_database table args w =
      (Return b, w1, t) /\
    setups_started t = [] /\ copies_started t = [] /\ aborting_failures t = [].
Proof.
  unfold create_replication_triggers, drop_existing_triggers, get_table_schema.
  cbn [for_each]. unfold_monad. cbn -[String.append primary_keys]. split_execute.
  - do 3 eexists. split; [reflexivity|]. repeat split.
  - destruct (map column_of_row r) as [|col cols] eqn:Hc; cbn -[String.append].
    { do 3 eexists. split; [reflexivity|]. repeat split. }
    destruct (primary_keys (col :: cols)) as [|pk pks] eqn:Hpk; cbn -[String.append].
    { do 3 eexists. split; [reflexivity|]. repeat split. }
    repeat split_execute; (do 3 eexists; split; [reflexivity|]; repeat split).
Qed.

(** The bulk copy of one table returns; it starts that copy and nothing
    else, and none of its failures is of the aborting kind. *)
Lemma migrate_table_data_cases source_database scylla_database table_name w :
  exists w1 t,
    migrate_table_data execute source_database scylla_database table_name w =
      (Return tt, w1, t) /\
    setups_started t = [] /\ copies_started t = [table_name] /\ aborting_failures t = [] /\
    In (Print (nl +:+ "  Migrating existing data for table '" +:+ table_name +:+ "'...")) t /\
    In (SelectCount source_database table_name) (executed t).
Proof.
  unfold migrate_table_data. unfold_monad. cbn -[String.append Py.str_of_N].
  split_execute.
  - do 2 eexists. split; [reflexivity|]. repeat split; now left.
  - destruct (r =? 0)%N; cbn -[String.append Py.str_of_N].
    + do 2 eexists. split; [reflexivity|]. repeat split; now left.
    + split_execute; do 2 eexists; (split; [reflexivity|]); repeat split; now left.
Qed.

(** One table's setup: it returns, with no failure of the aborting kind, or
    it is ended by the one failure of that kind, which is the last thing it
    did. *)
Lemma setup_table_migration_cases table_name args w :
  exists r w1 t,
    setup_table_migration execute table_name args w = (r, w1, t) /\
    setups_started t = [table_name] /\ copies_started t = [] /\
    In (ShowFullColumns (mariadb_database args) table_name) (executed t) /\
    ((r = Return tt /\ aborting_failures t = []) \/
     (exists s msg,
        r = Raise (DbError msg) /\ aborting_failures t = [s] /\
        ended_by_setup_failure table_name args s msg t)).
Proof.
  unfold setup_table_migration, ended_by_setup_failure. unfold_monad.
  cbn -[String.append create_keyspace create_scylla_table create_mariadb_scylla_table
        create_replication_triggers].
  split_execute.
  { do 3 eexists. split; [reflexivity|]. do 3 (split; [reflexivity || now left|]).
    right. do 2 eexists. split; [reflexivity|]. split; [reflexivity|].
    left. split; [reflexivity | solve_ends_with]. }
  destruct (execute (SelectPrimaryKey (mariadb_database args) table_name) w0)
    as [[msg|pks] w2] eqn:E2;
    cbn -[String.append create_keyspace create_scylla_table create_mariadb_scylla_table
          create_replication_triggers].
  { do 3 eexists. split; [reflexivity|]. do 3 (split; [reflexivity || now left|]).
    right. do 2 eexists. split; [reflexivity|]. split; [reflexivity|].
    right; left. split; [reflexivity | solve_ends_with]. }
  destruct pks as [|pk pks];
    cbn -[String.append create_keyspace create_scylla_table create_mariadb_scylla_table
          create_replication_triggers].
  { do 3 eexists. split; [reflexivity|]. do 3 (split; [reflexivity || now left|]).
    now left. }
  rewrite create_keyspace_run.
  destruct (execute (CreateKeyspace (scylla_ks args)) w2) as [[msg|[]] w3] eqn:E3;
    cbn -[String.append create_scylla_table create_mariadb_scylla_table
          create_replication_triggers].
  { do 3 eexists. split; [reflexivity|]. do 3 (split; [reflexivity || now left|]).
    right. do 2 eexists. split; [reflexivity|]. split; [reflexivity|].
    right; right; left. split; [reflexivity | solve_ends_with]. }
  destruct (create_scylla_table_run execute table_name r (pk :: pks) (scylla_ks args) w3)
    as (defs & lines & Hrun).
  cbn zeta in Hrun. rewrite Hrun. clear Hrun.
  destruct (execute (CreateScyllaTable _ _ _ _) w3) as [[msg|[]] w4] eqn:E4;
    cbn -[String.append create_mariadb_scylla_table create_replication_triggers Py.join].
  { do 3 eexists. split; [reflexivity|].
    split; [read_trace; reflexivity|]. split; [read_trace; reflexivity|].
    split; [now left|].
    right. do 2 eexists. split; [reflexivity|]. split; [read_trace; reflexivity|].
    right; right; right. do 2 eexists. split; [reflexivity|].
    rewrite ?app_nil_r. repeat apply ends_with_later. apply ends_with_app, ends_with_here. }
  destruct (create_mariadb_scylla_table_side (mariadb_database args)
              (mariadb_scylla_database args) (scylla_ks args) (scylla_fdw_host args)
              (scylla_port args) table_name args w4) as (b1 & w5 & t5 & -> & S5 & C5 & A5).
  cbn -[String.append create_replication_triggers Py.join].
  destruct (create_replication_triggers_side (mariadb_database args)
              (mariadb_scylla_database args) table_name args w5)
    as (b2 & w6 & t6 & -> & S6 & C6 & A6).
  do 3 eexists. split; [reflexivity|].
  split; [read_trace; now rewrite S5, S6|]. split; [read_trace; now rewrite C5, C6|].
  split; [now left|].
  left. split; [reflexivity|]. read_trace. now rewrite A5, A6.
Qed.

(** The setup loop of [main]: it gets through every table, or stops at the
    table whose setup is ended by a failure of the aborting kind. *)
Lemma setup_loop_cases args tables w :
  exists r w1 t,
    for_each tables
      (fun table =>
         bind (print (nl +:+ "Processing table: " +:+ table))
              (fun _ => setup_table_migration execute table args)) w = (r, w1, t) /\
    copies_started t = [] /\
    ((r = Return tt /\ aborting_failures t = [] /\ setups_started t = tables /\
      forall table, In table tables ->
        In (Print (nl +:+ "Processing table: " +:+ table)) t /\
        In (ShowFullColumns (mariadb_database args) table) (executed t)) \/
     (exists s msg done table rest,
        r = Raise (DbError msg) /\ aborting_failures t = [s] /\
        tables = done ++ table :: rest /\ setups_started t = done ++ [table] /\
        ended_by_setup_failure table args s msg t)).
Proof.
  revert w; induction tables as [|table rest IH]; intros w.
  - do 3 eexists. split; [reflexivity|]. split; [reflexivity|].
    left. do 3 (split; [reflexivity|]). intros ? [].
  - cbn [for_each]. rewrite bind_run, bind_print.
    destruct (setup_table_migration_cases table args w)
      as (r & w1 & t & -> & S1 & C1 & Hin & [[-> A1] | (s & msg & -> & A1 & Hend)]).
    + destruct (IH w1) as (r2 & w2 & t2 & -> & C2 & Hr2).
      do 3 eexists. split; [reflexivity|].
      split; [read_trace; rewrite C1, C2; cbn [app]; rewrite ?app_nil_r; reflexivity|].
      destruct Hr2 as [(-> & A2 & S2 & Hall) | (s & msg & done & tb & rest' & -> & A2 & -> & S2 & Hend)].
      * left. split; [reflexivity|]. split; [read_trace; rewrite A1, A2; cbn [app]; rewrite ?app_nil_r; reflexivity|].
        split; [read_trace; rewrite S1, S2; cbn [app]; rewrite ?app_nil_r; reflexivity|].
        intros x [<-|Hx].
        -- split; [now left|].
           change (Print (nl +:+ "Processing table: " +:+ table) :: t)
             with ([Print (nl +:+ "Processing table: " +:+ table)] ++ t).
           rewrite !executed_app. apply in_or_app. left. apply in_or_app. now right.
        -- destruct (Hall x Hx) as [H1 H2]. split.
           ++ apply in_or_app. now right.
           ++ rewrite executed_app. apply in_or_app. now right.
      * right. exists s, msg, (table :: done), tb, rest'.
        split; [reflexivity|]. split; [read_trace; rewrite A1, A2; cbn [app]; rewrite ?app_nil_r; reflexivity|].
        split; [reflexivity|]. split; [read_trace; rewrite S1, S2; cbn [app]; rewrite ?app_nil_r; reflexivity|].
        now apply ended_by_setup_failure_app.
    + do 3 eexists. split; [reflexivity|]. split; [read_trace; exact C1|].
      right. exists s, msg, [], table, rest.
      split; [reflexivity|]. split; [read_trace; exact A1|].
      split; [reflexivity|]. split; [read_trace; exact S1|].
      now apply (ended_by_setup_failure_app _ _ _ _ [_]).
Qed.

(** The copy loop of [main] always gets through every table. *)
Lemma copy_loop_cases source_database scylla_database tables w :
  exists w1 t,
    for_each tables (fun table =>
      migrate_table_data execute source_database scylla_database table) w =
      (Return tt, w1, t) /\
    setups_started t = [] /\ copies_started t = tables /\ aborting_failures t = [] /\
    (forall table, In table tables ->
       In (Print (nl +:+ "  Migrating existing data for table '" +:+ table +:+ "'...")) t /\
       In (SelectCount source_database table) (executed t)).
Proof.
  revert w; induction tables as [|table rest IH]; intros w.
  - do 2 eexists. do 4 (split; [reflexivity|]). intros ? [].
  - cbn [for_each]. rewrite bind_run.
    destruct (migrate_table_data_cases source_database scylla_database table w)
      as (w1 & t & -> & S1 & C1 & A1 & Hp & He).
    destruct (IH w1) as (w2 & t2 & -> & S2 & C2 & A2 & Hall).
    do 2 eexists. split; [reflexivity|].
    split; [read_trace; rewrite S1, S2; cbn [app]; rewrite ?app_nil_r; reflexivity|]. split; [read_trace; rewrite C1, C2; cbn [app]; rewrite ?app_nil_r; reflexivity|].
    split; [read_trace; rewrite A1, A2; cbn [app]; rewrite ?app_nil_r; reflexivity|].
    intros x [<-|Hx].
    + split; [apply in_or_app; now left|].
      rewrite executed_app. apply in_or_app. now left.
    + destruct (Hall x Hx). split; [apply in_or_app; now right|].
      rewrite executed_app. apply in_or_app. now right.
Qed.

(** The whole run, once the mirror database exists and the table list is
    known. *)
Lemma main_cases args w w1 w2 tables :
  execute (CreateDatabase (mariadb_scylla_database args)) w = (inr tt, w1) ->
  execute (SelectTables (mariadb_database args)) w1 = (inr tables, w2) ->
  tables <> [] ->
  exists r w3 t,
    main execute args w = (r, w3, t) /\
    ((r = Return tt /\ aborting_failures t = [] /\
      setups_started t = tables /\ copies_started t = tables /\
      forall table, In table tables ->
        In (Print (nl +:+ "Processing table: " +:+ table)) t /\
        In (ShowFullColumns (mariadb_database args) table) (executed t) /\
        In (Print (nl +:+ "  Migrating existing data for table '" +:+ table +:+ "'...")) t /\
        In (SelectCount (mariadb_database args) table) (executed t)) \/
     (exists s msg done table rest,
        r = Raise (DbError msg) /\ aborting_failures t = [s] /\
        tables = done ++ table :: rest /\
        setups_started t = done ++ [table] /\ copies_started t = [] /\
        ended_by_setup_failure table args s msg t)).
Proof.
  intros Hdb Htables Hne. unfold main, configure_storage_engine.
  rewrite !bind_print, bind_run, (create_scylla_database_ok _ _ _ _ Hdb).
  cbn beta iota. rewrite bind_print, bind_run, (get_source_tables_ok _ _ _ _ _ Htables).
  cbn beta iota. destruct tables as [|t0 ts] eqn:Et; [congruence|]. rewrite <- Et.
  rewrite bind_print, bind_run, for_each_print. cbn beta iota. rewrite bind_run.
  destruct (setup_loop_cases args tables w2) as (r & w3 & t & -> & C1 & Hr).
  destruct Hr as [(-> & A1 & S1 & Hall) | (s & msg & done & tb & rest & -> & A1 & Hsplit & S1 & Hend)].
  - cbn beta iota. rewrite bind_print, bind_run.
    destruct (copy_loop_cases (mariadb_database args) (mariadb_scylla_database args)
                tables w3) as (w4 & t4 & -> & S4 & C4 & A4 & Hcopy).
    cbn beta iota. rewrite !bind_print. unfold print.
    do 3 eexists. split; [reflexivity|]. left. split; [reflexivity|].
    split; [read_trace; rewrite A1, A4; cbn [app]; rewrite ?app_nil_r; reflexivity|].
    split; [read_trace; rewrite S1, S4; cbn [app]; rewrite ?app_nil_r; reflexivity|].
    split; [read_trace; rewrite C1, C4; cbn [app]; rewrite ?app_nil_r; reflexivity|].
    intros table Hin. destruct (Hall table Hin) as [H1 H2].
    destruct (Hcopy table Hin) as [H3 H4].
    apply executed_inv in H2 as [e2 H2]. apply executed_inv in H4 as [e4 H4].
    split; [find_event|]. split; [eapply executed_in; find_event|].
    split; [find_event | eapply executed_in; find_event].
  - do 3 eexists. split; [reflexivity|]. right. exists s, msg, done, tb, rest.
    split; [reflexivity|]. split; [read_trace; exact A1|].
    split; [exact Hsplit|]. split; [read_trace; exact S1|]. split; [read_trace; exact C1|].
    repeat match goal with
           | |- ended_by_setup_failure _ _ _ _ (?e :: ?t) =>
               apply (ended_by_setup_failure_app _ _ _ _ [e] t)
           | |- ended_by_setup_failure _ _ _ _ (?p ++ ?t) =>
               apply (ended_by_setup_failure_app _ _ _ _ p t)
           end.
    exact Hend.
Qed.

End RunCases.

Section Skips.

Context {world : Type}.
Variable execute : forall s : stmt, world -> (string + reply s) * world.

#[local] Arguments primary_keys : simpl never.



End Skips.

(** ** The statements the two generators execute *)

Section GeneratedStatements.

Context {world : Type}.
Variable execute : forall s : stmt, world -> (string + reply s) * world.

#[local] Arguments primary_keys : simpl never.
#[local] Arguments insert_trigger : simpl never.
#[local] Arguments update_trigger : simpl never.
#[local] Arguments delete_trigger : simpl never.

(** The key columns are those the catalog marks [PRI]. *)
Lemma key_columns_of_rows (rows : list catalog_row) (c : string) :
  In c (map name (List.filter is_primary (map column_of_row rows))) <->
  exists ty nu, In (c, ty, nu, "PRI") rows.
Proof.
  change (map name (List.filter is_primary (map column_of_row rows)))
    with (primary_keys (map column_of_row rows)).
  rewrite primary_keys_in. split.
  - intros (col & Hin & Hp & <-). apply in_map_iff in Hin as ([[[n ty] nu] k] & <- & Hin).
    cbn in Hp |- *. apply String.eqb_eq in Hp as ->. eauto.
  - intros (ty & nu & Hin). exists (column_of_row (c, ty, nu, "PRI")).
    split; [now apply in_map | now split].
Qed.

(** Trigger installation on a table with a primary key: what it executes
    is an initial part of [installation_statements]; it reaches the update
    trigger unless it ends before, at a statement it reports. *)
Lemma create_replication_triggers_statements
    source_database scylla_database table args w rows w0 :
  execute (SelectColumns source_database table) w = (inr rows, w0) ->
  primary_keys (map column_of_row rows) <> [] ->
  exists b w1 t,
    create_replication_triggers execute source_database scylla_database table args w =
      (Return b, w1, t) /\
    executed t =
      firstn (length (executed t))
        (installation_statements (map column_of_row rows) source_database scylla_database
           table args) /\
    (In (update_trigger (map column_of_row rows) source_database scylla_database table args)
        (executed t) \/
     (b = false /\
      exists s msg,
        In s [Delimiter "$$";
              insert_trigger (map column_of_row rows) source_database scylla_database table args;
              Delimiter ";"] /\
        ends_with [Exec s (Some msg);
                   Print ("  ✗ Error creating triggers for " +:+ source_database +:+ "." +:+
                          table +:+ ": " +:+ msg);
                   PrintExc (DbError msg)] t)) /\
    (b = true -> forall s, In s (failed t) -> exists n, s = DropTrigger source_database n).
Proof.
  intros E Hpk.
  unfold create_replication_triggers, drop_existing_triggers, get_table_schema,
    installation_statements.
  cbn [for_each]. unfold_monad.
  cbn -[String.append primary_keys insert_trigger update_trigger delete_trigger].
  rewrite E.
  cbn -[String.append primary_keys insert_trigger update_trigger delete_trigger].
  destruct (map column_of_row rows) as [|col cols] eqn:Hc; [now cbn in Hpk|].
  cbn -[String.append primary_keys insert_trigger update_trigger delete_trigger].
  destruct (primary_keys (col :: cols)) as [|pk pks] eqn:Hpk'; [congruence|].
  cbn -[String.append primary_keys insert_trigger update_trigger delete_trigger].
  repeat match goal with
         | |- context [match execute ?s ?w' with _ => _ end] =>
             let r := fresh "r" in
             let w1 := fresh "w" in
             let msg := fresh "msg" in
             destruct (execute s w') as [[msg | r] w1];
             cbn -[String.append primary_keys insert_trigger update_trigger delete_trigger]
         end.
  all: do 3 eexists; split; [reflexivity|]; split; [reflexivity|]; split.
  all: first
         [ left; cbn; find_event
         | right; split; [reflexivity|]; do 2 eexists; split; [|solve_ends_with];
           cbn; tauto
         | intros Hb; first
             [ discriminate Hb
             | intros s Hs; cbn in Hs;
               repeat (destruct Hs as [<-|Hs]; [eexists; reflexivity|]); destruct Hs ] ].
Qed.

End GeneratedStatements.

(** C1.  Whatever the engine answers, when the schema query returns rows of
    which at least one is marked [PRI], every [CREATE TRIGGER ... AFTER
    UPDATE] statement that trigger installation executes has as WHERE
    clause the [AND]-conjunction of one test [`pk` = OLD.`pk`] per column
    marked [PRI], in column order; the statement is executed unless the
    installation ended before it, at a [DELIMITER] or at the insert trigger,
    and it is executed without error when the installation answers [True].
    Every key column is compared with its OLD value, no conjunct compares a
    column with a NEW value, and the text [NEW.] occurs in the clause only
    when a key column's own name spells it. *)
Theorem C1_update_where_clause_tests_old_key
    {world : Type} (execute : forall s : stmt, world -> (string + reply s) * world)
    (source_database scylla_database table : string) (args : arguments)
    (w w0 : world) (rows : list catalog_row) :
  execute (SelectColumns source_database table) w = (inr rows, w0) ->
  let key := map name (List.filter is_primary (map column_of_row rows)) in
  let conjuncts := map (fun pk => "`" +:+ pk +:+ "` = OLD.`" +:+ pk +:+ "`") key in
  key <> [] ->
  (forall pk, In pk key <-> exists ty nu, In (pk, ty, nu, "PRI") rows) /\
  (exists b w1 t,
     create_replication_triggers execute source_database scylla_database table args w =
       (Return b, w1, t) /\
     (forall sd sc tb debug_start set_list where_ debug_end,
        In (CreateUpdateTrigger sd sc tb debug_start set_list where_ debug_end) (executed t) ->
        where_ = Py.join " AND " conjuncts /\
        exists header footer,
          stmt_text (CreateUpdateTrigger sd sc tb debug_start set_list where_ debug_end) =
            header +:+ nl +:+ "    WHERE " +:+ Py.join " AND " conjuncts +:+ ";" +:+ footer) /\
     ((exists debug_start set_list debug_end,
         In (CreateUpdateTrigger source_database scylla_database table
               debug_start set_list (Py.join " AND " conjuncts) debug_end) (executed t)) \/
      (b = false /\
       exists s msg,
         In s [Delimiter "$$";
               insert_trigger (map column_of_row rows) source_database scylla_database table args;
               Delimiter ";"] /\
         ends_with [Exec s (Some msg);
                    Print ("  ✗ Error creating triggers for " +:+ source_database +:+ "." +:+
                           table +:+ ": " +:+ msg);
                    PrintExc (DbError msg)] t)) /\
     (b = true ->
      exists debug_start set_list debug_end,
        In (CreateUpdateTrigger source_database scylla_database table
              debug_start set_list (Py.join " AND " conjuncts) debug_end) (executed t) /\
        ~ In (CreateUpdateTrigger source_database scylla_database table
                debug_start set_list (Py.join " AND " conjuncts) debug_end) (failed t))) /\
  (forall pk, In pk key ->
     In ("`" +:+ pk +:+ "` = OLD.`" +:+ pk +:+ "`") conjuncts /\
     Py.contains ("`" +:+ pk +:+ "` = OLD.`" +:+ pk +:+ "`") (Py.join " AND " conjuncts) = true) /\
  (forall c, ~ In ("`" +:+ c +:+ "` = NEW.`" +:+ c +:+ "`") conjuncts) /\
  (Py.contains "NEW." (Py.join " AND " conjuncts) = false <->
   forall pk, In pk key -> Py.contains "NEW." pk = false).
Proof.
  intros E key conjuncts Hkey. subst conjuncts key.
  change (fun pk => "`" +:+ pk +:+ "` = OLD.`" +:+ pk +:+ "`") with old_key_test.
  set (columns := map column_of_row rows) in *.
  change (map name (List.filter is_primary columns)) with (primary_keys columns) in *.
  split; [intros pk; apply key_columns_of_rows|].
  split; [|split; [|split]].
  - destruct (create_replication_triggers_statements execute source_database scylla_database
                table args w rows w0 E Hkey) as (b & w1 & t & Hrun & Hpre & Hupd & Htrue).
    fold columns in Hpre, Hupd.
    assert (Hin : In (update_trigger columns source_database scylla_database table args)
                    (executed t) ->
                  exists debug_start set_list debug_end,
                    In (CreateUpdateTrigger source_database scylla_database table
                          debug_start set_list
                          (Py.join " AND " (map old_key_test (primary_keys columns)))
                          debug_end) (executed t)).
    { intros H. do 3 eexists. exact H. }
    exists b, w1, t. split; [exact Hrun|]. split; [|split].
    + intros sd sc tb ds sl wh de H. rewrite Hpre in H.
      apply in_firstn in H. unfold installation_statements in H.
      cbn [In] in H. unfold insert_trigger, delete_trigger, update_trigger in H.
      repeat (destruct H as [H|H]; [try discriminate H|]); [|destruct H].
      injection H as <- <- <- <- <- <- <-.
      split; [reflexivity|].
      exists (nl +:+ "CREATE TRIGGER `" +:+ source_database +:+ "`.`" +:+ table +:+
              "_update_trigger`" +:+
              nl +:+ "AFTER UPDATE ON `" +:+ source_database +:+ "`.`" +:+ table +:+ "`" +:+
              nl +:+ "FOR EACH ROW" +:+ nl +:+ "BEGIN" +:+
              nl +:+ "    " +:+ debug_line args table "update" "START" +:+
              nl +:+ "    UPDATE `" +:+ scylla_database +:+ "`.`" +:+ table +:+ "`" +:+
              nl +:+ "    SET " +:+ update_col_list columns).
      exists (nl +:+ "    " +:+ debug_line args table "update" "END" +:+
              nl +:+ "END$$" +:+ nl +:+ "        ").
      cbn [stmt_text]. unfold where_clause. rewrite !append_assoc. reflexivity.
    + destruct Hupd as [H|H]; [left; exact (Hin H) | right; exact H].
    + intros ->. destruct Hupd as [H|[H _]]; [|discriminate H].
      do 3 eexists. split; [exact H|].
      intros Hf. destruct (Htrue eq_refl _ Hf) as [n Hn]. discriminate Hn.
  - intros pk H. split.
    + apply in_map_iff. now exists pk.
    + apply join_contains, in_map_iff. now exists pk.
  - intros c H. apply in_map_iff in H as (pk & H & _).
    exact (old_test_is_not_new_assignment pk c H).
  - split.
    + intros H pk Hpk. destruct (Py.contains "NEW." pk) eqn:Hc; [|reflexivity].
      rewrite (where_clause_spells "NEW." pk _ Hpk Hc) in H. discriminate H.
    + intros H. apply where_clause_free_of; try reflexivity. exact H.
Qed.

Lemma C1_update_where_clause_tests_old_key_witness :
  let run :=
    create_replication_triggers (CatalogEngine.execute Sample.shop CatalogEngine.accepts_all)
      "shop" "scylla_db" "order_items" Sample.args CatalogEngine.empty_catalog in
  (exists debug_start set_list debug_end,
     In (CreateUpdateTrigger "shop" "scylla_db" "order_items" debug_start set_list
           "`order_id` = OLD.`order_id` AND `line_no` = OLD.`line_no`" debug_end)
        (executed (snd run))) /\
  Py.contains "NEW." "`order_id` = OLD.`order_id` AND `line_no` = OLD.`line_no`" = false.
Proof.
  intros run.
  destruct (C1_update_where_clause_tests_old_key
              (CatalogEngine.execute Sample.shop CatalogEngine.accepts_all)
              "shop" "scylla_db" "order_items" Sample.args
              CatalogEngine.empty_catalog CatalogEngine.empty_catalog
              (CatalogEngine.columns_of Sample.shop "shop" "order_items")
              eq_refl ltac:(discriminate))
    as (_ & (b & w1 & t & Hrun & _ & _ & Htrue) & _ & _ & Hnew).
  split.
  - assert (Hb : b = true).
    { apply (f_equal (fun x => fst (fst x))) in Hrun. vm_compute in Hrun.
      now injection Hrun. }
    destruct (Htrue Hb) as (ds & sl & de & Hin & _).
    exists ds, sl, de. subst run. rewrite Hrun. exact Hin.
  - apply (proj2 Hnew). intros pk [<-|[<-|[]]]; reflexivity.
Defined.

Section MirrorStatement.

Context {world : Type}.
Variable execute : forall s : stmt, world -> (string + reply s) * world.

(** Mirror-table creation on a table with columns: it executes the schema
    query and the one [CREATE TABLE] built from the rows, and answers
    [True] exactly when the engine accepted it. *)
Lemma create_mariadb_scylla_table_statement
    source_database scylla_database scylla_keyspace scylla_host scylla_port table args
    w rows w0 :
  execute (SelectColumns source_database table) w = (inr rows, w0) ->
  rows <> [] ->
  let s := mirror_create_stmt (map column_of_row rows) scylla_database scylla_keyspace
             scylla_host table args in
  exists b w1 t,
    create_mariadb_scylla_table execute source_database scylla_database scylla_keyspace
      scylla_host scylla_port table args w = (Return b, w1, t) /\
    executed t = [SelectColumns source_database table; s] /\
    (b = true <-> failed t = []) /\
    (b = true <-> exists r, execute s w0 = (inr r, w1)).
Proof.
  intros E Hne s. subst s.
  unfold create_mariadb_scylla_table, get_table_schema. unfold_monad.
  cbn -[String.append mirror_create_stmt map]. rewrite E.
  cbn -[String.append mirror_create_stmt map].
  destruct rows as [|row rows]; [congruence|].
  cbn -[String.append mirror_create_stmt].
  destruct (execute _ w0) as [[msg|[]] w2]; do 3 eexists;
    (split; [reflexivity|]); (split; [reflexivity|]); cbn; split; split;
    try discriminate; try reflexivity.
  - intros [r Hr]. discriminate Hr.
  - intros _. now exists tt.
Qed.

End MirrorStatement.

(** C9.  Whatever the engine answers, when the schema query returns rows of
    which at least one is marked [PRI], mirror-table creation executes,
    after the schema query, exactly one statement: the [CREATE TABLE IF NOT
    EXISTS] whose definition list holds one definition per row, in column
    order, followed by one [PRIMARY KEY (...)] constraint.  The constraint
    names, backquoted and in column order, exactly the columns marked
    [PRI], and it can be read in the statement's text.  The call answers
    [True] exactly when the engine accepted the statement. *)
Theorem C9_mirror_table_primary_key
    {world : Type} (execute : forall s : stmt, world -> (string + reply s) * world)
    (source_database scylla_database scylla_keyspace scylla_host : string) (scylla_port : Z)
    (table : string) (args : arguments) (w w0 : world) (rows : list catalog_row) :
  execute (SelectColumns source_database table) w = (inr rows, w0) ->
  let columns := map column_of_row rows in
  let key := map name (List.filter is_primary columns) in
  let constraint :=
    "PRIMARY KEY (" +:+ Py.join ", " (map (fun c => "`" +:+ c +:+ "`") key) +:+ ")" in
  let create_stmt :=
    CreateMirrorTable scylla_database table (map col_def columns ++ [constraint])
      (mirror_comment scylla_keyspace scylla_host table args) in
  key <> [] ->
  (forall c, In c key <-> exists ty nu, In (c, ty, nu, "PRI") rows) /\
  sublist key (map name columns) /\
  (exists b w1 t,
     create_mariadb_scylla_table execute source_database scylla_database scylla_keyspace
       scylla_host scylla_port table args w = (Return b, w1, t) /\
     executed t = [SelectColumns source_database table; create_stmt] /\
     (b = true <-> failed t = []) /\
     (b = true <-> exists r, execute create_stmt w0 = (inr r, w1))) /\
  (exists header footer,
     stmt_text create_stmt =
       header +:+ Py.join ", " (map col_def columns ++ [constraint]) +:+ footer) /\
  Py.contains constraint (stmt_text create_stmt) = true.
Proof.
  intros E columns key constraint create_stmt Hkey. subst create_stmt constraint key.
  change (fun c => "`" +:+ c +:+ "`") with backquoted.
  change (map name (List.filter is_primary columns)) with (primary_keys columns) in *.
  assert (Hdefs : mirror_column_defs columns =
                  map col_def columns ++
                  [primary_key_constraint (map backquoted (primary_keys columns))]).
  { rewrite mirror_column_defs_spec. destruct (primary_keys columns); [congruence | reflexivity]. }
  assert (Hne : rows <> []).
  { intros ->. now apply Hkey. }
  split; [intros c; apply key_columns_of_rows|].
  split; [apply primary_keys_sublist|].
  split; [|split].
  - pose proof (create_mariadb_scylla_table_statement execute source_database scylla_database
                  scylla_keyspace scylla_host scylla_port table args w rows w0 E Hne) as H.
    cbn zeta in H. fold columns in H. unfold mirror_create_stmt in H. rewrite Hdefs in H.
    exact H.
  - exists (nl +:+ "            CREATE TABLE IF NOT EXISTS `" +:+ scylla_database +:+ "`.`" +:+
            table +:+ "` (" +:+ nl +:+ "                ").
    eexists. cbn [stmt_text]. rewrite !append_assoc. reflexivity.
  - cbn [stmt_text]. do 8 apply contains_app_r.
    apply contains_app_l, join_contains, in_or_app. right. now left.
Qed.

Lemma C9_mirror_table_primary_key_witness :
  let run :=
    create_mariadb_scylla_table (CatalogEngine.execute Sample.shop CatalogEngine.accepts_all)
      "shop" "scylla_db" "migration" "scylladb-migration-target" 9042 "order_items"
      Sample.args CatalogEngine.empty_catalog in
  executed (snd run) =
    [SelectColumns "shop" "order_items";
     CreateMirrorTable "scylla_db" "order_items"
       ["`order_id` int(11) NOT NULL"; "`sku` varchar(20)"; "`line_no` int(11) NOT NULL";
        "`qty` int(11)"; "PRIMARY KEY (`order_id`, `line_no`)"]
       "scylla_hosts=scylladb-migration-target;scylla_keyspace=migration;scylla_table=order_items"].
Proof.
  intros run.
  destruct (C9_mirror_table_primary_key
              (CatalogEngine.execute Sample.shop CatalogEngine.accepts_all)
              "shop" "scylla_db" "migration" "scylladb-migration-target" 9042 "order_items"
              Sample.args CatalogEngine.empty_catalog CatalogEngine.empty_catalog
              (CatalogEngine.columns_of Sample.shop "shop" "order_items")
              eq_refl ltac:(discriminate))
    as (_ & _ & (b & w1 & t & Hrun & Hexec & _) & _).
  subst run. rewrite Hrun. exact Hexec.
Defined.

(** C10.  Whatever the engine answers, when the schema query returns rows
    of which at least one is marked [PRI], every [CREATE TRIGGER ... AFTER
    UPDATE] statement that trigger installation executes has as SET clause
    one assignment [`c` = NEW.`c`] per row of the schema, in column order,
    whether the column is marked [PRI] or not; the clause stands in the
    statement's text right before the WHERE clause.  The statement is
    executed unless the installation ended before it, and it is executed
    when the installation answers [True].  Each key column is thus assigned
    its NEW value by the statement that tests it against its OLD value. *)
Theorem C10_update_sets_every_column
    {world : Type} (execute : forall s : stmt, world -> (string + reply s) * world)
    (source_database scylla_database table : string) (args : arguments)
    (w w0 : world) (rows : list catalog_row) :
  execute (SelectColumns source_database table) w = (inr rows, w0) ->
  let columns := map column_of_row rows in
  let key := map name (List.filter is_primary columns) in
  let assignments := map (fun c => "`" +:+ c +:+ "` = NEW.`" +:+ c +:+ "`") (map name columns) in
  key <> [] ->
  length assignments = length rows /\
  (exists b w1 t,
     create_replication_triggers execute source_database scylla_database table args w =
       (Return b, w1, t) /\
     (forall sd sc tb debug_start set_list where_ debug_end,
        In (CreateUpdateTrigger sd sc tb debug_start set_list where_ debug_end) (executed t) ->
        set_list = Py.join ", " assignments /\
        (forall pk, In pk key ->
           Py.contains ("`" +:+ pk +:+ "` = NEW.`" +:+ pk +:+ "`") set_list = true /\
           Py.contains ("`" +:+ pk +:+ "` = OLD.`" +:+ pk +:+ "`") where_ = true) /\
        exists header footer,
          stmt_text (CreateUpdateTrigger sd sc tb debug_start set_list where_ debug_end) =
            header +:+ nl +:+ "    SET " +:+ Py.join ", " assignments +:+
            nl +:+ "    WHERE " +:+ where_ +:+ ";" +:+ footer) /\
     ((exists debug_start where_ debug_end,
         In (CreateUpdateTrigger source_database scylla_database table
               debug_start (Py.join ", " assignments) where_ debug_end) (executed t)) \/
      (b = false /\
       exists s msg,
         In s [Delimiter "$$";
               insert_trigger columns source_database scylla_database table args;
               Delimiter ";"] /\
         ends_with [Exec s (Some msg);
                    Print ("  ✗ Error creating triggers for " +:+ source_database +:+ "." +:+
                           table +:+ ": " +:+ msg);
                    PrintExc (DbError msg)] t)) /\
     (b = true ->
      exists debug_start where_ debug_end,
        In (CreateUpdateTrigger source_database scylla_database table
              debug_start (Py.join ", " assignments) where_ debug_end) (executed t))) /\
  (forall c ty nu k, In (c, ty, nu, k) rows ->
     In ("`" +:+ c +:+ "` = NEW.`" +:+ c +:+ "`") assignments /\
     Py.contains ("`" +:+ c +:+ "` = NEW.`" +:+ c +:+ "`") (Py.join ", " assignments) = true) /\
  (forall pk, In pk key -> In ("`" +:+ pk +:+ "` = NEW.`" +:+ pk +:+ "`") assignments).
Proof.
  intros E columns key assignments Hkey. subst assignments key.
  change (fun c => "`" +:+ c +:+ "` = NEW.`" +:+ c +:+ "`") with new_assignment.
  change (map name (List.filter is_primary columns)) with (primary_keys columns) in *.
  assert (Hall : forall c, In c (map name columns) ->
                   In (new_assignment c) (map new_assignment (map name columns)) /\
                   Py.contains (new_assignment c)
                     (Py.join ", " (map new_assignment (map name columns))) = true).
  { intros c H.
    assert (Hin : In (new_assignment c) (map new_assignment (map name columns)))
      by now apply in_map.
    split; [exact Hin | now apply join_contains]. }
  assert (Hkeys : forall pk, In pk (primary_keys columns) -> In pk (map name columns)).
  { intros pk H. apply primary_keys_in in H as (col & H1 & _ & <-). now apply in_map. }
  split; [subst columns; now rewrite !length_map|].
  split; [|split].
  - destruct (create_replication_triggers_statements execute source_database scylla_database
                table args w rows w0 E Hkey) as (b & w1 & t & Hrun & Hpre & Hupd & _).
    fold columns in Hpre, Hupd.
    assert (Hin : In (update_trigger columns source_database scylla_database table args)
                    (executed t) ->
                  exists debug_start where_ debug_end,
                    In (CreateUpdateTrigger source_database scylla_database table
                          debug_start (Py.join ", " (map new_assignment (map name columns)))
                          where_ debug_end) (executed t)).
    { intros H. do 3 eexists. exact H. }
    exists b, w1, t. split; [exact Hrun|]. split; [|split].
    + intros sd sc tb ds sl wh de H. rewrite Hpre in H.
      apply in_firstn in H. unfold installation_statements in H.
      cbn [In] in H. unfold insert_trigger, delete_trigger, update_trigger in H.
      repeat (destruct H as [H|H]; [try discriminate H|]); [|destruct H].
      injection H as <- <- <- <- <- <- <-.
      split; [reflexivity|]. split.
      * intros pk Hpk. split.
        -- apply (Hall pk), Hkeys, Hpk.
        -- apply join_contains, in_map_iff. now exists pk.
      * exists (nl +:+ "CREATE TRIGGER `" +:+ source_database +:+ "`.`" +:+ table +:+
                "_update_trigger`" +:+
                nl +:+ "AFTER UPDATE ON `" +:+ source_database +:+ "`.`" +:+ table +:+ "`" +:+
                nl +:+ "FOR EACH ROW" +:+ nl +:+ "BEGIN" +:+
                nl +:+ "    " +:+ debug_line args table "update" "START" +:+
                nl +:+ "    UPDATE `" +:+ scylla_database +:+ "`.`" +:+ table +:+ "`").
        exists (nl +:+ "    " +:+ debug_line args table "update" "END" +:+
                nl +:+ "END$$" +:+ nl +:+ "        ").
        cbn [stmt_text]. unfold update_col_list, col_names. rewrite !append_assoc.
        reflexivity.
    + destruct Hupd as [H|H]; [left; exact (Hin H) | right; exact H].
    + intros ->. destruct Hupd as [H|[H _]]; [exact (Hin H) | discriminate H].
  - intros c ty nu k H. apply Hall.
    apply in_map_iff. exists (column_of_row (c, ty, nu, k)).
    split; [reflexivity | now apply in_map].
  - intros pk H. apply (Hall pk), Hkeys, H.
Qed.

Lemma C10_update_sets_every_column_witness :
  let run :=
    create_replication_triggers (CatalogEngine.execute Sample.shop CatalogEngine.accepts_all)
      "shop" "scylla_db" "order_items" Sample.args CatalogEngine.empty_catalog in
  exists debug_start where_ debug_end,
    In (CreateUpdateTrigger "shop" "scylla_db" "order_items" debug_start
          "`order_id` = NEW.`order_id`, `sku` = NEW.`sku`, `line_no` = NEW.`line_no`, `qty` = NEW.`qty`"
          where_ debug_end)
       (executed (snd run)).
Proof.
  intros run.
  destruct (C10_update_sets_every_column
              (CatalogEngine.execute Sample.shop CatalogEngine.accepts_all)
              "shop" "scylla_db" "order_items" Sample.args
              CatalogEngine.empty_catalog CatalogEngine.empty_catalog
              (CatalogEngine.columns_of Sample.shop "shop" "order_items")
              eq_refl ltac:(discriminate))
    as (_ & (b & w1 & t & Hrun & _ & _ & Htrue) & _).
  assert (Hb : b = true).
  { apply (f_equal (fun x => fst (fst x))) in Hrun. vm_compute in Hrun.
    now injection Hrun. }
  destruct (Htrue Hb) as (ds & wh & de & Hin).
  exists ds, wh, de. subst run. rewrite Hrun. exact Hin.
Defined.




(** C3 (as the code behaves).  With the tables [animals] and [notes] and
    an engine that refuses [CREATE KEYSPACE], the failure is printed and
    raised again: the run ends with the exception while setting up
    [animals]; [notes] is never looked at and no bulk copy is started. *)
Lemma C3_keyspace_failure_aborts_the_run :
  let run :=
    main (CatalogEngine.execute Sample.src
            (CatalogEngine.rejecting CatalogEngine.is_create_keyspace "unreachable"))
      Sample.args CatalogEngine.empty_catalog in
  CatalogEngine.tables_of Sample.src "testdb" = ["animals"; "notes"] /\
  fst (fst run) = Raise (DbError "unreachable") /\
  executed (snd run) =
    [CreateDatabase "scylla_db"; SelectTables "testdb";
     ShowFullColumns "testdb" "animals"; SelectPrimaryKey "testdb" "animals";
     CreateKeyspace "migration"] /\
  failed (snd run) = [CreateKeyspace "migration"] /\
  existsb (String.eqb "    ✗ Error creating keyspace: unreachable") (printed (snd run)) = true /\
  existsb (String.eqb (nl +:+ "Processing table: notes")) (printed (snd run)) = false.
Proof. vm_compute. repeat split; reflexivity. Qed.

(** C3 (amended).  A failure in mirror-table creation, in trigger
    installation or in the bulk copy is caught where it happens: the step
    returns, and the failing statement is followed in the trace by the
    line that reports it (a failing [DROP TRIGGER IF EXISTS] is passed over
    without a line).  A failure in keyspace creation or in target-table
    creation is reported and raised again.  For the run as a whole, over
    the table list the source database answers with: if no statement of the
    aborting kind fails, [main] returns and has started the setup and the
    bulk copy of every table of the list, in order.  If a statement of
    that kind fails, it is the only one that does and the last thing the
    run did but for the line that reports it: [main] ends with the engine's
    error, the setups started are those of the tables up to the one the
    failure occurred in, the remaining tables are not looked at and no
    bulk copy is started.  [main] ends with an exception in no other
    case. *)
Theorem C3_failures_are_contained_except_on_the_scylla_side
    {world : Type} (execute : forall s : stmt, world -> (string + reply s) * world)
    (args : arguments) (w w1 w2 : world) (tables : list string) :
  execute (CreateDatabase (mariadb_scylla_database args)) w = (inr tt, w1) ->
  execute (SelectTables (mariadb_database args)) w1 = (inr tables, w2) ->
  tables <> [] ->
  (* mirror-table creation *)
  (forall source_database scylla_database scylla_keyspace scylla_host scylla_port table w0,
     exists b w3 t,
       create_mariadb_scylla_table execute source_database scylla_database scylla_keyspace
         scylla_host scylla_port table args w0 = (Return b, w3, t) /\
       forall s, In s (failed t) ->
         aborts_run s = false /\ b = false /\
         exists msg,
           ends_with [Exec s (Some msg);
                      Print ("  ✗ Error creating table " +:+ scylla_database +:+ "." +:+ table +:+
                             ": " +:+ msg)] t) /\
  (* trigger installation *)
  (forall source_database scylla_database table w0,
     exists b w3 t,
       create_replication_triggers execute source_database scylla_database table args w0 =
         (Return b, w3, t) /\
       forall s, In s (failed t) ->
         aborts_run s = false /\
         ((exists n, s = DropTrigger source_database n) \/
          (b = false /\
           exists msg,
             ends_with [Exec s (Some msg);
                        Print ("  ✗ Error creating triggers for " +:+ source_database +:+ "." +:+
                               table +:+ ": " +:+ msg);
                        PrintExc (DbError msg)] t))) /\
  (* bulk copy *)
  (forall source_database scylla_database table w0,
     exists w3 t,
       migrate_table_data execute source_database scylla_database table w0 =
         (Return tt, w3, t) /\
       forall s, In s (failed t) ->
         aborts_run s = false /\
         exists msg,
           ends_with [Exec s (Some msg);
                      Print ("    ✗ Error migrating table data: " +:+ msg);
                      PrintExc (DbError msg)] t) /\
  (* keyspace creation *)
  (forall keyspace w0 msg w3,
     execute (CreateKeyspace keyspace) w0 = (inl msg, w3) ->
     create_keyspace execute keyspace w0 =
       (Raise (DbError msg), w3,
        [Exec (CreateKeyspace keyspace) (Some msg);
         Print ("    ✗ Error creating keyspace: " +:+ msg)])) /\
  (* target-table creation *)
  (forall table columns pk_columns keyspace w0,
     exists col_defs pre,
       let s := CreateScyllaTable keyspace table col_defs
                  ("PRIMARY KEY (" +:+ Py.join ", " pk_columns +:+ ")") in
       forall msg w3,
         execute s w0 = (inl msg, w3) ->
         create_scylla_table execute table columns pk_columns keyspace w0 =
           (Raise (DbError msg), w3,
            pre ++ [Exec s (Some msg);
                    Print ("    ✗ Error creating ScyllaDB table: " +:+ msg)])) /\
  (* the run *)
  exists r w3 t,
    main execute args w = (r, w3, t) /\
    ((forall s, In s (failed t) -> aborts_run s = false) ->
       r = Return tt /\
       setups_started t = tables /\
       copies_started t = tables /\
       forall table, In table tables ->
         In (Print (nl +:+ "Processing table: " +:+ table)) t /\
         In (ShowFullColumns (mariadb_database args) table) (executed t) /\
         In (Print (nl +:+ "  Migrating existing data for table '" +:+ table +:+ "'...")) t /\
         In (SelectCount (mariadb_database args) table) (executed t)) /\
    (forall s, In s (failed t) -> aborts_run s = true ->
       exists msg done table rest,
         r = Raise (DbError msg) /\
         tables = done ++ table :: rest /\
         setups_started t = done ++ [table] /\
         copies_started t = [] /\
         (forall s', In s' (failed t) -> aborts_run s' = true -> s' = s) /\
         ((s = ShowFullColumns (mariadb_database args) table /\
           ends_with [Exec s (Some msg)] t) \/
          (s = SelectPrimaryKey (mariadb_database args) table /\
           ends_with [Exec s (Some msg)] t) \/
          (s = CreateKeyspace (scylla_ks args) /\
           ends_with [Exec s (Some msg);
                      Print ("    ✗ Error creating keyspace: " +:+ msg)] t) \/
          (exists col_defs pk_def,
             s = CreateScyllaTable (scylla_ks args) table col_defs pk_def /\
             ends_with [Exec s (Some msg);
                        Print ("    ✗ Error creating ScyllaDB table: " +:+ msg)] t))) /\
    (forall e, r = Raise e ->
       exists s msg, e = DbError msg /\ In s (failed t) /\ aborts_run s = true).
Proof.
  intros Hdb Htables Hne.
  split; [|split; [|split; [|split; [|split]]]].
  - intros. apply create_mariadb_scylla_table_returns.
  - intros. apply create_replication_triggers_returns.
  - intros source_database scylla_database table w0.
    destruct (migrate_table_data_contained execute source_database scylla_database table w0)
      as (w3 & t & H & _ & _ & Hf).
    exists w3, t. split; [exact H | exact Hf].
  - intros keyspace w0 msg w3 H. rewrite create_keyspace_run, H. reflexivity.
  - intros table columns pk_columns keyspace w0.
    destruct (create_scylla_table_run execute table columns pk_columns keyspace w0)
      as (defs & lines & Hrun).
    exists defs,
      (Print ("    Creating ScyllaDB table '" +:+ keyspace +:+ "." +:+ table +:+ "'...")
       :: map Print lines).
    cbn zeta in *. intros msg w3 H. rewrite Hrun, H. reflexivity.
  - destruct (main_cases execute args w w1 w2 tables Hdb Htables Hne)
      as (r & w3 & t & Hrun & Hr).
    exists r, w3, t. split; [exact Hrun|].
    destruct Hr as [(-> & A & S & C & Hall)
                   | (s0 & msg & done & table & rest & -> & A & Hsplit & S & C & Hend)].
    + split; [|split].
      * intros _. repeat (split; [assumption || reflexivity|]). exact Hall.
      * intros s Hs Ha.
        assert (Hin : In s (aborting_failures t)) by now apply aborting_failures_in.
        rewrite A in Hin. destruct Hin.
      * discriminate.
    + assert (Hs0 : In s0 (failed t) /\ aborts_run s0 = true).
      { apply aborting_failures_in. rewrite A. now left. }
      assert (Honly : forall s', In s' (failed t) -> aborts_run s' = true -> s' = s0).
      { intros s' Hs' Ha'.
        assert (Hin : In s' (aborting_failures t)) by now apply aborting_failures_in.
        rewrite A in Hin. destruct Hin as [<-|[]]. reflexivity. }
      split; [|split].
      * intros Hok. destruct Hs0 as [Hs0 Ha0]. rewrite (Hok s0 Hs0) in Ha0. discriminate.
      * intros s Hs Ha. rewrite (Honly s Hs Ha).
        exists msg, done, table, rest.
        do 4 (split; [assumption || reflexivity|]).
        split; [exact Honly | exact Hend].
      * intros e He. injection He as <-. exists s0, msg.
        split; [reflexivity | exact Hs0].
Qed.

Lemma C3_failures_are_contained_except_on_the_scylla_side_witness :
  let contained :=
    main (CatalogEngine.execute Sample.src
            (CatalogEngine.rejecting CatalogEngine.is_create_mirror_table "engine not installed"))
      Sample.args CatalogEngine.empty_catalog in
  let aborted :=
    main (CatalogEngine.execute Sample.src
            (CatalogEngine.rejecting CatalogEngine.is_create_scylla_table "unreachable"))
      Sample.args CatalogEngine.empty_catalog in
  (failed (snd contained) <> [] /\
   fst (fst contained) = Return tt /\
   setups_started (snd contained) = ["animals"; "notes"] /\
   copies_started (snd contained) = ["animals"; "notes"]) /\
  (exists msg done table rest,
     fst (fst aborted) = Raise (DbError msg) /\
     ["animals"; "notes"] = done ++ table :: rest /\
     setups_started (snd aborted) = done ++ [table] /\
     copies_started (snd aborted) = []).
Proof.
  intros contained aborted. split.
  - destruct (C3_failures_are_contained_except_on_the_scylla_side
                (CatalogEngine.execute Sample.src
                   (CatalogEngine.rejecting CatalogEngine.is_create_mirror_table
                      "engine not installed"))
                Sample.args CatalogEngine.empty_catalog
                (CatalogEngine.add_database "scylla_db" CatalogEngine.empty_catalog)
                (CatalogEngine.add_database "scylla_db" CatalogEngine.empty_catalog)
                ["animals"; "notes"] eq_refl eq_refl ltac:(discriminate))
      as (_ & _ & _ & _ & _ & r & w3 & t & Hrun & Hok & _).
    fold contained in Hrun.
    assert (Ht : t = snd contained) by now rewrite Hrun.
    assert (Hr : r = fst (fst contained)) by now rewrite Hrun.
    rewrite <- Ht, <- Hr.
    split; [rewrite Ht; vm_compute; discriminate|].
    destruct Hok as (H1 & H2 & H3 & _).
    + rewrite Ht. vm_compute. intros s [<-|[]]. reflexivity.
    + repeat split; assumption.
  - destruct (C3_failures_are_contained_except_on_the_scylla_side
                (CatalogEngine.execute Sample.src
                   (CatalogEngine.rejecting CatalogEngine.is_create_scylla_table "unreachable"))
                Sample.args CatalogEngine.empty_catalog
                (CatalogEngine.add_database "scylla_db" CatalogEngine.empty_catalog)
                (CatalogEngine.add_database "scylla_db" CatalogEngine.empty_catalog)
                ["animals"; "notes"] eq_refl eq_refl ltac:(discriminate))
      as (_ & _ & _ & _ & _ & r & w3 & t & Hrun & _ & Hbad & _).
    fold aborted in Hrun.
    assert (Ht : t = snd aborted) by now rewrite Hrun.
    assert (Hr : r = fst (fst aborted)) by now rewrite Hrun.
    rewrite <- Ht, <- Hr.
    destruct (Hbad (CreateScyllaTable "migration" "animals"
                      ["animal_id int"; "name text"; "weight_kg decimal"]
                      "PRIMARY KEY (animal_id)"))
      as (msg & done & table & rest & H1 & H2 & H3 & H4 & _).
    + rewrite Ht. vm_compute. now left.
    + reflexivity.
    + exists msg, done, table, rest. repeat split; assumption.
Defined.

(** ** Re-running the setup on the catalog model *)

Module CatalogRuns.
Import CatalogEngine.

#[local] Set Warnings "-clear-no-such-hyp".

Lemma trigger_names_differ (table a b : string) :
  a <> b -> table +:+ a <> table +:+ b.
Proof. intros H E. apply H. eapply String.app_inj. exact E. Qed.

Lemma create_trigger_fresh t c :
  t ∉ triggers c -> create_trigger t c = (inr tt, add_trigger t c).
Proof. intros H. unfold create_trigger. now rewrite decide_False. Qed.

Lemma create_insert_after_drop sd table c :
  create_trigger (sd, table +:+ "_insert_trigger") (drop_all sd table c) =
    (inr tt, add_trigger (sd, table +:+ "_insert_trigger") (drop_all sd table c)).
Proof. apply create_trigger_fresh. cbn. set_solver. Qed.

Lemma create_update_after_drop sd table c :
  create_trigger (sd, table +:+ "_update_trigger")
    (add_trigger (sd, table +:+ "_insert_trigger") (drop_all sd table c)) =
    (inr tt, add_trigger (sd, table +:+ "_update_trigger")
               (add_trigger (sd, table +:+ "_insert_trigger") (drop_all sd table c))).
Proof.
  apply create_trigger_fresh. cbn.
  assert (table +:+ "_update_trigger" <> table +:+ "_insert_trigger")
    by (apply trigger_names_differ; discriminate).
  set_solver.
Qed.

Lemma create_delete_after_drop sd table c :
  create_trigger (sd, table +:+ "_delete_trigger")
    (add_trigger (sd, table +:+ "_update_trigger")
       (add_trigger (sd, table +:+ "_insert_trigger") (drop_all sd table c))) =
    (inr tt, add_all sd table (drop_all sd table c)).
Proof.
  apply create_trigger_fresh. cbn.
  assert (table +:+ "_delete_trigger" <> table +:+ "_insert_trigger")
    by (apply trigger_names_differ; discriminate).
  assert (table +:+ "_delete_trigger" <> table +:+ "_update_trigger")
    by (apply trigger_names_differ; discriminate).
  set_solver.
Qed.

Lemma catalog_eq (c1 c2 : catalog) :
  databases c1 = databases c2 -> mirror_tables c1 = mirror_tables c2 ->
  triggers c1 = triggers c2 -> keyspaces c1 = keyspaces c2 ->
  scylla_tables c1 = scylla_tables c2 -> c1 = c2.
Proof. destruct c1, c2; cbn; intros; now subst. Qed.

(** Setting a table up again changes nothing in the catalog. *)
Lemma setup_effect_idempotent src delimiter_ok table args c :
  setup_effect src delimiter_ok table args (setup_effect src delimiter_ok table args c) =
  setup_effect src delimiter_ok table args c.
Proof.
  unfold setup_effect, install_effect, mirror_effect.
  destruct (primary_key_of src (mariadb_database args) table); [reflexivity|].
  destruct (columns_of src (mariadb_database args) table) as [|row rows];
    cbn [map]; [apply catalog_eq; cbn; set_solver|].
  destruct (primary_keys (column_of_row row :: map column_of_row rows));
    [apply catalog_eq; cbn; set_solver|].
  destruct delimiter_ok; apply catalog_eq; cbn; set_solver.
Qed.

Section Runs.

Variable src : source_db.
Variable delimiter_ok : bool.

Let engine := execute src (rejects_delimiter delimiter_ok).

#[local] Arguments primary_keys : simpl never.
#[local] Arguments create_trigger : simpl never.
#[local] Arguments drop_trigger : simpl never.
#[local] Arguments add_trigger : simpl never.
#[local] Arguments add_mirror_table : simpl never.
#[local] Arguments add_keyspace : simpl never.
#[local] Arguments add_scylla_table : simpl never.

Lemma mirror_run sd sc ks host port table args c :
  exists b t,
    create_mariadb_scylla_table engine sd sc ks host port table args c =
      (Return b, mirror_effect src sd sc table c, t) /\
    failed t = [].
Proof.
  unfold create_mariadb_scylla_table, get_table_schema, mirror_effect, engine.
  unfold_monad. cbn -[String.append mirror_create_stmt].
  destruct (columns_of src sd table) as [|row rows]; cbn -[String.append mirror_create_stmt];
    do 2 eexists; split; reflexivity.
Qed.

Lemma triggers_run sd sc table args c :
  exists b t,
    create_replication_triggers engine sd sc table args c =
      (Return b, install_effect src delimiter_ok sd table c, t) /\
    (forall s, In s (failed t) -> exists d, s = Delimiter d) /\
    (delimiter_ok = true -> failed t = []).
Proof.
  unfold create_replication_triggers, drop_existing_triggers, get_table_schema,
    install_effect, engine.
  cbn [for_each]. unfold_monad.
  cbn -[String.append primary_keys insert_trigger update_trigger delete_trigger].
  destruct (map column_of_row (columns_of src sd table)) as [|col cols];
    cbn -[String.append primary_keys insert_trigger update_trigger delete_trigger].
  { do 2 eexists. split; [reflexivity|]. split; [intros s [] | reflexivity]. }
  destruct (primary_keys (col :: cols)) as [|pk pks];
    cbn -[String.append primary_keys insert_trigger update_trigger delete_trigger].
  { do 2 eexists. split; [reflexivity|]. split; [intros s [] | reflexivity]. }
  change (trigger_name table "insert") with (table +:+ "_insert_trigger").
  change (trigger_name table "update") with (table +:+ "_update_trigger").
  change (trigger_name table "delete") with (table +:+ "_delete_trigger").
  fold (drop_all sd table c).
  destruct delimiter_ok; cbn -[String.append primary_keys].
  - rewrite create_insert_after_drop. cbn -[String.append primary_keys].
    rewrite create_update_after_drop. cbn -[String.append primary_keys].
    rewrite create_delete_after_drop. cbn -[String.append primary_keys].
    do 2 eexists. split; [reflexivity|]. split; [intros s [] | reflexivity].
  - do 2 eexists. split; [reflexivity|]. split; [|discriminate].
    intros s [<-|[]]. now eexists.
Qed.

Lemma engine_create_scylla_table k t defs pk c :
  engine (CreateScyllaTable k t defs pk) c = (inr tt, add_scylla_table (k, t) c).
Proof. reflexivity. Qed.

Lemma setup_run table args c :
  exists t,
    setup_table_migration engine table args c =
      (Return tt, setup_effect src delimiter_ok table args c, t) /\
    (forall s, In s (failed t) -> exists d, s = Delimiter d) /\
    (delimiter_ok = true -> failed t = []).
Proof.
  unfold setup_table_migration, setup_effect. unfold_monad.
  cbn -[String.append create_keyspace create_scylla_table create_mariadb_scylla_table
        create_replication_triggers].
  destruct (primary_key_of src (mariadb_database args) table) as [|pk pks];
    cbn -[String.append create_keyspace create_scylla_table create_mariadb_scylla_table
          create_replication_triggers].
  { eexists. split; [reflexivity|]. split; [intros s [] | reflexivity]. }
  rewrite create_keyspace_run.
  cbn -[String.append create_scylla_table create_mariadb_scylla_table
        create_replication_triggers].
  destruct (create_scylla_table_run engine table
              (full_columns_of src (mariadb_database args) table) (pk :: pks)
              (scylla_ks args) (add_keyspace (scylla_ks args) c))
    as (defs & lines & Hrun).
  cbn zeta in Hrun. rewrite Hrun, engine_create_scylla_table. clear Hrun.
  destruct (mirror_run (mariadb_database args) (mariadb_scylla_database args)
              (scylla_ks args) (scylla_fdw_host args) (scylla_port args) table args
              (add_scylla_table (scylla_ks args, table) (add_keyspace (scylla_ks args) c)))
    as (b1 & t1 & Hm & Hf1).
  rewrite Hm. clear Hm.
  destruct (triggers_run (mariadb_database args) (mariadb_scylla_database args) table args
              (mirror_effect src (mariadb_database args) (mariadb_scylla_database args)
                 table
                 (add_scylla_table (scylla_ks args, table)
                    (add_keyspace (scylla_ks args) c))))
    as (b2 & t2 & Ht & Hf2 & Hf3).
  rewrite Ht. clear Ht.
  eexists. split; [reflexivity|].
  assert (Hsub : forall s msg,
            In (Exec s (Some msg))
              ([Print ("  Getting table structure for '" +:+ table +:+ "'...");
                Exec (ShowFullColumns (mariadb_database args) table) None;
                Exec (SelectPrimaryKey (mariadb_database args) table) None;
                Exec (CreateKeyspace (scylla_ks args)) None;
                Print ("    ✓ Keyspace '" +:+ scylla_ks args +:+ "' ready")] ++
               ((Print ("    Creating ScyllaDB table '" +:+ scylla_ks args +:+ "." +:+
                        table +:+ "'...")
                 :: map Print lines ++
                    [Exec (CreateScyllaTable (scylla_ks args) table defs
                             ("PRIMARY KEY (" +:+ Py.join ", " (pk :: pks) +:+ ")")) None;
                     Print "    ✓ ScyllaDB table created"]) ++
                t1 ++ t2 ++ []) ++ []) ->
            In s (failed t2)).
  { intros s msg H.
    repeat match goal with
           | H : In _ (_ :: _) |- _ => destruct H as [H|H]; [discriminate H|]
           | H : In _ (_ ++ _) |- _ => apply in_app_or in H as [H|H]
           | H : In _ [] |- _ => destruct H
           | H : In _ (map Print _) |- _ =>
               apply in_map_iff in H as (? & ? & _); discriminate
           end.
    - apply failed_in in H. rewrite Hf1 in H. destruct H.
    - now apply failed_in in H. }
  split.
  - intros s Hs. apply failed_inv in Hs as [msg Hs]. apply Hf2. exact (Hsub s msg Hs).
  - intros Hd. match goal with |- ?l = [] => destruct l as [|s l'] eqn:El end;
      [reflexivity|].
    assert (Hs : In s (s :: l')) by now left. rewrite <- El in Hs.
    apply failed_inv in Hs as [msg Hs]. apply Hsub in Hs.
    rewrite (Hf3 Hd) in Hs. destruct Hs.
Qed.

End Runs.

End CatalogRuns.

Section DropThenCreate.

Context {world : Type}.
Variable execute : forall s : stmt, world -> (string + reply s) * world.

#[local] Arguments primary_keys : simpl never.

(** Whatever the engine answers, trigger installation executes no
    [CREATE TRIGGER] before the [DROP TRIGGER IF EXISTS] of that trigger. *)
Lemma triggers_dropped_before source_database scylla_database table args w :
  dropped_before []
    (executed (snd (create_replication_triggers execute source_database scylla_database
                      table args w))).
Proof.
  unfold create_replication_triggers, drop_existing_triggers, get_table_schema.
  cbn [for_each]. unfold_monad. cbn -[String.append primary_keys]. split_execute.
  - repeat split.
  - destruct (map column_of_row r) as [|col cols]; cbn -[String.append primary_keys].
    { repeat split. }
    destruct (primary_keys (col :: cols)) as [|pk pks]; cbn -[String.append primary_keys].
    { repeat split. }
    repeat split_execute; cbn -[String.append In]; repeat split; find_event.
Qed.

End DropThenCreate.

(** C5.  On the catalog model (objects are created by
    [CREATE ... IF NOT EXISTS], triggers by a [CREATE TRIGGER] that raises
    when the trigger exists), whether or not the server accepts the client
    command [DELIMITER]: the setup of a table from any catalog returns, and
    a second setup of the same, unchanged table returns as well, leaves the
    catalog exactly as the first left it, and no statement of it fails
    except possibly [DELIMITER]; with [DELIMITER] accepted nothing fails.
    This rests on the statements themselves: database, keyspace and both
    tables are created with [IF NOT EXISTS]; every [CREATE TRIGGER] is
    executed after the [DROP TRIGGER IF EXISTS] of the same trigger, on
    every engine; and in the model a [CREATE TRIGGER] alone is not
    repeatable. *)
Theorem C5_setup_twice_changes_nothing
    (src : CatalogEngine.source_db) (delimiter_ok : bool)
    (table : string) (args : arguments) (c0 : CatalogEngine.catalog) :
  let engine := CatalogEngine.execute src (CatalogEngine.rejects_delimiter delimiter_ok) in
  (exists c1 t1 t2,
     setup_table_migration engine table args c0 = (Return tt, c1, t1) /\
     setup_table_migration engine table args c1 = (Return tt, c1, t2) /\
     (forall s, In s (failed t2) -> exists d, s = Delimiter d) /\
     (delimiter_ok = true -> failed t2 = [])) /\
  (forall (world : Type) (execute : forall s : stmt, world -> (string + reply s) * world)
          source_database scylla_database w,
     dropped_before []
       (executed (snd (create_replication_triggers execute source_database scylla_database
                         table args w)))) /\
  (forall d n, stmt_text (DropTrigger d n) = "DROP TRIGGER IF EXISTS `" +:+ d +:+ "`.`" +:+ n +:+ "`") /\
  (forall d, stmt_text (CreateDatabase d) = "CREATE DATABASE IF NOT EXISTS " +:+ d) /\
  (forall k, exists rest,
     stmt_text (CreateKeyspace k) =
       nl +:+ "            CREATE KEYSPACE IF NOT EXISTS " +:+ k +:+ rest) /\
  (forall k t defs pk, exists rest,
     stmt_text (CreateScyllaTable k t defs pk) =
       nl +:+ "            CREATE TABLE IF NOT EXISTS " +:+ k +:+ "." +:+ t +:+ rest) /\
  (forall d t defs comment, exists rest,
     stmt_text (CreateMirrorTable d t defs comment) =
       nl +:+ "            CREATE TABLE IF NOT EXISTS `" +:+ d +:+ "`.`" +:+ t +:+ "`" +:+ rest) /\
  (forall t c, t ∈ CatalogEngine.triggers c ->
     CatalogEngine.create_trigger t c = (inl "Trigger already exists", c)).
Proof.
  intros engine. split; [|split; [|split; [|split; [|split; [|split; [|split]]]]]].
  - destruct (CatalogRuns.setup_run src delimiter_ok table args c0) as (t1 & H1 & _).
    destruct (CatalogRuns.setup_run src delimiter_ok table args
                (CatalogEngine.setup_effect src delimiter_ok table args c0))
      as (t2 & H2 & Hf & Hd).
    rewrite CatalogRuns.setup_effect_idempotent in H2.
    exists (CatalogEngine.setup_effect src delimiter_ok table args c0), t1, t2.
    repeat split; assumption.
  - intros. apply triggers_dropped_before.
  - reflexivity.
  - reflexivity.
  - intros k. eexists. reflexivity.
  - intros k t defs pk. eexists. reflexivity.
  - intros d t defs comment. eexists. cbn [stmt_text]. reflexivity.
  - intros t c H. unfold CatalogEngine.create_trigger. now rewrite decide_True.
Qed.

Lemma C5_setup_twice_changes_nothing_witness :
  let engine := CatalogEngine.execute Sample.src (CatalogEngine.rejects_delimiter true) in
  exists c1 t1 t2,
    setup_table_migration engine "animals" Sample.args CatalogEngine.empty_catalog =
      (Return tt, c1, t1) /\
    setup_table_migration engine "animals" Sample.args c1 = (Return tt, c1, t2) /\
    failed t2 = [].
Proof.
  intros engine.
  destruct (proj1 (C5_setup_twice_changes_nothing Sample.src true "animals" Sample.args
                     CatalogEngine.empty_catalog))
    as (c1 & t1 & t2 & H1 & H2 & _ & H4).
  exists c1, t1, t2. split; [exact H1|]. split; [exact H2 | exact (H4 eq_refl)].
Defined.

(** * Further properties of the code *)

(** ** The type mapper *)

Section TypeMapperMore.

#[local] Arguments String.append !s1 s2.

Lemma lower_ascii_idempotent (c : ascii) : Py.lower_ascii (Py.lower_ascii c) = Py.lower_ascii c.
Proof. destruct c as [[] [] [] [] [] [] [] []]; reflexivity. Qed.

Lemma lower_idempotent (s : string) : Py.lower (Py.lower s) = Py.lower s.
Proof.
  induction s as [|c s IH]; [reflexivity|].
  cbn [Py.lower]. now rewrite lower_ascii_idempotent, IH.
Qed.

Lemma lower_app (a b : string) : Py.lower (a +:+ b) = Py.lower a +:+ Py.lower b.
Proof. induction a as [|c a IH]; [reflexivity|]. cbn. now rewrite IH. Qed.

Lemma lower_ascii_paren (c : ascii) : Ascii.eqb (Py.lower_ascii c) "(" = Ascii.eqb c "(".
Proof. destruct c as [[] [] [] [] [] [] [] []]; reflexivity. Qed.

Lemma lower_keeps_paren_free (s : string) : occurs "(" (Py.lower s) = occurs "(" s.
Proof.
  induction s as [|c s IH]; [reflexivity|].
  cbn [Py.lower occurs]. now rewrite lower_ascii_paren, IH.
Qed.

Lemma split_head_app (sep : ascii) (a b : string) :
  occurs sep a = false -> Py.split_head sep (a +:+ String sep b) = a.
Proof.
  induction a as [|c a IH]; intros H.
  - cbn. now rewrite Ascii.eqb_refl.
  - cbn in H. apply orb_false_iff in H as [Hc Ha].
    cbn. rewrite Hc. now rewrite IH.
Qed.

Lemma split_head_id (sep : ascii) (a : string) :
  occurs sep a = false -> Py.split_head sep a = a.
Proof.
  induction a as [|c a IH]; intros H; [reflexivity|].
  cbn in H. apply orb_false_iff in H as [Hc Ha].
  cbn. rewrite Hc. now rewrite IH.
Qed.

(** Where the loop stops: at the first key of the test order that is a
    prefix of the base keyword. *)
Lemma match_loop_first base ks v :
  match_loop base ks = Some (Return v) ->
  exists pre k post,
    ks = pre ++ k :: post /\
    (forall k', In k' pre -> Py.startswith base k' = false) /\
    Py.startswith base k = true /\
    Py.getitem type_mapping k = Some v.
Proof.
  induction ks as [|k r IH]; cbn [match_loop]; [discriminate|].
  destruct (Py.startswith base k) eqn:Hk.
  - destruct (Py.getitem type_mapping k) as [v'|] eqn:Hg; intros H; [|discriminate].
    injection H as <-. exists [], k, r.
    split; [reflexivity|]. split; [intros ? []|]. split; assumption.
  - intros H. destruct (IH H) as (pre & k0 & post & -> & Hpre & Hk0 & Hg).
    exists (k :: pre), k0, post.
    split; [reflexivity|]. split; [|split; assumption].
    intros k' [<-|Hin]; [exact Hk | now apply Hpre].
Qed.

Lemma match_loop_some base ks k :
  In k ks -> Py.startswith base k = true -> match_loop base ks <> None.
Proof.
  induction ks as [|k0 r IH]; [intros []|]. intros Hin Hk. cbn [match_loop].
  destruct (Py.startswith base k0) eqn:Hk0.
  - now destruct (Py.getitem type_mapping k0).
  - destruct Hin as [->|Hin]; [congruence | now apply IH].
Qed.

Lemma sorted_split_longer pre k post :
  StronglySorted longer_first (pre ++ k :: post) ->
  forall k', In k' post -> (String.length k' <= String.length k)%nat.
Proof.
  induction pre as [|x pre IH]; cbn; intros H k' Hin.
  - apply StronglySorted_inv in H as [_ H].
    change (longer_first k k'). revert k' Hin. apply List.Forall_forall. exact H.
  - apply StronglySorted_inv in H as [H _]. now apply IH.
Qed.

Lemma mapping_values_are_cql_types k v :
  Py.getitem type_mapping k = Some v -> In v cql_types /\ v <> "uuid".
Proof.
  unfold type_mapping. cbn [Py.getitem].
  repeat (match goal with
          | |- context [String.eqb ?a k] => destruct (String.eqb a k)
          end;
          [intros H; injection H as <-; split; [cbn; tauto | discriminate]|]).
  discriminate.
Qed.

End TypeMapperMore.

(** X1.  Longest key wins: when some key of the mapping is a prefix of the
    base keyword, the mapper answers, without a warning, with the value of a
    key that is a prefix of the base keyword and at least as long as every
    other key that is one. *)
Theorem X1_mapper_longest_prefix_key_wins (mariadb_type key : string) :
  In key (Py.keys type_mapping) ->
  Py.startswith (Py.split_head "(" (Py.lower mariadb_type)) key = true ->
  exists k v,
    In k (Py.keys type_mapping) /\
    Py.startswith (Py.split_head "(" (Py.lower mariadb_type)) k = true /\
    Py.getitem type_mapping k = Some v /\
    (forall k', In k' (Py.keys type_mapping) ->
       Py.startswith (Py.split_head "(" (Py.lower mariadb_type)) k' = true ->
       (String.length k' <= String.length k)%nat) /\
    mariadb_type_to_cql_type mariadb_type = (Return v, []).
Proof.
  intros Hin Hkey.
  set (base := Py.split_head "(" (Py.lower mariadb_type)) in *.
  assert (Hin' : In key mapping_keys_in_test_order).
  { eapply Permutation_in; [symmetry; apply sorted_by_len_desc_perm | exact Hin]. }
  destruct (match_loop_returns base mapping_keys_in_test_order test_order_keys_present)
    as [Hnone | [v Hv]].
  { now destruct (match_loop_some base _ key Hin' Hkey). }
  destruct (match_loop_first _ _ _ Hv) as (pre & k & post & Hks & Hpre & Hk & Hg).
  exists k, v. split; [|split; [exact Hk|split; [exact Hg|split]]].
  - eapply Permutation_in; [apply sorted_by_len_desc_perm|].
    fold mapping_keys_in_test_order. rewrite Hks. apply in_or_app. right. now left.
  - intros k' Hk'in Hk'.
    assert (Hk'' : In k' (pre ++ k :: post)).
    { rewrite <- Hks. eapply Permutation_in;
        [symmetry; apply sorted_by_len_desc_perm | exact Hk'in]. }
    apply in_app_or in Hk'' as [Hp | [<- | Hp]].
    + rewrite (Hpre k' Hp) in Hk'. discriminate.
    + lia.
    + eapply sorted_split_longer; [|exact Hp]. rewrite <- Hks.
      apply sorted_by_len_desc_sorted.
  - unfold mariadb_type_to_cql_type. fold base. now rewrite Hv.
Qed.

Lemma X1_mapper_longest_prefix_key_wins_witness :
  exists k v,
    In k (Py.keys type_mapping) /\
    Py.getitem type_mapping k = Some v /\
    (String.length "date" <= String.length k)%nat /\
    mariadb_type_to_cql_type "DateTime(6)" = (Return v, []).
Proof.
  destruct (X1_mapper_longest_prefix_key_wins "DateTime(6)" "date")
    as (k & v & H1 & H2 & H3 & H4 & H5).
  - cbn. tauto.
  - reflexivity.
  - exists k, v. split; [exact H1|]. split; [exact H3|]. split; [|exact H5].
    apply H4; [cbn; tauto | reflexivity].
Defined.

(** X2.  The mapper answers ["uuid"] exactly when no key of the mapping is
    a prefix of the base keyword and the lower-cased text contains
    ["binary(16)"] or ["char(36)"]. *)
Theorem X2_mapper_answers_uuid_iff (mariadb_type : string) :
  fst (mariadb_type_to_cql_type mariadb_type) = Return "uuid" <->
  (forall key, In key (Py.keys type_mapping) ->
     Py.startswith (Py.split_head "(" (Py.lower mariadb_type)) key = false) /\
  Py.contains "binary(16)" (Py.lower mariadb_type) ||
  Py.contains "char(36)" (Py.lower mariadb_type) = true.
Proof.
  unfold mariadb_type_to_cql_type.
  set (base := Py.split_head "(" (Py.lower mariadb_type)).
  split.
  - destruct (match_loop_returns base mapping_keys_in_test_order test_order_keys_present)
      as [Hnone | [v Hv]].
    + rewrite Hnone. intros H. split.
      * intros key Hin. destruct (Py.startswith base key) eqn:Hk; [|reflexivity].
        exfalso. apply (match_loop_some base mapping_keys_in_test_order key); auto.
        eapply Permutation_in; [symmetry; apply sorted_by_len_desc_perm | exact Hin].
      * destruct (_ || _); [reflexivity | discriminate].
    + rewrite Hv. cbn. intros H. injection H as ->.
      destruct (match_loop_first _ _ _ Hv) as (_ & k & _ & _ & _ & _ & Hg).
      now destruct (mapping_values_are_cql_types _ _ Hg).
  - intros [Hkeys Hshape]. rewrite match_loop_none, Hshape; [reflexivity|].
    intros key Hk. apply Hkeys.
    eapply Permutation_in; [apply sorted_by_len_desc_perm | exact Hk].
Qed.

(** X3.  Whatever the type string, the mapper's answer is one of the
    thirteen CQL type names it knows. *)
Theorem X3_mapper_answers_a_cql_type (mariadb_type : string) :
  exists v, fst (mariadb_type_to_cql_type mariadb_type) = Return v /\ In v cql_types.
Proof.
  unfold mariadb_type_to_cql_type.
  destruct (match_loop_returns (Py.split_head "(" (Py.lower mariadb_type))
              mapping_keys_in_test_order test_order_keys_present) as [-> | [v Hv]].
  - destruct (_ || _); eexists; (split; [reflexivity|]); cbn; tauto.
  - rewrite Hv. exists v. split; [reflexivity|].
    destruct (match_loop_first _ _ _ Hv) as (_ & k & _ & _ & _ & _ & Hg).
    now destruct (mapping_values_are_cql_types _ _ Hg).
Qed.

(** X4.  The mapper prints its warning exactly for the unclassified type
    strings: a type string that matches a key or has a UUID shape is mapped
    in silence. *)
Theorem X4_mapper_warns_iff_unclassified (mariadb_type : string) :
  snd (mariadb_type_to_cql_type mariadb_type) <> [] <-> unclassified mariadb_type.
Proof.
  unfold mariadb_type_to_cql_type, unclassified.
  set (base := Py.split_head "(" (Py.lower mariadb_type)).
  split.
  - destruct (match_loop_returns base mapping_keys_in_test_order test_order_keys_present)
      as [Hnone | [v Hv]].
    + rewrite Hnone. intros H. split.
      * intros key Hin. destruct (Py.startswith base key) eqn:Hk; [|reflexivity].
        exfalso. apply (match_loop_some base mapping_keys_in_test_order key); auto.
        eapply Permutation_in; [symmetry; apply sorted_by_len_desc_perm | exact Hin].
      * destruct (Py.contains "binary(16)" _); [now cbn in H|].
        destruct (Py.contains "char(36)" _); [now cbn in H | now split].
    + rewrite Hv. cbn. congruence.
  - intros (Hkeys & Hbin & Hchar). rewrite match_loop_none, Hbin, Hchar; [discriminate|].
    intros key Hk. apply Hkeys.
    eapply Permutation_in; [apply sorted_by_len_desc_perm | exact Hk].
Qed.

(** X5.  Parameters are ignored for classified types: when a key of the
    mapping is a prefix of a (parenthesis-free) type name, the name followed
    by any parameter list is mapped exactly as the bare name is. *)
Theorem X5_mapper_ignores_parameters (type_name params key : string) :
  occurs "(" type_name = false ->
  In key (Py.keys type_mapping) ->
  Py.startswith (Py.lower type_name) key = true ->
  mariadb_type_to_cql_type (type_name +:+ "(" +:+ params) =
  mariadb_type_to_cql_type type_name.
Proof.
  intros Hfree Hin Hkey. unfold mariadb_type_to_cql_type.
  assert (Hbase1 : Py.split_head "(" (Py.lower (type_name +:+ "(" +:+ params)) =
                   Py.lower type_name).
  { rewrite lower_app. change (Py.lower ("(" +:+ params)) with (String "(" (Py.lower params)).
    apply split_head_app. now rewrite lower_keeps_paren_free. }
  assert (Hbase2 : Py.split_head "(" (Py.lower type_name) = Py.lower type_name).
  { apply split_head_id. now rewrite lower_keeps_paren_free. }
  rewrite Hbase1, Hbase2.
  destruct (match_loop_returns (Py.lower type_name) mapping_keys_in_test_order
              test_order_keys_present) as [Hnone | [v ->]]; [|reflexivity].
  exfalso. apply (match_loop_some (Py.lower type_name) mapping_keys_in_test_order key); auto.
  eapply Permutation_in; [symmetry; apply sorted_by_len_desc_perm | exact Hin].
Qed.

Lemma X5_mapper_ignores_parameters_witness :
  mariadb_type_to_cql_type ("VarChar" +:+ "(" +:+ "255") = mariadb_type_to_cql_type "VarChar".
Proof.
  apply (X5_mapper_ignores_parameters "VarChar" "255" "varchar").
  - reflexivity.
  - cbn. tauto.
  - reflexivity.
Defined.

(** X6.  Letter case does not matter to the answer: two type strings that
    agree once lower-cased are mapped to the same type, and a type string
    and its lower-cased form are.  (The warning quotes the string as
    given, so the printed line may differ.) *)
Theorem X6_mapper_answer_is_case_insensitive (t1 t2 : string) :
  Py.lower t1 = Py.lower t2 ->
  fst (mariadb_type_to_cql_type t1) = fst (mariadb_type_to_cql_type t2) /\
  fst (mariadb_type_to_cql_type (Py.lower t1)) = fst (mariadb_type_to_cql_type t2).
Proof.
  intros H. unfold mariadb_type_to_cql_type. rewrite lower_idempotent, H.
  split; destruct (match_loop _ _); try reflexivity; now destruct (_ || _).
Qed.

Lemma X6_mapper_answer_is_case_insensitive_witness :
  fst (mariadb_type_to_cql_type "Decimal(10,2)") = fst (mariadb_type_to_cql_type "DECIMAL(10,2)").
Proof.
  exact (proj1 (X6_mapper_answer_is_case_insensitive "Decimal(10,2)" "DECIMAL(10,2)" eq_refl)).
Defined.

(** ** The generated statements *)

Lemma append_inj_suffix (a b x y : string) :
  String.length x = String.length y -> a +:+ x = b +:+ y -> a = b /\ x = y.
Proof.
  intros Hl H. apply append_inj_length; [|exact H].
  apply (f_equal String.length) in H. rewrite !append_length in H. lia.
Qed.

(** X7.  Trigger names never clash: the names built for the three
    operations of one table are pairwise different, and the triggers of two
    different tables have different names whatever the operations, so the
    [DROP TRIGGER IF EXISTS] of one table's setup cannot remove another
    table's trigger. *)
Theorem X7_trigger_names_do_not_clash (table1 table2 type1 type2 : string) :
  In type1 ["insert"; "update"; "delete"] ->
  In type2 ["insert"; "update"; "delete"] ->
  trigger_name table1 type1 = trigger_name table2 type2 ->
  table1 = table2 /\ type1 = type2.
Proof.
  intros H1 H2 H. unfold trigger_name in H.
  cbn in H1, H2.
  destruct H1 as [<-|[<-|[<-|[]]]]; destruct H2 as [<-|[<-|[<-|[]]]];
    apply append_inj_suffix in H; try reflexivity;
    destruct H as [-> H]; first [ now split | discriminate H ].
Qed.

Lemma X7_trigger_names_do_not_clash_witness :
  trigger_name "orders" "insert" = trigger_name "orders" "insert" /\
  "orders" = "orders".
Proof.
  split; [reflexivity|].
  exact (proj1 (X7_trigger_names_do_not_clash "orders" "orders" "insert" "insert"
                  ltac:(cbn; tauto) ltac:(cbn; tauto) eq_refl)).
Defined.

Section TargetTable.

Context {world : Type}.
Variable execute : forall s : stmt, world -> (string + reply s) * world.

Lemma scylla_col_def_of (col : full_column) v lines :
  mariadb_type_to_cql_type (Type_ col) = (Return v, lines) ->
  scylla_col_def col = Field col +:+ " " +:+ v.
Proof. intros H. unfold scylla_col_def, cql_type. now rewrite H. Qed.

(** The column loop of [create_scylla_table] is a map over the columns. *)
Lemma scylla_col_defs_loop_spec columns col_defs w :
  scylla_col_defs_loop (world := world) columns col_defs w =
    (Return (col_defs ++ map scylla_col_def columns), w,
     map Print (flat_map (fun col => snd (mariadb_type_to_cql_type (Type_ col))) columns)).
Proof.
  revert col_defs; induction columns as [|col rest IH]; intros col_defs.
  - cbn. now rewrite app_nil_r.
  - cbn [scylla_col_defs_loop map flat_map]. rewrite bind_run.
    unfold call_mariadb_type_to_cql_type at 1.
    destruct (mapper_cases (Type_ col)) as [[v Hv] | Hv]; rewrite Hv.
    + rewrite IH, <- app_assoc, (scylla_col_def_of col v [] Hv). reflexivity.
    + rewrite IH, <- app_assoc, (scylla_col_def_of col "text" _ Hv). reflexivity.
Qed.

Lemma create_scylla_table_spec table_name columns pk_columns keyspace w :
  let s := CreateScyllaTable keyspace table_name (map scylla_col_def columns)
             ("PRIMARY KEY (" +:+ Py.join ", " pk_columns +:+ ")") in
  let warnings := flat_map (fun col => snd (mariadb_type_to_cql_type (Type_ col))) columns in
  create_scylla_table execute table_name columns pk_columns keyspace w =
    match execute s w with
    | (inr _, w1) =>
        (Return tt, w1,
         Print ("    Creating ScyllaDB table '" +:+ keyspace +:+ "." +:+ table_name +:+ "'...")
         :: map Print warnings ++ [Exec s None; Print "    ✓ ScyllaDB table created"])
    | (inl msg, w1) =>
        (Raise (DbError msg), w1,
         Print ("    Creating ScyllaDB table '" +:+ keyspace +:+ "." +:+ table_name +:+ "'...")
         :: map Print warnings ++
         [Exec s (Some msg); Print ("    ✗ Error creating ScyllaDB table: " +:+ msg)])
    end.
Proof.
  cbn zeta. unfold create_scylla_table, try_except.
  rewrite bind_run. unfold print at 1. rewrite bind_run, scylla_col_defs_loop_spec.
  unfold exec_, exec, bind, ret, raise, print. cbn -[String.append].
  destruct (execute _ w) as [[msg|[]] w1]; cbn -[String.append];
    now rewrite <- ?app_assoc.
Qed.

End TargetTable.

(** X8.  Target-table creation executes exactly one statement: the
    [CREATE TABLE IF NOT EXISTS] with one [name type] entry per source
    column, in column order, the type being the mapper's answer for the
    column's type, and with the primary key listing [pk_columns] in the
    order they were given.  It prints the mapper's warnings in column order
    between its first and its last line, returns when the engine accepts the
    statement and raises the engine's error otherwise. *)
Theorem X8_target_table_statement
    {world : Type} (execute : forall s : stmt, world -> (string + reply s) * world)
    (table_name : string) (columns : list full_column) (pk_columns : list string)
    (keyspace : string) (w : world) :
  let s := CreateScyllaTable keyspace table_name
             (map (fun col => Field col +:+ " " +:+ cql_type (Type_ col)) columns)
             ("PRIMARY KEY (" +:+ Py.join ", " pk_columns +:+ ")") in
  let run := create_scylla_table execute table_name columns pk_columns keyspace w in
  executed (snd run) = [s] /\
  (exists last,
     printed (snd run) =
       ("    Creating ScyllaDB table '" +:+ keyspace +:+ "." +:+ table_name +:+ "'...")
       :: flat_map (fun col => snd (mariadb_type_to_cql_type (Type_ col))) columns ++ [last]) /\
  (forall v, fst (fst run) = Return v <-> exists w1, execute s w = (inr tt, w1)) /\
  (forall e, fst (fst run) = Raise e <-> exists msg w1, e = DbError msg /\ execute s w = (inl msg, w1)).
Proof.
  cbn zeta. change (fun col => Field col +:+ " " +:+ cql_type (Type_ col)) with scylla_col_def.
  pose proof (create_scylla_table_spec execute table_name columns pk_columns keyspace w) as H.
  cbn zeta in H. rewrite H. clear H.
  assert (Hp : forall lines, printed (map Print lines) = lines).
  { induction lines as [|l ls IH]; [reflexivity|]. cbn. now f_equal. }
  destruct (execute _ w) as [[msg|[]] w1]; cbn [fst snd].
  - split; [|split; [|split]].
    + change (Print ?x :: ?l) with ([Print x] ++ l).
      cbn. rewrite executed_app, executed_prints. reflexivity.
    + eexists. cbn. rewrite printed_app, Hp. reflexivity.
    + intros v. split; [discriminate | intros [w2 Hw]; discriminate].
    + intros e. split.
      * intros He. injection He as <-. now exists msg, w1.
      * intros (m & w2 & -> & Hw). now injection Hw as ->.
  - split; [|split; [|split]].
    + cbn. rewrite executed_app, executed_prints. reflexivity.
    + eexists. cbn. rewrite printed_app, Hp. reflexivity.
    + intros []. split; [now exists w1 | reflexivity].
    + intros e. split; [discriminate | intros (m & w2 & _ & Hw); discriminate].
Qed.

(** ** One table's setup *)

Ltac split_in H :=
  repeat match type of H with
         | In _ (_ :: _) => destruct H as [H|H]
         | In _ (_ ++ _) => apply in_app_or in H as [H|H]
         | In _ [] => destruct H
         end.

Section TableSetup.

Context {world : Type}.
Variable execute : forall s : stmt, world -> (string + reply s) * world.

Lemma setup_table_migration_composes table_name args w columns w1 pk_columns w2 w3 w4 :
  execute (ShowFullColumns (mariadb_database args) table_name) w = (inr columns, w1) ->
  execute (SelectPrimaryKey (mariadb_database args) table_name) w1 = (inr pk_columns, w2) ->
  pk_columns <> [] ->
  execute (CreateKeyspace (scylla_ks args)) w2 = (inr tt, w3) ->
  execute (CreateScyllaTable (scylla_ks args) table_name (map scylla_col_def columns)
             ("PRIMARY KEY (" +:+ Py.join ", " pk_columns +:+ ")")) w3 = (inr tt, w4) ->
  let mirror :=
    create_mariadb_scylla_table execute (mariadb_database args) (mariadb_scylla_database args)
      (scylla_ks args) (scylla_fdw_host args) (scylla_port args) table_name args w4 in
  let triggers :=
    create_replication_triggers execute (mariadb_database args) (mariadb_scylla_database args)
      table_name args (snd (fst mirror)) in
  setup_table_migration execute table_name args w =
    (Return tt, snd (fst triggers),
     scylla_side_events table_name args columns pk_columns ++ snd mirror ++ snd triggers).
Proof.
  intros H1 H2 Hne H3 H4 mirror triggers. subst mirror triggers.
  unfold setup_table_migration, scylla_side_events. unfold_monad.
  cbn -[String.append create_keyspace create_scylla_table create_mariadb_scylla_table
        create_replication_triggers].
  rewrite H1.
  cbn -[String.append create_keyspace create_scylla_table create_mariadb_scylla_table
        create_replication_triggers].
  rewrite H2. destruct pk_columns as [|pk pks]; [congruence|].
  cbn -[String.append create_keyspace create_scylla_table create_mariadb_scylla_table
        create_replication_triggers Py.join].
  rewrite create_keyspace_run, H3.
  cbn -[String.append create_scylla_table create_mariadb_scylla_table
        create_replication_triggers Py.join].
  pose proof (create_scylla_table_spec execute table_name columns (pk :: pks)
                (scylla_ks args) w3) as Hrun.
  cbn zeta in Hrun. rewrite Hrun, H4. clear Hrun.
  destruct (create_mariadb_scylla_table_returns execute (mariadb_database args)
              (mariadb_scylla_database args) (scylla_ks args) (scylla_fdw_host args)
              (scylla_port args) table_name args w4) as (b1 & w5 & t5 & -> & _).
  cbn [fst snd].
  destruct (create_replication_triggers_returns execute (mariadb_database args)
              (mariadb_scylla_database args) table_name args w5) as (b2 & w6 & t6 & -> & _).
  cbn [fst snd]. rewrite !app_nil_r. cbn [app]. now rewrite <- !app_assoc.
Qed.

(** Failures of the orchestrator's own two queries. *)
Lemma setup_table_migration_show_fails table_name args w msg w1 :
  execute (ShowFullColumns (mariadb_database args) table_name) w = (inl msg, w1) ->
  setup_table_migration execute table_name args w =
    (Raise (DbError msg), w1,
     [Print ("  Getting table structure for '" +:+ table_name +:+ "'...");
      Exec (ShowFullColumns (mariadb_database args) table_name) (Some msg)]).
Proof.
  intros H. unfold setup_table_migration. unfold_monad.
  cbn -[String.append]. rewrite H. reflexivity.
Qed.

Lemma setup_table_migration_key_query_fails table_name args w columns w1 msg w2 :
  execute (ShowFullColumns (mariadb_database args) table_name) w = (inr columns, w1) ->
  execute (SelectPrimaryKey (mariadb_database args) table_name) w1 = (inl msg, w2) ->
  setup_table_migration execute table_name args w =
    (Raise (DbError msg), w2,
     [Print ("  Getting table structure for '" +:+ table_name +:+ "'...");
      Exec (ShowFullColumns (mariadb_database args) table_name) None;
      Exec (SelectPrimaryKey (mariadb_database args) table_name) (Some msg)]).
Proof.
  intros H1 H2. unfold setup_table_migration. unfold_monad.
  cbn -[String.append]. rewrite H1. cbn -[String.append]. rewrite H2. reflexivity.
Qed.

(** No MariaDB-side statement before both ScyllaDB-side creations
    succeeded. *)
Lemma mariadb_side_comes_last table_name args w s :
  In s (executed (snd (setup_table_migration execute table_name args w))) ->
  on_mariadb_side s = true ->
  In (Exec (CreateKeyspace (scylla_ks args)) None)
     (snd (setup_table_migration execute table_name args w)) /\
  exists col_defs pk_def,
    In (Exec (CreateScyllaTable (scylla_ks args) table_name col_defs pk_def) None)
       (snd (setup_table_migration execute table_name args w)).
Proof.
  destruct (execute (ShowFullColumns (mariadb_database args) table_name) w)
    as [[msg|columns] w1] eqn:E1.
  { rewrite (setup_table_migration_show_fails _ _ _ _ _ E1). cbn.
    intros [<-|[]]. discriminate. }
  destruct (execute (SelectPrimaryKey (mariadb_database args) table_name) w1)
    as [[msg|pk_columns] w2] eqn:E2.
  { rewrite (setup_table_migration_key_query_fails _ _ _ _ _ _ _ E1 E2). cbn.
    intros [<-|[<-|[]]]; discriminate. }
  destruct pk_columns as [|pk pks].
  { rewrite (setup_table_migration_skip execute _ _ _ _ _ _ E1 E2). cbn.
    intros [<-|[<-|[]]]; discriminate. }
  destruct (execute (CreateKeyspace (scylla_ks args)) w2) as [[msg|[]] w3] eqn:E3.
  { unfold setup_table_migration. unfold_monad.
    cbn -[String.append create_keyspace create_scylla_table create_mariadb_scylla_table
          create_replication_triggers].
    rewrite E1.
    cbn -[String.append create_keyspace create_scylla_table create_mariadb_scylla_table
          create_replication_triggers].
    rewrite E2.
    cbn -[String.append create_keyspace create_scylla_table create_mariadb_scylla_table
          create_replication_triggers].
    rewrite create_keyspace_run, E3. cbn.
    intros [<-|[<-|[<-|[]]]]; discriminate. }
  destruct (execute (CreateScyllaTable (scylla_ks args) table_name (map scylla_col_def columns)
                       ("PRIMARY KEY (" +:+ Py.join ", " (pk :: pks) +:+ ")")) w3)
    as [[msg|[]] w4] eqn:E4.
  { unfold setup_table_migration. unfold_monad.
    cbn -[String.append create_keyspace create_scylla_table create_mariadb_scylla_table
          create_replication_triggers Py.join].
    rewrite E1.
    cbn -[String.append create_keyspace create_scylla_table create_mariadb_scylla_table
          create_replication_triggers Py.join].
    rewrite E2.
    cbn -[String.append create_keyspace create_scylla_table create_mariadb_scylla_table
          create_replication_triggers Py.join].
    rewrite create_keyspace_run, E3.
    cbn -[String.append create_scylla_table create_mariadb_scylla_table
          create_replication_triggers Py.join].
    pose proof (create_scylla_table_spec execute table_name columns (pk :: pks)
                  (scylla_ks args) w3) as Hrun.
    cbn zeta in Hrun. rewrite Hrun, E4. clear Hrun.
    cbn -[String.append Py.join executed].
    intros Hs Hside. apply executed_inv in Hs as [err Hs].
    split_in Hs; try discriminate Hs;
      try (injection Hs as <- <-; discriminate Hside).
    apply in_map_iff in Hs as (? & ? & _). discriminate. }
  rewrite (setup_table_migration_composes _ _ _ _ _ _ _ _ _ E1 E2 ltac:(discriminate) E3 E4).
  cbn [snd]. intros _ _. unfold scylla_side_events. split.
  - find_event.
  - do 2 eexists. find_event.
Qed.

End TableSetup.

(** X9.  In the setup of one table, whatever the engine answers, a
    statement of the MariaDB-side steps (the schema query, the mirror
    table, the trigger drops and creations) is executed only after the
    keyspace and the target table were both created without error. *)
Theorem X9_mariadb_side_only_after_scylla_side
    {world : Type} (execute : forall s : stmt, world -> (string + reply s) * world)
    (table_name : string) (args : arguments) (w : world) (s : stmt) :
  In s (executed (snd (setup_table_migration execute table_name args w))) ->
  on_mariadb_side s = true ->
  In (Exec (CreateKeyspace (scylla_ks args)) None)
     (snd (setup_table_migration execute table_name args w)) /\
  exists col_defs pk_def,
    In (Exec (CreateScyllaTable (scylla_ks args) table_name col_defs pk_def) None)
       (snd (setup_table_migration execute table_name args w)).
Proof. apply mariadb_side_comes_last. Qed.

Lemma X9_mariadb_side_only_after_scylla_side_witness :
  let run :=
    setup_table_migration (CatalogEngine.execute Sample.src CatalogEngine.accepts_all)
      "animals" Sample.args CatalogEngine.empty_catalog in
  In (Exec (CreateKeyspace "migration") None) (snd run).
Proof.
  intros run.
  refine (proj1 (X9_mariadb_side_only_after_scylla_side
                   (CatalogEngine.execute Sample.src CatalogEngine.accepts_all)
                   "animals" Sample.args CatalogEngine.empty_catalog
                   (DropTrigger "testdb" "animals_insert_trigger") _ eq_refl)).
  vm_compute. tauto.
Defined.

(** X10.  Once the keyspace and the target table are created, the setup of
    a table is mirror-table creation followed by trigger installation: the
    second starts from the engine state the first left, whatever the first
    answered (its result is not looked at), and the setup returns
    normally. *)
Theorem X10_setup_is_mirror_then_triggers
    {world : Type} (execute : forall s : stmt, world -> (string + reply s) * world)
    (table_name : string) (args : arguments) (w w1 w2 w3 w4 : world)
    (columns : list full_column) (pk_columns : list string) :
  execute (ShowFullColumns (mariadb_database args) table_name) w = (inr columns, w1) ->
  execute (SelectPrimaryKey (mariadb_database args) table_name) w1 = (inr pk_columns, w2) ->
  pk_columns <> [] ->
  execute (CreateKeyspace (scylla_ks args)) w2 = (inr tt, w3) ->
  execute (CreateScyllaTable (scylla_ks args) table_name (map scylla_col_def columns)
             ("PRIMARY KEY (" +:+ Py.join ", " pk_columns +:+ ")")) w3 = (inr tt, w4) ->
  let mirror :=
    create_mariadb_scylla_table execute (mariadb_database args) (mariadb_scylla_database args)
      (scylla_ks args) (scylla_fdw_host args) (scylla_port args) table_name args w4 in
  let triggers :=
    create_replication_triggers execute (mariadb_database args) (mariadb_scylla_database args)
      table_name args (snd (fst mirror)) in
  setup_table_migration execute table_name args w =
    (Return tt, snd (fst triggers),
     scylla_side_events table_name args columns pk_columns ++ snd mirror ++ snd triggers).
Proof. apply setup_table_migration_composes. Qed.

Lemma X10_setup_is_mirror_then_triggers_witness :
  let engine :=
    CatalogEngine.execute Sample.src
      (CatalogEngine.rejecting CatalogEngine.is_create_mirror_table "engine not installed") in
  let w4 :=
    CatalogEngine.add_scylla_table ("migration", "animals")
      (CatalogEngine.add_keyspace "migration" CatalogEngine.empty_catalog) in
  let mirror :=
    create_mariadb_scylla_table engine "testdb" "scylla_db" "migration"
      "scylladb-migration-target" 9042 "animals" Sample.args w4 in
  let triggers :=
    create_replication_triggers engine "testdb" "scylla_db" "animals" Sample.args
      (snd (fst mirror)) in
  fst (fst mirror) = Return false /\
  fst (fst triggers) = Return true /\
  setup_table_migration engine "animals" Sample.args CatalogEngine.empty_catalog =
    (Return tt, snd (fst triggers),
     scylla_side_events "animals" Sample.args
       (CatalogEngine.full_columns_of Sample.src "testdb" "animals") ["animal_id"]
     ++ snd mirror ++ snd triggers).
Proof.
  intros engine w4 mirror triggers.
  split; [vm_compute; reflexivity|]. split; [vm_compute; reflexivity|].
  exact (X10_setup_is_mirror_then_triggers engine "animals" Sample.args
           CatalogEngine.empty_catalog CatalogEngine.empty_catalog CatalogEngine.empty_catalog
           (CatalogEngine.add_keyspace "migration" CatalogEngine.empty_catalog) w4
           (CatalogEngine.full_columns_of Sample.src "testdb" "animals") ["animal_id"]
           eq_refl eq_refl ltac:(discriminate) eq_refl eq_refl).
Defined.

(** X11.  When one of the orchestrator's own two queries on a table fails
    (the column listing or the primary-key query), the setup of that table
    raises the engine's error at once: nothing further is executed and no
    line reports the failure. *)
Theorem X11_orchestrator_query_failures_propagate_unreported
    {world : Type} (execute : forall s : stmt, world -> (string + reply s) * world)
    (table_name : string) (args : arguments) (w : world) :
  (forall msg w1,
     execute (ShowFullColumns (mariadb_database args) table_name) w = (inl msg, w1) ->
     setup_table_migration execute table_name args w =
       (Raise (DbError msg), w1,
        [Print ("  Getting table structure for '" +:+ table_name +:+ "'...");
         Exec (ShowFullColumns (mariadb_database args) table_name) (Some msg)])) /\
  (forall columns w1 msg w2,
     execute (ShowFullColumns (mariadb_database args) table_name) w = (inr columns, w1) ->
     execute (SelectPrimaryKey (mariadb_database args) table_name) w1 = (inl msg, w2) ->
     setup_table_migration execute table_name args w =
       (Raise (DbError msg), w2,
        [Print ("  Getting table structure for '" +:+ table_name +:+ "'...");
         Exec (ShowFullColumns (mariadb_database args) table_name) None;
         Exec (SelectPrimaryKey (mariadb_database args) table_name) (Some msg)])).
Proof.
  split.
  - intros msg w1 H. exact (setup_table_migration_show_fails execute _ _ _ _ _ H).
  - intros columns w1 msg w2 H1 H2.
    exact (setup_table_migration_key_query_fails execute _ _ _ _ _ _ _ H1 H2).
Qed.

(** ** The run as a whole *)

Section RunEdges.

Context {world : Type}.
Variable execute : forall s : stmt, world -> (string + reply s) * world.

Lemma create_scylla_database_fails scylla_database w msg w1 :
  execute (CreateDatabase scylla_database) w = (inl msg, w1) ->
  create_scylla_database execute scylla_database w =
    (Raise (DbError msg), w1,
     [Print ("  Creating database '" +:+ scylla_database +:+ "'...");
      Exec (CreateDatabase scylla_database) (Some msg);
      Print ("  ✗ Error creating database: " +:+ msg)]).
Proof.
  intros H. unfold create_scylla_database. unfold_monad.
  cbn -[String.append]. rewrite H. reflexivity.
Qed.

Lemma get_source_tables_fails database w msg w1 :
  execute (SelectTables database) w = (inl msg, w1) ->
  get_source_tables execute database w =
    (Raise (DbError msg), w1, [Exec (SelectTables database) (Some msg)]).
Proof.
  intros H. unfold get_source_tables. unfold_monad.
  cbn -[String.append]. rewrite H. reflexivity.
Qed.

End RunEdges.

(** X12.  A source database without base tables: [main] creates the mirror
    database, lists the tables, prints that none was found and ends the
    process with exit status 0; no table is set up, nothing is copied and the
    closing summary is not printed. *)
Theorem X12_main_without_tables_exits_zero
    {world : Type} (execute : forall s : stmt, world -> (string + reply s) * world)
    (args : arguments) (w w1 w2 : world) :
  execute (CreateDatabase (mariadb_scylla_database args)) w = (inr tt, w1) ->
  execute (SelectTables (mariadb_database args)) w1 = (inr [], w2) ->
  main execute args w =
    (Raise (SystemExit 0), w2,
     [Print (Py.mul "=" 70);
      Print "MariaDB to ScyllaDB Migration Setup";
      Print (Py.mul "=" 70);
      Print (nl +:+ "[1/4] Connecting to databases...");
      Print (nl +:+ "[2/5] Configuring MariaDB ScyllaDB storage engine...");
      Print "  ℹ Using per-table connection configuration (embedded in COMMENT)";
      Print (nl +:+ "[3/5] Creating ScyllaDB database in MariaDB...");
      Print ("  Creating database '" +:+ mariadb_scylla_database args +:+ "'...");
      Exec (CreateDatabase (mariadb_scylla_database args)) None;
      Print ("  ✓ Database '" +:+ mariadb_scylla_database args +:+ "' ready");
      Print (nl +:+ "[4/5] Setting up table migration...");
      Exec (SelectTables (mariadb_database args)) None;
      Print ("⚠ No tables found in database '" +:+ mariadb_database args +:+ "'")]).
Proof.
  intros Hdb Htables. unfold main, configure_storage_engine.
  rewrite !bind_print, bind_run, (create_scylla_database_ok _ _ _ _ Hdb).
  cbn beta iota. rewrite bind_print, bind_run, (get_source_tables_ok _ _ _ _ _ Htables).
  cbn beta iota. rewrite bind_print. reflexivity.
Qed.

Lemma X12_main_without_tables_exits_zero_witness :
  let src := CatalogEngine.SourceDb (fun _ => []) (fun _ _ => []) (fun _ _ => [])
               (fun _ _ => []) (fun _ _ => 0%N) in
  fst (fst (main (CatalogEngine.execute src CatalogEngine.accepts_all) Sample.args
              CatalogEngine.empty_catalog)) = Raise (SystemExit 0).
Proof.
  intros src.
  rewrite (X12_main_without_tables_exits_zero
             (CatalogEngine.execute src CatalogEngine.accepts_all) Sample.args
             CatalogEngine.empty_catalog
             (CatalogEngine.add_database "scylla_db" CatalogEngine.empty_catalog)
             (CatalogEngine.add_database "scylla_db" CatalogEngine.empty_catalog)
             eq_refl eq_refl).
  reflexivity.
Defined.

(** X13.  The two statements before the table loop are fatal.  When the
    creation of the mirror database fails, [main] prints the error and ends
    with it, having executed nothing else.  When the table listing fails,
    [main] ends with the error right after the two statements, without a
    line reporting it.  In both cases no table is touched. *)
Theorem X13_main_failures_before_the_loop_are_fatal
    {world : Type} (execute : forall s : stmt, world -> (string + reply s) * world)
    (args : arguments) (w : world) :
  (forall msg w1,
     execute (CreateDatabase (mariadb_scylla_database args)) w = (inl msg, w1) ->
     exists t,
       main execute args w = (Raise (DbError msg), w1, t) /\
       executed t = [CreateDatabase (mariadb_scylla_database args)] /\
       ends_with [Exec (CreateDatabase (mariadb_scylla_database args)) (Some msg);
                  Print ("  ✗ Error creating database: " +:+ msg)] t) /\
  (forall w1 msg w2,
     execute (CreateDatabase (mariadb_scylla_database args)) w = (inr tt, w1) ->
     execute (SelectTables (mariadb_database args)) w1 = (inl msg, w2) ->
     exists t,
       main execute args w = (Raise (DbError msg), w2, t) /\
       executed t = [CreateDatabase (mariadb_scylla_database args);
                     SelectTables (mariadb_database args)] /\
       ends_with [Print (nl +:+ "[4/5] Setting up table migration...");
                  Exec (SelectTables (mariadb_database args)) (Some msg)] t).
Proof.
  split.
  - intros msg w1 H. unfold main, configure_storage_engine.
    rewrite !bind_print, bind_run, (create_scylla_database_fails _ _ _ _ _ H).
    cbn beta iota. eexists. split; [reflexivity|]. split; [reflexivity|].
    solve_ends_with.
  - intros w1 msg w2 H1 H2. unfold main, configure_storage_engine.
    rewrite !bind_print, bind_run, (create_scylla_database_ok _ _ _ _ H1).
    cbn beta iota. rewrite bind_print, bind_run, (get_source_tables_fails _ _ _ _ _ H2).
    cbn beta iota. eexists. split; [reflexivity|]. split; [reflexivity|].
    solve_ends_with.
Qed.

(** X14.  The bulk copy executes its copy statement exactly when the row
    count query succeeds with a count other than 0. *)
Theorem X14_copy_statement_iff_rows
    {world : Type} (execute : forall s : stmt, world -> (string + reply s) * world)
    (source_database scylla_database table_name : string) (w : world) :
  In (InsertSelect scylla_database source_database table_name)
     (executed (snd (migrate_table_data execute source_database scylla_database table_name w)))
  <->
  exists n w1,
    execute (SelectCount source_database table_name) w = (inr n, w1) /\ n <> 0%N.
Proof.
  destruct (execute (SelectCount source_database table_name) w) as [[msg|n] w1] eqn:E.
  - unfold migrate_table_data. unfold_monad. cbn -[String.append Py.str_of_N].
    rewrite E. cbn. split.
    + intros [H|[]]. discriminate.
    + intros (n & w2 & H & _). discriminate.
  - cbn [reply] in n. destruct (N.eq_dec n 0%N) as [->|Hn].
    + rewrite (migrate_table_data_empty execute _ _ _ _ _ E). cbn. split.
      * intros [H|[]]. discriminate.
      * intros (n & w2 & H & Hn). injection H as <- _. congruence.
    + rewrite (migrate_table_data_rows execute _ _ _ _ _ _ E Hn). split.
      * intros _. now exists n, w1.
      * intros _. cbn [snd]. rewrite executed_app.
        apply in_or_app. right.
        destruct (fst (execute _ w1)); cbn; tauto.
Qed.

(** ** Trigger installation *)

Section TriggerInstallation.

Context {world : Type}.
Variable execute : forall s : stmt, world -> (string + reply s) * world.

#[local] Arguments primary_keys : simpl never.
#[local] Arguments insert_trigger : simpl never.
#[local] Arguments update_trigger : simpl never.
#[local] Arguments delete_trigger : simpl never.

Lemma triggers_true_all_created source_database scylla_database table args w :
  exists b w1 t,
    create_replication_triggers execute source_database scylla_database table args w =
      (Return b, w1, t) /\
    (b = true ->
     exists rows w0,
       execute (SelectColumns source_database table) w = (inr rows, w0) /\
       primary_keys (map column_of_row rows) <> [] /\
       executed t =
         [SelectColumns source_database table;
          DropTrigger source_database (trigger_name table "insert");
          DropTrigger source_database (trigger_name table "update");
          DropTrigger source_database (trigger_name table "delete");
          Delimiter "$$";
          insert_trigger (map column_of_row rows) source_database scylla_database table args;
          Delimiter ";";
          Delimiter "$$";
          update_trigger (map column_of_row rows) source_database scylla_database table args;
          Delimiter ";";
          Delimiter "$$";
          delete_trigger (map column_of_row rows) source_database scylla_database table args;
          Delimiter ";"] /\
       (forall s, In s (failed t) -> exists n, s = DropTrigger source_database n)).
Proof.
  unfold create_replication_triggers, drop_existing_triggers, get_table_schema.
  cbn [for_each]. unfold_monad.
  cbn -[String.append primary_keys insert_trigger update_trigger delete_trigger].
  destruct (execute (SelectColumns source_database table) w) as [[msg|rows] w0] eqn:E;
    cbn -[String.append primary_keys insert_trigger update_trigger delete_trigger].
  { do 3 eexists. split; [reflexivity | discriminate]. }
  destruct (map column_of_row rows) as [|col cols] eqn:Hc;
    cbn -[String.append primary_keys insert_trigger update_trigger delete_trigger].
  { do 3 eexists. split; [reflexivity | discriminate]. }
  destruct (primary_keys (col :: cols)) as [|pk pks] eqn:Hpk;
    cbn -[String.append primary_keys insert_trigger update_trigger delete_trigger].
  { do 3 eexists. split; [reflexivity | discriminate]. }
  repeat match goal with
         | |- context [match execute ?s ?w' with _ => _ end] =>
             let r := fresh "r" in
             let w1 := fresh "w" in
             let msg := fresh "msg" in
             destruct (execute s w') as [[msg | r] w1];
             cbn -[String.append primary_keys insert_trigger update_trigger delete_trigger]
         end;
    (do 3 eexists; split; [reflexivity|]; intros Hb;
     first
       [ discriminate Hb
       | exists rows, w0; rewrite Hc, Hpk; split; [reflexivity|]; split; [discriminate|];
         split; [reflexivity|];
         intros s Hs; cbn in Hs;
         repeat (destruct Hs as [<-|Hs]; [eexists; reflexivity|]); destruct Hs ]).
Qed.

(** An engine that refuses [DELIMITER $$] in every state. *)
Lemma triggers_stop_at_delimiter source_database scylla_database table args w msg rows w0 :
  (forall w', fst (execute (Delimiter "$$") w') = inl msg) ->
  execute (SelectColumns source_database table) w = (inr rows, w0) ->
  primary_keys (map column_of_row rows) <> [] ->
  exists w1 t,
    create_replication_triggers execute source_database scylla_database table args w =
      (Return false, w1, t) /\
    executed t =
      [SelectColumns source_database table;
       DropTrigger source_database (trigger_name table "insert");
       DropTrigger source_database (trigger_name table "update");
       DropTrigger source_database (trigger_name table "delete");
       Delimiter "$$"] /\
    ends_with [Exec (Delimiter "$$") (Some msg);
               Print ("  ✗ Error creating triggers for " +:+ source_database +:+ "." +:+
                      table +:+ ": " +:+ msg);
               PrintExc (DbError msg)] t.
Proof.
  intros Hrej E Hpk.
  unfold create_replication_triggers, drop_existing_triggers, get_table_schema.
  cbn [for_each]. unfold_monad.
  cbn -[String.append primary_keys insert_trigger update_trigger delete_trigger].
  rewrite E.
  cbn -[String.append primary_keys insert_trigger update_trigger delete_trigger].
  destruct (map column_of_row rows) as [|col cols] eqn:Hc; [now cbn in Hpk|].
  cbn -[String.append primary_keys insert_trigger update_trigger delete_trigger].
  destruct (primary_keys (col :: cols)) as [|pk pks] eqn:Hpk'; [congruence|].
  cbn -[String.append primary_keys insert_trigger update_trigger delete_trigger].
  repeat match goal with
         | |- context [match execute (DropTrigger ?d ?n) ?w' with _ => _ end] =>
             destruct (execute (DropTrigger d n) w') as [[? | ?] ?];
             cbn -[String.append primary_keys insert_trigger update_trigger delete_trigger]
         end.
  all: match goal with
       | |- context [match execute (Delimiter "$$") ?w' with _ => _ end] =>
           pose proof (Hrej w') as Hd;
           destruct (execute (Delimiter "$$") w') as [[m' | r'] w1']
       end.
  all: cbn in Hd; try discriminate Hd.
  all: injection Hd as ->.
  all: cbn -[String.append primary_keys insert_trigger update_trigger delete_trigger].
  all: do 2 eexists; (split; [reflexivity|]); split; [reflexivity | solve_ends_with].
Qed.

End TriggerInstallation.

(** X15.  Trigger installation answers [True] only when it went all the
    way: the schema query returned columns with a primary key, the three
    drops and the three [CREATE TRIGGER] statements, each between its two
    [DELIMITER] commands, were executed in that order, and nothing failed
    except possibly a drop. *)
Theorem X15_triggers_true_means_all_created
    {world : Type} (execute : forall s : stmt, world -> (string + reply s) * world)
    (source_database scylla_database table : string) (args : arguments) (w : world) :
  fst (fst (create_replication_triggers execute source_database scylla_database table args w))
    = Return true ->
  exists rows w0,
    execute (SelectColumns source_database table) w = (inr rows, w0) /\
    primary_keys (map column_of_row rows) <> [] /\
    executed (snd (create_replication_triggers execute source_database scylla_database
                     table args w)) =
      [SelectColumns source_database table;
       DropTrigger source_database (trigger_name table "insert");
       DropTrigger source_database (trigger_name table "update");
       DropTrigger source_database (trigger_name table "delete");
       Delimiter "$$";
       insert_trigger (map column_of_row rows) source_database scylla_database table args;
       Delimiter ";";
       Delimiter "$$";
       update_trigger (map column_of_row rows) source_database scylla_database table args;
       Delimiter ";";
       Delimiter "$$";
       delete_trigger (map column_of_row rows) source_database scylla_database table args;
       Delimiter ";"] /\
    (forall s,
       In s (failed (snd (create_replication_triggers execute source_database scylla_database
                            table args w))) ->
       exists n, s = DropTrigger source_database n).
Proof.
  destruct (triggers_true_all_created execute source_database scylla_database table args w)
    as (b & w1 & t & -> & H).
  cbn [fst snd]. intros Hb. injection Hb as ->. now apply H.
Qed.

Lemma X15_triggers_true_means_all_created_witness :
  exists rows w0,
    CatalogEngine.execute Sample.src CatalogEngine.accepts_all
      (SelectColumns "testdb" "animals") CatalogEngine.empty_catalog = (inr rows, w0) /\
    primary_keys (map column_of_row rows) <> [].
Proof.
  destruct (X15_triggers_true_means_all_created
              (CatalogEngine.execute Sample.src CatalogEngine.accepts_all)
              "testdb" "scylla_db" "animals" Sample.args CatalogEngine.empty_catalog)
    as (rows & w0 & H1 & H2 & _).
  - vm_compute. reflexivity.
  - exists rows, w0. split; [exact H1 | exact H2].
Defined.

(** X16.  On an engine that refuses the client command [DELIMITER $$],
    trigger installation for a table with a primary key never reaches a
    [CREATE TRIGGER]: it executes the three drops, fails at the first
    [DELIMITER], prints the error with the traceback and answers [False]. *)
Theorem X16_rejected_delimiter_stops_trigger_installation
    {world : Type} (execute : forall s : stmt, world -> (string + reply s) * world)
    (source_database scylla_database table : string) (args : arguments) (w w0 : world)
    (msg : string) (rows : list catalog_row) :
  (forall w', fst (execute (Delimiter "$$") w') = inl msg) ->
  execute (SelectColumns source_database table) w = (inr rows, w0) ->
  primary_keys (map column_of_row rows) <> [] ->
  exists w1 t,
    create_replication_triggers execute source_database scylla_database table args w =
      (Return false, w1, t) /\
    executed t =
      [SelectColumns source_database table;
       DropTrigger source_database (trigger_name table "insert");
       DropTrigger source_database (trigger_name table "update");
       DropTrigger source_database (trigger_name table "delete");
       Delimiter "$$"] /\
    ends_with [Exec (Delimiter "$$") (Some msg);
               Print ("  ✗ Error creating triggers for " +:+ source_database +:+ "." +:+
                      table +:+ ": " +:+ msg);
               PrintExc (DbError msg)] t.
Proof. apply triggers_stop_at_delimiter. Qed.

Lemma X16_rejected_delimiter_stops_trigger_installation_witness :
  exists w1 t,
    create_replication_triggers
      (CatalogEngine.execute Sample.src (CatalogEngine.rejects_delimiter false))
      "testdb" "scylla_db" "animals" Sample.args CatalogEngine.empty_catalog =
      (Return false, w1, t) /\
    executed t =
      [SelectColumns "testdb" "animals";
       DropTrigger "testdb" "animals_insert_trigger";
       DropTrigger "testdb" "animals_update_trigger";
       DropTrigger "testdb" "animals_delete_trigger";
       Delimiter "$$"].
Proof.
  destruct (X16_rejected_delimiter_stops_trigger_installation
              (CatalogEngine.execute Sample.src (CatalogEngine.rejects_delimiter false))
              "testdb" "scylla_db" "animals" Sample.args
              CatalogEngine.empty_catalog CatalogEngine.empty_catalog
              "You have an error in your SQL syntax"
              (CatalogEngine.columns_of Sample.src "testdb" "animals")
              (fun _ => eq_refl) eq_refl ltac:(discriminate))
    as (w1 & t & H1 & H2 & _).
  exists w1, t. split; [exact H1 | exact H2].
Defined.

(** ** What a setup leaves in the catalog model *)

#[local] Set Warnings "-clear-no-such-hyp".

Section CatalogAfterSetup.

Lemma setup_effect_with_key src delimiter_ok table args c :
  CatalogEngine.primary_key_of src (mariadb_database args) table <> [] ->
  primary_keys (map column_of_row
                  (CatalogEngine.columns_of src (mariadb_database args) table)) <> [] ->
  CatalogEngine.setup_effect src delimiter_ok table args c =
    let c1 :=
      CatalogEngine.drop_all (mariadb_database args) table
        (CatalogEngine.add_mirror_table (mariadb_scylla_database args, table)
           (CatalogEngine.add_scylla_table (scylla_ks args, table)
              (CatalogEngine.add_keyspace (scylla_ks args) c))) in
    if delimiter_ok then CatalogEngine.add_all (mariadb_database args) table c1 else c1.
Proof.
  intros Hpk Hkey.
  unfold CatalogEngine.setup_effect, CatalogEngine.install_effect, CatalogEngine.mirror_effect.
  destruct (CatalogEngine.primary_key_of src (mariadb_database args) table); [congruence|].
  destruct (CatalogEngine.columns_of src (mariadb_database args) table) as [|row rows];
    [now cbn in Hkey|].
  cbn [map] in *.
  destruct (primary_keys (column_of_row row :: map column_of_row rows)); [congruence|].
  reflexivity.
Qed.

End CatalogAfterSetup.

(** X17.  On the catalog model with [DELIMITER] accepted, the setup of a
    table that has columns and a primary key, from any catalog, returns
    without a failed statement and leaves the keyspace, the target table,
    the mirror table and the table's three triggers in the catalog; nothing
    that was in the catalog before is missing afterwards. *)
Theorem X17_setup_leaves_every_object_in_place
    (src : CatalogEngine.source_db) (table : string) (args : arguments)
    (c : CatalogEngine.catalog) :
  CatalogEngine.primary_key_of src (mariadb_database args) table <> [] ->
  primary_keys (map column_of_row
                  (CatalogEngine.columns_of src (mariadb_database args) table)) <> [] ->
  exists c' t,
    setup_table_migration
      (CatalogEngine.execute src (CatalogEngine.rejects_delimiter true)) table args c =
      (Return tt, c', t) /\
    failed t = [] /\
    scylla_ks args ∈ CatalogEngine.keyspaces c' /\
    (scylla_ks args, table) ∈ CatalogEngine.scylla_tables c' /\
    (mariadb_scylla_database args, table) ∈ CatalogEngine.mirror_tables c' /\
    (forall trigger_type, In trigger_type ["insert"; "update"; "delete"] ->
       (mariadb_database args, trigger_name table trigger_type) ∈ CatalogEngine.triggers c') /\
    CatalogEngine.databases c ⊆ CatalogEngine.databases c' /\
    CatalogEngine.mirror_tables c ⊆ CatalogEngine.mirror_tables c' /\
    CatalogEngine.triggers c ⊆ CatalogEngine.triggers c' /\
    CatalogEngine.keyspaces c ⊆ CatalogEngine.keyspaces c' /\
    CatalogEngine.scylla_tables c ⊆ CatalogEngine.scylla_tables c'.
Proof.
  intros Hpk Hkey.
  destruct (CatalogRuns.setup_run src true table args c) as (t & Hrun & _ & Hf).
  rewrite (setup_effect_with_key src true table args c Hpk Hkey) in Hrun.
  do 2 eexists. split; [exact Hrun|]. split; [now apply Hf|].
  cbn. repeat match goal with |- _ /\ _ => split end.
  all: try (intros ty [<-|[<-|[<-|[]]]]).
  all: try change (trigger_name table "insert") with (table +:+ "_insert_trigger").
  all: try change (trigger_name table "update") with (table +:+ "_update_trigger").
  all: try change (trigger_name table "delete") with (table +:+ "_delete_trigger").
  all: try (intros x Hx;
            destruct (decide (x = (mariadb_database args, table +:+ "_insert_trigger")));
            destruct (decide (x = (mariadb_database args, table +:+ "_update_trigger")));
            destruct (decide (x = (mariadb_database args, table +:+ "_delete_trigger")))).
  all: set_solver.
Qed.

Lemma X17_setup_leaves_every_object_in_place_witness :
  exists c' t,
    setup_table_migration
      (CatalogEngine.execute Sample.src (CatalogEngine.rejects_delimiter true))
      "animals" Sample.args CatalogEngine.empty_catalog = (Return tt, c', t) /\
    failed t = [] /\
    ("scylla_db", "animals") ∈ CatalogEngine.mirror_tables c'.
Proof.
  destruct (X17_setup_leaves_every_object_in_place Sample.src "animals" Sample.args
              CatalogEngine.empty_catalog ltac:(discriminate) ltac:(discriminate))
    as (c' & t & H1 & H2 & _ & _ & H5 & _).
  exists c', t. split; [exact H1|]. split; [exact H2 | exact H5].
Defined.

(** X18.  On the catalog model with [DELIMITER] refused, the setup of a
    table that has columns and a primary key still returns normally and
    creates keyspace, target table and mirror table, but it leaves the table
    without any of its three triggers, also when they were installed
    before: they are dropped and never created again. *)
Theorem X18_refused_delimiter_leaves_no_trigger
    (src : CatalogEngine.source_db) (table : string) (args : arguments)
    (c : CatalogEngine.catalog) :
  CatalogEngine.primary_key_of src (mariadb_database args) table <> [] ->
  primary_keys (map column_of_row
                  (CatalogEngine.columns_of src (mariadb_database args) table)) <> [] ->
  exists c' t,
    setup_table_migration
      (CatalogEngine.execute src (CatalogEngine.rejects_delimiter false)) table args c =
      (Return tt, c', t) /\
    (forall trigger_type, In trigger_type ["insert"; "update"; "delete"] ->
       (mariadb_database args, trigger_name table trigger_type) ∉ CatalogEngine.triggers c') /\
    scylla_ks args ∈ CatalogEngine.keyspaces c' /\
    (scylla_ks args, table) ∈ CatalogEngine.scylla_tables c' /\
    (mariadb_scylla_database args, table) ∈ CatalogEngine.mirror_tables c'.
Proof.
  intros Hpk Hkey.
  destruct (CatalogRuns.setup_run src false table args c) as (t & Hrun & _ & _).
  rewrite (setup_effect_with_key src false table args c Hpk Hkey) in Hrun.
  do 2 eexists. split; [exact Hrun|].
  cbn. repeat match goal with |- _ /\ _ => split end.
  all: try (intros ty [<-|[<-|[<-|[]]]]).
  all: try change (trigger_name table "insert") with (table +:+ "_insert_trigger").
  all: try change (trigger_name table "update") with (table +:+ "_update_trigger").
  all: try change (trigger_name table "delete") with (table +:+ "_delete_trigger").
  all: try (intros x Hx;
            destruct (decide (x = (mariadb_database args, table +:+ "_insert_trigger")));
            destruct (decide (x = (mariadb_database args, table +:+ "_update_trigger")));
            destruct (decide (x = (mariadb_database args, table +:+ "_delete_trigger")))).
  all: set_solver.
Qed.

Lemma X18_refused_delimiter_leaves_no_trigger_witness :
  let before :=
    CatalogEngine.add_trigger ("testdb", "animals_update_trigger")
      CatalogEngine.empty_catalog in
  exists c' t,
    setup_table_migration
      (CatalogEngine.execute Sample.src (CatalogEngine.rejects_delimiter false))
      "animals" Sample.args before = (Return tt, c', t) /\
    ("testdb", trigger_name "animals" "update") ∉ CatalogEngine.triggers c'.
Proof.
  intros before.
  destruct (X18_refused_delimiter_leaves_no_trigger Sample.src "animals" Sample.args
              before ltac:(discriminate) ltac:(discriminate))
    as (c' & t & H1 & H2 & _).
  exists c', t. split; [exact H1|]. apply H2. cbn. tauto.
Defined.
